(** * The lifecycle handoff protocol: [send_request] and [send_response]

    A shallow embedding of [.plan/send_request.py] and
    [.lifecycle/send_response.py] over an explicit model of the part of
    the POSIX filesystem and of the Python library ([pathlib], [shutil],
    [open]) that the two scripts use.

    Scope of the model, fixed once and for all:
    - the filesystem is a finite map from canonical absolute locations to
      nodes; a node is a regular file with its text, or a directory;
      there are no hard links, no permissions, no quotas; symbolic links
      are left out of the first model and present in the second, the
      module [Linked], which agrees with the first on every run that
      meets no link;
    - a file's content is the text [f.read()] returns for it;
    - every library call is one atomic step; the calls that mutate the
      filesystem are recorded, in order, in a trail;
    - the transcript written with [print] is not modelled;
    - paths follow the POSIX flavour of [pathlib]: [/] is the only
      separator. *)

From Stdlib Require Import Ascii.
From stdpp Require Import base option list strings gmap fin_maps.


(* ===================================================================== *)
(** * Strings as Python uses them here                                    *)
(* ===================================================================== *)

(** [needle in hay] on two [str] values: substring containment. *)
Fixpoint str_in (needle hay : string) : bool :=
  if String.prefix needle hay then true
  else match hay with
       | EmptyString => false
       | String _ rest => str_in needle rest
       end.

(** The one-character strings the validation looks for. *)
Definition slash : string := String "047"%char EmptyString.
Definition backslash : string := String "092"%char EmptyString.

(** Splitting a string at every [/]; the result is never empty. *)
Fixpoint split_slash (s : string) : list string :=
  match s with
  | EmptyString => [EmptyString]
  | String c rest =>
      if Ascii.eqb c "047"%char then EmptyString :: split_slash rest
      else match split_slash rest with
           | [] => [String c EmptyString]
           | h :: t => String c h :: t
           end
  end.

(** The components [pathlib] keeps of a relative operand: empty
    components and [.] are dropped, [..] is kept. *)
Definition kept (x : string) : bool :=
  negb (String.eqb x "") && negb (String.eqb x ".").

Definition components (s : string) : list string :=
  List.filter kept (split_slash s).

(** The two names the kernel treats specially. *)
Definition dots (x : string) : bool :=
  String.eqb x ".." || String.eqb x ".".

(* ===================================================================== *)
(** * The clock and [strftime('%Y%m%d_%H%M%S')]                           *)
(* ===================================================================== *)

Record datetime := {
  year : nat; month : nat; day : nat;
  hour : nat; minute : nat; second : nat
}.

Definition digit (n : nat) : ascii := ascii_of_nat (48 + n mod 10).

Definition pad2 (n : nat) : string :=
  String (digit (n / 10)) (String (digit n) EmptyString).

Definition pad4 (n : nat) : string :=
  String (digit (n / 1000)) (String (digit (n / 100)) (pad2 n)).

(** The value of [datetime.now().strftime('%Y%m%d_%H%M%S')] when the
    clock reads [t] (a four-digit year). *)
Definition strftime (t : datetime) : string :=
  pad4 (year t) +:+ pad2 (month t) +:+ pad2 (day t) +:+ "_" +:+
  pad2 (hour t) +:+ pad2 (minute t) +:+ pad2 (second t).

(* ===================================================================== *)
(** * Paths                                                               *)
(* ===================================================================== *)

(** A location: the names from the filesystem root down to an entry,
    none of them [.] or [..]. *)
Notation loc := (list string).

(** A [pathlib.Path] value: a directory already resolved ([base]) and the
    components still to be looked up below it, in order. *)
Record Path := { base : loc; segs : list string }.

(** [p / s] (PosixPath): an absolute operand replaces [p]; a relative one
    contributes its kept components. *)
Definition truediv (p : Path) (s : string) : Path :=
  if String.prefix slash s
  then {| base := []; segs := components s |}
  else {| base := base p; segs := segs p ++ components s |}.

Infix "//" := truediv (at level 40, left associativity).

(** [os.path.basename(str(p))] *)
Definition basename (p : Path) : string :=
  List.last (segs p) (List.last (base p) "").

(* ===================================================================== *)
(** * The filesystem                                                      *)
(* ===================================================================== *)

Inductive node :=
| File (content : string)
| Dir.

Notation fs := (gmap (list string) node).

(** The filesystem root is a directory whatever the map holds. *)
Definition node_at (σ : fs) (k : loc) : option node :=
  match k with
  | [] => Some Dir
  | _ => σ !! k
  end.

Inductive exn :=
| FileNotFoundError
| FileExistsError
| IsADirectoryError
| NotADirectoryError
| SameFileError
| OSError_ELOOP.

Inductive outcome (A : Type) :=
| Returned (a : A)
| Raised (e : exn).
Arguments Returned {A} a.
Arguments Raised {A} e.

(** One step of name lookup from directory [cur]. *)
Definition step (cur : loc) (s : string) : loc :=
  if String.eqb s ".." then removelast cur
  else if String.eqb s "." then cur
  else cur ++ [s].

(** Kernel path resolution: every component is looked up in a location
    that must be an existing directory. The last component need not
    exist. *)
Fixpoint walk (σ : fs) (cur : loc) (names : list string) : outcome loc :=
  match names with
  | [] => Returned cur
  | s :: rest =>
      match node_at σ cur with
      | Some Dir => walk σ (step cur s) rest
      | Some (File _) => Raised NotADirectoryError
      | None => Raised FileNotFoundError
      end
  end.

Definition resolve (σ : fs) (p : Path) : outcome loc :=
  walk σ (base p) (segs p).

(** [os.stat] *)
Definition stat (σ : fs) (p : Path) : outcome node :=
  match resolve σ p with
  | Returned k =>
      match node_at σ k with
      | Some n => Returned n
      | None => Raised FileNotFoundError
      end
  | Raised e => Raised e
  end.

(** [Path.exists()]: a failed [stat] means "no". *)
Definition path_exists (σ : fs) (p : Path) : bool :=
  match stat σ p with
  | Returned _ => true
  | Raised _ => false
  end.

(** [os.path.isdir] *)
Definition isdir (σ : fs) (p : Path) : bool :=
  match stat σ p with
  | Returned Dir => true
  | _ => false
  end.

(** [shutil._samefile]: both exist and are the same entry. *)
Definition samefile (σ : fs) (p q : Path) : bool :=
  match resolve σ p, resolve σ q with
  | Returned k1, Returned k2 =>
      bool_decide (k1 = k2) && bool_decide (is_Some (node_at σ k1))
  | _, _ => false
  end.

(* ===================================================================== *)
(** * Mutations and the trail                                             *)
(* ===================================================================== *)

Inductive effect :=
| Mkdir (k : loc)
| Write (k : loc) (content : string)
| Unlink (k : loc).

Definition target (e : effect) : loc :=
  match e with
  | Mkdir k | Write k _ | Unlink k => k
  end.

Definition apply_effect (σ : fs) (e : effect) : fs :=
  match e with
  | Mkdir k => <[k := Dir]> σ
  | Write k c => <[k := File c]> σ
  | Unlink k => delete k σ
  end.

Definition replay (es : list effect) (σ : fs) : fs :=
  foldl apply_effect σ es.

(** The state a run threads through: the filesystem as it is now and the
    mutations performed so far, oldest first. *)
Record world := { disk : fs; trail : list effect }.

Definition emit (e : effect) (w : world) : world :=
  {| disk := apply_effect (disk w) e; trail := trail w ++ [e] |}.

(** Computations that read and mutate the filesystem and may raise. *)
Definition M (A : Type) : Type := world → outcome A * world.

#[global] Instance M_ret : MRet M := λ A a w, (Returned a, w).

#[global] Instance M_bind : MBind M := λ A B f m w,
  match m w with
  | (Returned a, w') => f a w'
  | (Raised e, w') => (Raised e, w')
  end.

(* ===================================================================== *)
(** * The library calls the scripts make                                  *)
(* ===================================================================== *)

(** [p.exists()] *)
Definition exists_ (p : Path) : M bool :=
  λ w, (Returned (path_exists (disk w) p), w).

(** [p.mkdir(exist_ok=True)] *)
Definition mkdir_exist_ok (p : Path) : M unit := λ w,
  match resolve (disk w) p with
  | Raised e => (Raised e, w)
  | Returned k =>
      match node_at (disk w) k with
      | Some Dir => (Returned tt, w)
      | Some (File _) => (Raised FileExistsError, w)
      | None => (Returned tt, emit (Mkdir k) w)
      end
  end.

(** [open(p, 'r')] followed by [f.read()] *)
Definition read_text (p : Path) : M string := λ w,
  match stat (disk w) p with
  | Returned (File c) => (Returned c, w)
  | Returned Dir => (Raised IsADirectoryError, w)
  | Raised e => (Raised e, w)
  end.

(** [open(p, 'wb')] followed by writing [c]: creates or truncates. *)
Definition write_bytes (p : Path) (c : string) : M unit := λ w,
  match resolve (disk w) p with
  | Raised e => (Raised e, w)
  | Returned k =>
      match node_at (disk w) k with
      | Some Dir => (Raised IsADirectoryError, w)
      | _ => (Returned tt, emit (Write k c) w)
      end
  end.

(** The path [shutil.copy2] writes: a destination that is a directory
    receives the copy under the source's name,
    [os.path.join(dst, os.path.basename(src))]. *)
Definition recipient (σ : fs) (dst : Path) (name : string) : Path :=
  if isdir σ dst then dst // name else dst.

(** [shutil.copy2(src, dst)] *)
Definition copy2 (src dst : Path) : M unit := λ w,
  let dst' := recipient (disk w) dst (basename src) in
  if samefile (disk w) src dst' then (Raised SameFileError, w)
  else (c ← read_text src; write_bytes dst' c) w.

(** [p.unlink()] *)
Definition unlink (p : Path) : M unit := λ w,
  match resolve (disk w) p with
  | Raised e => (Raised e, w)
  | Returned k =>
      match node_at (disk w) k with
      | Some (File _) => (Returned tt, emit (Unlink k) w)
      | Some Dir => (Raised IsADirectoryError, w)
      | None => (Raised FileNotFoundError, w)
      end
  end.

(* ===================================================================== *)
(** * Runs, and the vocabulary used to talk about them                    *)
(* ===================================================================== *)

(** A run starts with an empty trail. *)
Definition run {A} (m : M A) (σ : fs) : outcome A * world :=
  m {| disk := σ; trail := [] |}.

(** The location a path denotes whenever it resolves. *)
Definition locate (p : Path) : loc := foldl step (base p) (segs p).

(** The location [shutil.copy2] writes when asked to copy a file called
    [name] to [dst]. *)
Definition landing (σ : fs) (dst : Path) (name : string) : loc :=
  locate (recipient σ dst name).


(** No directory stands at the location [p] denotes. *)
Definition not_a_directory (σ : fs) (p : Path) : Prop :=
  node_at σ (locate p) ≠ Some Dir.

(** A regular file with text [c] is found at [p]. *)
Definition file_at (σ : fs) (p : Path) (c : string) : Prop :=
  stat σ p = Returned (File c).

(** Every directory of [σ] is a directory of [σ']. *)
Definition dirs_le (σ σ' : fs) : Prop :=
  ∀ t, node_at σ t = Some Dir → node_at σ' t = Some Dir.

(** A filesystem proper: every entry sits in a directory. *)
Definition wf (σ : fs) : Prop :=
  map_Forall (λ k _, node_at σ (removelast k) = Some Dir) σ.

(** [k] is the location [d] or lies below it. *)
Definition inside (d k : loc) : Prop := d `prefix_of` k.

#[global] Instance node_eq_dec : EqDecision node.
Proof. solve_decision. Defined.

#[global] Instance effect_eq_dec : EqDecision effect.
Proof. solve_decision. Defined.

#[global] Instance wf_dec σ : Decision (wf σ).
Proof. unfold wf. apply _. Defined.

(** The status the interpreter exits with: the argument of [sys.exit],
    and 1 after an exception nobody caught. *)
Definition exit_status (o : outcome nat) : nat :=
  match o with
  | Returned n => n
  | Raised _ => 1
  end.

(** Every run of [m] leaves every directory it found a directory. *)
Definition keeps_dirs {A} (m : M A) : Prop :=
  ∀ w o w', m w = (o, w') → dirs_le (disk w) (disk w').

(* ===================================================================== *)
(** * The two transfer operations                                         *)
(* ===================================================================== *)

Definition valid_teams : list string := ["dev"; "test"; "review"; "doc"].

(** [not lifecycle_folder or '/' in lifecycle_folder or '\\' in lifecycle_folder] *)
Definition bad_folder_name (lifecycle_folder : string) : bool :=
  String.eqb lifecycle_folder "" || str_in slash lifecycle_folder
  || str_in backslash lifecycle_folder.

(* ===================================================================== *)
(** * The same scripts on a filesystem with symbolic links                *)
(* ===================================================================== *)

(** The model above has no symbolic links. This second model has them:
    a third kind of node, a link, holds an absolute path, given by its
    components. Looking a path up follows the links it meets, at most
    [max_links] of them; [unlink] and the creation test of [mkdir] do not
    follow a link in the last position. The library calls and the two
    scripts are written out a second time over this filesystem. *)
Module Linked.

Inductive node :=
| File (content : string)
| Dir
| Link (target : list string).

Notation fs := (gmap (list string) node).

Definition node_at (σ : fs) (k : loc) : option node :=
  match k with
  | [] => Some Dir
  | _ => σ !! k
  end.

(** The number of links the kernel follows in one lookup. *)
Definition max_links : nat := 40.

(** Kernel path resolution. A link met on the way is replaced by its
    target, looked up from the filesystem root; a link in the last
    position is followed only if [follow_last]. *)
Fixpoint walk (fuel : nat) (σ : fs) (follow_last : bool)
  : loc → list string → outcome loc :=
  fix go (cur : loc) (names : list string) {struct names} : outcome loc :=
    match names with
    | [] => Returned cur
    | s :: rest =>
        match node_at σ cur with
        | Some Dir =>
            match node_at σ (step cur s) with
            | Some (Link target) =>
                if negb follow_last && bool_decide (rest = [])
                then Returned (step cur s)
                else match fuel with
                     | 0 => Raised OSError_ELOOP
                     | S fuel' => walk fuel' σ follow_last [] (target ++ rest)
                     end
            | _ => go (step cur s) rest
            end
        | Some (File _) | Some (Link _) => Raised NotADirectoryError
        | None => Raised FileNotFoundError
        end
    end.

Definition resolve (σ : fs) (follow_last : bool) (p : Path) : outcome loc :=
  walk max_links σ follow_last (base p) (segs p).

(** [os.stat]: follows links. *)
Definition stat (σ : fs) (p : Path) : outcome node :=
  match resolve σ true p with
  | Returned k =>
      match node_at σ k with
      | Some n => Returned n
      | None => Raised FileNotFoundError
      end
  | Raised e => Raised e
  end.

Definition path_exists (σ : fs) (p : Path) : bool :=
  match stat σ p with
  | Returned _ => true
  | Raised _ => false
  end.

Definition isdir (σ : fs) (p : Path) : bool :=
  match stat σ p with
  | Returned Dir => true
  | _ => false
  end.

Definition samefile (σ : fs) (p q : Path) : bool :=
  match resolve σ true p, resolve σ true q with
  | Returned k1, Returned k2 =>
      bool_decide (k1 = k2) && bool_decide (is_Some (node_at σ k1))
  | _, _ => false
  end.

Definition apply_effect (σ : fs) (e : effect) : fs :=
  match e with
  | Mkdir k => <[k := Dir]> σ
  | Write k c => <[k := File c]> σ
  | Unlink k => delete k σ
  end.

Definition replay (es : list effect) (σ : fs) : fs :=
  foldl apply_effect σ es.

Record world := { disk : fs; trail : list effect }.

Definition emit (e : effect) (w : world) : world :=
  {| disk := apply_effect (disk w) e; trail := trail w ++ [e] |}.

Definition M (A : Type) : Type := world → outcome A * world.

#[global] Instance M_ret : MRet M := λ A a w, (Returned a, w).

#[global] Instance M_bind : MBind M := λ A B f m w,
  match m w with
  | (Returned a, w') => f a w'
  | (Raised e, w') => (Raised e, w')
  end.

(** [p.exists()] *)
Definition exists_ (p : Path) : M bool :=
  λ w, (Returned (path_exists (disk w) p), w).

(** [p.mkdir(exist_ok=True)]: [os.mkdir] fails on any existing entry,
    a link included; the error is dropped when [p.is_dir()], which
    follows links. *)
Definition mkdir_exist_ok (p : Path) : M unit := λ w,
  match resolve (disk w) false p with
  | Raised e => (Raised e, w)
  | Returned k =>
      match node_at (disk w) k with
      | Some Dir => (Returned tt, w)
      | Some (File _) => (Raised FileExistsError, w)
      | Some (Link _) =>
          if isdir (disk w) p then (Returned tt, w)
          else (Raised FileExistsError, w)
      | None => (Returned tt, emit (Mkdir k) w)
      end
  end.

(** [open(p, 'r')] followed by [f.read()]: follows links. *)
Definition read_text (p : Path) : M string := λ w,
  match stat (disk w) p with
  | Returned (File c) => (Returned c, w)
  | Returned Dir => (Raised IsADirectoryError, w)
  | Returned (Link _) => (Raised OSError_ELOOP, w)
  | Raised e => (Raised e, w)
  end.

(** [open(p, 'wb')] followed by writing [c]: follows links, and creates
    the target of a dangling one. *)
Definition write_bytes (p : Path) (c : string) : M unit := λ w,
  match resolve (disk w) true p with
  | Raised e => (Raised e, w)
  | Returned k =>
      match node_at (disk w) k with
      | Some Dir => (Raised IsADirectoryError, w)
      | _ => (Returned tt, emit (Write k c) w)
      end
  end.

Definition recipient (σ : fs) (dst : Path) (name : string) : Path :=
  if isdir σ dst then dst // name else dst.

(** [shutil.copy2(src, dst)], with its default [follow_symlinks=True]. *)
Definition copy2 (src dst : Path) : M unit := λ w,
  let dst' := recipient (disk w) dst (basename src) in
  if samefile (disk w) src dst' then (Raised SameFileError, w)
  else (c ← read_text src; write_bytes dst' c) w.

(** [p.unlink()]: removes a link, not what it points to. *)
Definition unlink (p : Path) : M unit := λ w,
  match resolve (disk w) false p with
  | Raised e => (Raised e, w)
  | Returned k =>
      match node_at (disk w) k with
      | Some (File _) | Some (Link _) => (Returned tt, emit (Unlink k) w)
      | Some Dir => (Raised IsADirectoryError, w)
      | None => (Raised FileNotFoundError, w)
      end
  end.

Definition run {A} (m : M A) (σ : fs) : outcome A * world :=
  m {| disk := σ; trail := [] |}.

Section Scripts.

Variable root : loc.
Variable now : datetime.

Definition project_root : Path := {| base := root; segs := [] |}.

Definition send_request (recipient_team_member lifecycle_folder : string)
  : M bool :=
  if negb (bool_decide (recipient_team_member ∈ valid_teams)) then mret false
  else if bad_folder_name lifecycle_folder then mret false
  else
    let source_file := project_root // ".plan" // "request.md" in
    found ← exists_ source_file;
    if negb found then mret false else
    let lifecycle_dir := project_root // ".lifecycle" // lifecycle_folder in
    found ← exists_ lifecycle_dir;
    if negb found then mret false else
    let requirements_file := lifecycle_dir // "requirements.md" in
    found ← exists_ requirements_file;
    if negb found then mret false else
    request_content ← read_text source_file;
    let expected_reference :=
      ".lifecycle/" +:+ lifecycle_folder +:+ "/requirements.md" in
    if negb (str_in expected_reference request_content) then mret false else
    let dest_dir := project_root // ("." +:+ recipient_team_member) in
    let dest_file := dest_dir // "request.md" in
    mkdir_exist_ok dest_dir;;
    let timestamp := strftime now in
    let archive_file :=
      lifecycle_dir //
        (timestamp +:+ "_request_to_" +:+ recipient_team_member +:+ ".md") in
    copy2 source_file dest_file;;
    copy2 source_file archive_file;;
    unlink source_file;;
    mret true.

Definition send_response (submitting_team_member lifecycle_folder : string)
  : M bool :=
  if negb (bool_decide (submitting_team_member ∈ valid_teams)) then mret false
  else if bad_folder_name lifecycle_folder then mret false
  else
    let source_dir := project_root // ("." +:+ submitting_team_member) in
    let source_file := source_dir // "response.md" in
    found ← exists_ source_file;
    if negb found then mret false else
    let dest_dir := project_root // ".plan" in
    let dest_file := dest_dir // "response.md" in
    let lifecycle_dir := project_root // ".lifecycle" // lifecycle_folder in
    found ← exists_ lifecycle_dir;
    if negb found then mret false else
    let timestamp := strftime now in
    let archive_file :=
      lifecycle_dir //
        (timestamp +:+ "_response_from_" +:+ submitting_team_member +:+ ".md") in
    copy2 source_file dest_file;;
    copy2 source_file archive_file;;
    unlink source_file;;
    let request_file := source_dir // "request.md" in
    found ← exists_ request_file;
    (if (found : bool) then unlink request_file else mret tt);;
    mret true.

End Scripts.

End Linked.

(** ** Between the two models *)




Definition is_link (n : Linked.node) : bool :=
  match n with
  | Linked.Link _ => true
  | _ => false
  end.

(** No symbolic link stands at [d] or below it. *)
Definition link_free_below (d : loc) (σ : gmap (list string) Linked.node)
  : Prop :=
  map_Forall (λ k n, inside d k → is_link n = false) σ.

#[global] Instance link_free_below_dec d σ : Decision (link_free_below d σ).
Proof. unfold link_free_below, inside. apply _. Defined.





Section Protocol.

(** Where the project root is: [Path(__file__).parent.parent], an
    absolute location. *)
Variable root : loc.

(** What the clock reads when the script asks. *)
Variable now : datetime.

Definition project_root : Path := {| base := root; segs := [] |}.

Definition send_request (recipient_team_member lifecycle_folder : string)
  : M bool :=
  if negb (bool_decide (recipient_team_member ∈ valid_teams)) then mret false
  else if bad_folder_name lifecycle_folder then mret false
  else
    let source_file := project_root // ".plan" // "request.md" in
    found ← exists_ source_file;
    if negb found then mret false else
    let lifecycle_dir := project_root // ".lifecycle" // lifecycle_folder in
    found ← exists_ lifecycle_dir;
    if negb found then mret false else
    let requirements_file := lifecycle_dir // "requirements.md" in
    found ← exists_ requirements_file;
    if negb found then mret false else
    request_content ← read_text source_file;
    let expected_reference :=
      ".lifecycle/" +:+ lifecycle_folder +:+ "/requirements.md" in
    if negb (str_in expected_reference request_content) then mret false else
    let dest_dir := project_root // ("." +:+ recipient_team_member) in
    let dest_file := dest_dir // "request.md" in
    mkdir_exist_ok dest_dir;;
    let timestamp := strftime now in
    let archive_file :=
      lifecycle_dir //
        (timestamp +:+ "_request_to_" +:+ recipient_team_member +:+ ".md") in
    copy2 source_file dest_file;;
    copy2 source_file archive_file;;
    unlink source_file;;
    mret true.

Definition send_response (submitting_team_member lifecycle_folder : string)
  : M bool :=
  if negb (bool_decide (submitting_team_member ∈ valid_teams)) then mret false
  else if bad_folder_name lifecycle_folder then mret false
  else
    let source_dir := project_root // ("." +:+ submitting_team_member) in
    let source_file := source_dir // "response.md" in
    found ← exists_ source_file;
    if negb found then mret false else
    let dest_dir := project_root // ".plan" in
    let dest_file := dest_dir // "response.md" in
    let lifecycle_dir := project_root // ".lifecycle" // lifecycle_folder in
    found ← exists_ lifecycle_dir;
    if negb found then mret false else
    let timestamp := strftime now in
    let archive_file :=
      lifecycle_dir //
        (timestamp +:+ "_response_from_" +:+ submitting_team_member +:+ ".md") in
    copy2 source_file dest_file;;
    copy2 source_file archive_file;;
    unlink source_file;;
    let request_file := source_dir // "request.md" in
    found ← exists_ request_file;
    (if (found : bool) then unlink request_file else mret tt);;
    mret true.

(** ** The scripts' entry points *)

(** The body of [if __name__ == '__main__':] in [send_request.py]; the
    value is the argument of [sys.exit]. *)
Definition send_request_main (argv : list string) : M nat :=
  if negb (length argv =? 3) then mret 1
  else
    let team_member := nth 1 argv EmptyString in
    let lifecycle_folder := nth 2 argv EmptyString in
    success ← send_request team_member lifecycle_folder;
    mret (if (success : bool) then 0 else 1).

(** The same block in [send_response.py]. *)
Definition send_response_main (argv : list string) : M nat :=
  if negb (length argv =? 3) then mret 1
  else
    let team_member := nth 1 argv EmptyString in
    let lifecycle_folder := nth 2 argv EmptyString in
    success ← send_response team_member lifecycle_folder;
    mret (if (success : bool) then 0 else 1).

(** ** The workspace layout, by name *)

Definition plan_dir : Path := project_root // ".plan".
Definition plan_request : Path := plan_dir // "request.md".
Definition plan_response : Path := plan_dir // "response.md".
Definition lifecycle_dir (unit : string) : Path :=
  project_root // ".lifecycle" // unit.
Definition requirements_file (unit : string) : Path :=
  lifecycle_dir unit // "requirements.md".
Definition role_dir (role : string) : Path := project_root // ("." +:+ role).
Definition role_request (role : string) : Path := role_dir role // "request.md".
Definition role_response (role : string) : Path := role_dir role // "response.md".
Definition expected_reference (unit : string) : string :=
  ".lifecycle/" +:+ unit +:+ "/requirements.md".
Definition request_archive_name (role : string) : string :=
  strftime now +:+ "_request_to_" +:+ role +:+ ".md".
Definition response_archive_name (role : string) : string :=
  strftime now +:+ "_response_from_" +:+ role +:+ ".md".
Definition request_archive (role unit : string) : Path :=
  lifecycle_dir unit // request_archive_name role.
Definition response_archive (role unit : string) : Path :=
  lifecycle_dir unit // response_archive_name role.

(** The names a validated unit contributes below [.lifecycle], and the
    names from the project root down to the unit's directory. *)
Definition unit_segs (unit : string) : list string :=
  if kept unit then [unit] else [].
Definition unit_trail (unit : string) : list string :=
  if String.eqb unit ".." then [] else ".lifecycle" :: unit_segs unit.

(** ** The mutations a transfer performs when nothing stops it *)

Definition request_plan (σ : fs) (role unit c : string) : list effect :=
  let mk := match node_at σ (locate (role_dir role)) with
            | None => [Mkdir (locate (role_dir role))]
            | Some _ => []
            end in
  let σ1 := replay mk σ in
  let dk := landing σ1 (role_request role) "request.md" in
  let ak := landing (<[dk := File c]> σ1) (request_archive role unit) "request.md" in
  mk ++ [Write dk c; Write ak c; Unlink (locate plan_request)].

Definition response_plan (σ : fs) (role unit c : string) : list effect :=
  let dk := landing σ plan_response "response.md" in
  let ak := landing (<[dk := File c]> σ) (response_archive role unit) "response.md" in
  let first := [Write dk c; Write ak c; Unlink (locate (role_response role))] in
  first ++ (if path_exists (replay first σ) (role_request role)
            then [Unlink (locate (role_request role))] else []).

(** ** Ordering of copies and removal *)

(** In the trail [es], every removal of [src] comes after one copy has
    been written at or below [dest] and another, of the same text, at or
    below [arch]. *)
Definition copies_precede_delete (src dest arch : loc) (es : list effect)
  : Prop :=
  ∀ i, es !! i = Some (Unlink src) →
    ∃ j1 j2 dk ak c,
      j1 < i ∧ j2 < i ∧
      es !! j1 = Some (Write dk c) ∧ inside dest dk ∧
      es !! j2 = Some (Write ak c) ∧ inside arch ak.

(** However many of the mutations [es] have been performed when the run
    is cut short, the text [c] is still in the file at [src] or already
    in a file at or below [dest]. *)
Definition survives (σ : fs) (src dest : loc) (es : list effect) (c : string)
  : Prop :=
  ∀ n, replay (take n es) σ !! src = Some (File c) ∨
       ∃ k, inside dest k ∧ replay (take n es) σ !! k = Some (File c).

(** ** The postconditions as the specification words them *)

(** "the staged request file no longer exists at its origin; an
    identical-content file exists at [.{role}/request.md]; an
    identical-content archived copy exists under [.lifecycle/<unit>/]
    with a name matching [*_request_to_{role}.md]" *)
Definition request_postcondition (σ : fs) (role unit : string) (w : world)
  : Prop :=
  path_exists (disk w) plan_request = false ∧
  ∃ c, file_at σ plan_request c ∧
       file_at (disk w) (role_request role) c ∧
       ∃ stamp,
         file_at (disk w)
           (lifecycle_dir unit // (stamp +:+ "_request_to_" +:+ role +:+ ".md")) c.

(** "[.{role}/response.md] no longer exists; [.plan/response.md] has
    identical content; an archive copy matching
    [*_response_from_{role}.md] exists; if [.{role}/request.md] existed,
    it is now removed" *)
Definition response_postcondition (σ : fs) (role unit : string) (w : world)
  : Prop :=
  path_exists (disk w) (role_response role) = false ∧
  (∃ c, file_at σ (role_response role) c ∧ file_at (disk w) plan_response c) ∧
  (∃ stamp,
     path_exists (disk w)
       (lifecycle_dir unit // (stamp +:+ "_response_from_" +:+ role +:+ ".md"))
     = true) ∧
  (path_exists σ (role_request role) = true →
   path_exists (disk w) (role_request role) = false).

(** "a valid role, a valid unit name, a staged response file, and the
    unit directory all exist but [requirements.md] is absent" *)
Definition response_preconditions (σ : fs) (role unit : string) : Prop :=
  role ∈ valid_teams ∧ bad_folder_name unit = false ∧
  (∃ c, file_at σ (role_response role) c) ∧
  isdir σ (lifecycle_dir unit) = true ∧
  path_exists σ (requirements_file unit) = false.


(** ** A sample workspace *)

Definition demo_root : list string := ["srv"; "proj"].

Definition demo_now : datetime :=
  {| year := 2025; month := 3; day := 7; hour := 9; minute := 5; second := 42 |}.

Definition demo_later : datetime :=
  {| year := 2025; month := 3; day := 7; hour := 9; minute := 6; second := 10 |}.

Definition demo_text : string := "see .lifecycle/demo/requirements.md".

(** The directories every sample state has: the project root and above,
    [.plan], [.lifecycle] and the unit [demo]. *)
Definition demo_dirs : list (list string * node) :=
  [ (["srv"], Dir);
    (["srv"; "proj"], Dir);
    (["srv"; "proj"; ".plan"], Dir);
    (["srv"; "proj"; ".lifecycle"], Dir);
    (["srv"; "proj"; ".lifecycle"; "demo"], Dir) ].

Definition demo_requirements : list string * node :=
  (["srv"; "proj"; ".lifecycle"; "demo"; "requirements.md"],
   File "dark mode, in detail").

Definition demo_staged_request : list string * node :=
  (["srv"; "proj"; ".plan"; "request.md"], File demo_text).

Definition demo_worker : list (list string * node) :=
  [ (["srv"; "proj"; ".dev"], Dir);
    (["srv"; "proj"; ".dev"; "request.md"], File demo_text);
    (["srv"; "proj"; ".dev"; "response.md"], File "done") ].

(** Requirements written, request staged: the planner is about to send. *)
Definition ready_to_send : fs :=
  list_to_map (demo_dirs ++ [demo_requirements; demo_staged_request]).

(** As [ready_to_send], but a directory stands where the worker's inbox
    file goes. *)
Definition inbox_is_a_directory : fs :=
  list_to_map (demo_dirs ++
    [ demo_requirements; demo_staged_request;
      (["srv"; "proj"; ".dev"], Dir);
      (["srv"; "proj"; ".dev"; "request.md"], Dir) ]).

(** The staged request does not mention the requirements file. *)
Definition unreferenced_request : fs :=
  list_to_map (demo_dirs ++
    [ demo_requirements;
      (["srv"; "proj"; ".plan"; "request.md"], File "please add a dark mode") ]).

(** The request is staged and well-formed, the requirements are not
    written. *)
Definition no_requirements : fs :=
  list_to_map (demo_dirs ++ [demo_staged_request]).

(** The worker has the request and has staged a response. *)
Definition ready_to_respond : fs :=
  list_to_map (demo_dirs ++ demo_requirements :: demo_worker).

(** As [ready_to_respond], but a directory stands where the planner's
    response file goes. *)
Definition planner_inbox_is_a_directory : fs :=
  list_to_map (demo_dirs ++ demo_requirements :: demo_worker ++
    [ (["srv"; "proj"; ".plan"; "response.md"], Dir) ]).

(** A response is staged for a unit that has no requirements file. *)
Definition respond_without_requirements : fs :=
  list_to_map (demo_dirs ++ demo_worker).

(** As [respond_without_requirements], but the project has no [.plan]
    directory. *)
Definition no_planner_directory : fs :=
  list_to_map
    ([ (["srv"], Dir);
       (["srv"; "proj"], Dir);
       (["srv"; "proj"; ".lifecycle"], Dir);
       (["srv"; "proj"; ".lifecycle"; "demo"], Dir) ] ++ demo_worker).

(** As [respond_without_requirements], but [.plan/response.md] is a
    directory. *)
Definition response_into_a_directory : fs :=
  list_to_map (demo_dirs ++ demo_worker ++
    [ (["srv"; "proj"; ".plan"; "response.md"], Dir) ]).

(** As [respond_without_requirements], but [.plan/response.md] is a
    directory that holds a directory called [response.md]. *)
Definition copy_target_is_a_directory : fs :=
  list_to_map (demo_dirs ++ demo_worker ++
    [ (["srv"; "proj"; ".plan"; "response.md"], Dir);
      (["srv"; "proj"; ".plan"; "response.md"; "response.md"], Dir) ]).




(** As [ready_to_send], but [.dev] is a regular file. *)
Definition worker_directory_taken : fs :=
  list_to_map (demo_dirs ++
    [ demo_requirements; demo_staged_request;
      (["srv"; "proj"; ".dev"], File "notes") ]).

(** A response is staged, and a directory stands at [.dev/request.md]. *)
Definition stale_request_directory : fs :=
  list_to_map (demo_dirs ++
    [ (["srv"; "proj"; ".dev"], Dir);
      (["srv"; "proj"; ".dev"; "request.md"], Dir);
      (["srv"; "proj"; ".dev"; "response.md"], File "done") ]).

(** A request staged for the unit [..], with a [requirements.md] in the
    project root. *)
Definition request_for_parent_unit : fs :=
  list_to_map (demo_dirs ++
    [ (["srv"; "proj"; "requirements.md"], File "everything");
      (["srv"; "proj"; ".plan"; "request.md"],
       File "see .lifecycle/../requirements.md") ]).

(* ===================================================================== *)
(** * Facts about strings and path components                             *)
(* ===================================================================== *)

Lemma prefix_slash_cons c s :
  String.prefix slash (String c s) = Ascii.eqb c "047"%char.
Proof.
  unfold slash. cbn [String.prefix].
  destruct (ascii_dec "047"%char c) as [<-|Hne].
  - destruct s; reflexivity.
  - symmetry. apply Ascii.eqb_neq. congruence.
Qed.

Lemma str_in_slash_cons c s :
  str_in slash (String c s) = Ascii.eqb c "047"%char || str_in slash s.
Proof.
  cbn [str_in]. rewrite prefix_slash_cons.
  destruct (Ascii.eqb c "047"%char); reflexivity.
Qed.

Lemma str_in_slash_app s t :
  str_in slash (s +:+ t) = str_in slash s || str_in slash t.
Proof.
  induction s as [|c s IH].
  - reflexivity.
  - change (String c s +:+ t) with (String c (s +:+ t)).
    rewrite !str_in_slash_cons, IH. apply orb_assoc.
Qed.

Lemma split_slash_plain s : str_in slash s = false → split_slash s = [s].
Proof.
  induction s as [|c s IH]; [reflexivity|].
  rewrite str_in_slash_cons. intros [Hc Hs]%orb_false_iff.
  cbn [split_slash]. rewrite Hc, (IH Hs). reflexivity.
Qed.

Lemma prefix_slash_plain s :
  str_in slash s = false → String.prefix slash s = false.
Proof.
  destruct s as [|c s]; [reflexivity|].
  rewrite str_in_slash_cons, prefix_slash_cons.
  by intros [? ?]%orb_false_iff.
Qed.

(** A name without separator is one component, unless it is empty or
    the dot that [pathlib] drops. *)
Lemma components_plain s :
  str_in slash s = false →
  components s = if kept s then [s] else [].
Proof.
  intros Hs. unfold components. rewrite (split_slash_plain _ Hs).
  cbn [List.filter]. reflexivity.
Qed.

Lemma truediv_plain p s :
  str_in slash s = false →
  p // s = {| base := base p; segs := segs p ++ if kept s then [s] else [] |}.
Proof.
  intros Hs. unfold truediv.
  by rewrite (prefix_slash_plain _ Hs), (components_plain _ Hs).
Qed.

(** ** Digits of the timestamp *)

Lemma digit_cases n :
  digit n ∈ ["0"; "1"; "2"; "3"; "4"; "5"; "6"; "7"; "8"; "9"]%char.
Proof.
  unfold digit. pose proof (Nat.mod_upper_bound n 10 ltac:(lia)) as Hlt.
  destruct (n mod 10) as [|[|[|[|[|[|[|[|[|[|m]]]]]]]]]];
    [set_solver..|lia].
Qed.

Lemma digit_not_slash n : Ascii.eqb (digit n) "047"%char = false.
Proof.
  pose proof (digit_cases n) as H.
  repeat (apply elem_of_cons in H as [->|H]; [reflexivity|]).
  by apply elem_of_nil in H.
Qed.

Lemma digit_not_dot n : Ascii.eqb (digit n) "046"%char = false.
Proof.
  pose proof (digit_cases n) as H.
  repeat (apply elem_of_cons in H as [->|H]; [reflexivity|]).
  by apply elem_of_nil in H.
Qed.

Lemma pad2_no_slash n : str_in slash (pad2 n) = false.
Proof.
  unfold pad2. by rewrite !str_in_slash_cons, !digit_not_slash.
Qed.

Lemma pad4_no_slash n : str_in slash (pad4 n) = false.
Proof.
  unfold pad4.
  by rewrite !str_in_slash_cons, !digit_not_slash, pad2_no_slash.
Qed.

Lemma strftime_no_slash t : str_in slash (strftime t) = false.
Proof.
  unfold strftime.
  by rewrite !str_in_slash_app, pad4_no_slash, !pad2_no_slash.
Qed.

Lemma strftime_head t :
  ∃ rest, strftime t = String (digit (year t / 1000)) rest.
Proof. unfold strftime, pad4. eexists. reflexivity. Qed.


(* ===================================================================== *)
(** * Facts about name lookup                                             *)
(* ===================================================================== *)

Lemma step_plain k s : dots s = false → step k s = k ++ [s].
Proof.
  unfold dots, step. intros [-> ->]%orb_false_iff. reflexivity.
Qed.

Lemma node_at_ne_nil (σ : fs) k : k ≠ [] → node_at σ k = σ !! k.
Proof. by destruct k. Qed.

Lemma walk_app σ cur xs ys :
  walk σ cur (xs ++ ys) =
  match walk σ cur xs with
  | Returned k => walk σ k ys
  | Raised e => Raised e
  end.
Proof.
  revert cur. induction xs as [|x xs IH]; intros cur; [reflexivity|].
  cbn [app walk]. destruct (node_at σ cur) as [[?|]|]; auto.
Qed.

Lemma walk_Returned σ cur names k :
  walk σ cur names = Returned k → k = foldl step cur names.
Proof.
  revert cur. induction names as [|s rest IH]; intros cur; cbn.
  - congruence.
  - destruct (node_at σ cur) as [[?|]|]; [done| |done]. apply IH.
Qed.

Lemma resolve_Returned σ p k : resolve σ p = Returned k → k = locate p.
Proof. apply walk_Returned. Qed.

Lemma walk_dirs_le σ σ' cur names k :
  dirs_le σ σ' →
  walk σ cur names = Returned k → walk σ' cur names = Returned k.
Proof.
  intros Hle. revert cur. induction names as [|s rest IH]; intros cur; cbn.
  - done.
  - destruct (node_at σ cur) as [[?|]|] eqn:Hcur; [done| |done].
    rewrite (Hle _ Hcur). apply IH.
Qed.

Lemma resolve_dirs_le σ σ' p k :
  dirs_le σ σ' → resolve σ p = Returned k → resolve σ' p = Returned k.
Proof. apply walk_dirs_le. Qed.

Lemma dirs_le_refl σ : dirs_le σ σ.
Proof. by intros t. Qed.

Lemma dirs_le_trans σ1 σ2 σ3 : dirs_le σ1 σ2 → dirs_le σ2 σ3 → dirs_le σ1 σ3.
Proof. intros H12 H23 t Ht. by apply H23, H12. Qed.

Lemma node_at_insert_ne (σ : fs) k t n :
  k ≠ t → node_at (<[k := n]> σ) t = node_at σ t.
Proof. intros Hne. destruct t; [done|]. cbn. by rewrite lookup_insert_ne. Qed.

Lemma node_at_delete_ne (σ : fs) k t :
  k ≠ t → node_at (delete k σ) t = node_at σ t.
Proof. intros Hne. destruct t; [done|]. cbn. by rewrite lookup_delete_ne. Qed.

Lemma node_at_insert_eq (σ : fs) k n :
  k ≠ [] → node_at (<[k := n]> σ) k = Some n.
Proof. intros Hne. destruct k; [done|]. cbn. by rewrite lookup_insert_eq. Qed.

Lemma node_at_delete_eq (σ : fs) k :
  k ≠ [] → node_at (delete k σ) k = None.
Proof. intros Hne. destruct k; [done|]. cbn. by rewrite lookup_delete_eq. Qed.

(** A mutation whose target was not a directory keeps every directory. *)
Lemma dirs_le_apply σ e :
  node_at σ (target e) ≠ Some Dir → dirs_le σ (apply_effect σ e).
Proof.
  intros Hnd t Ht.
  assert (target e ≠ t) as Hne by (intros Heq; rewrite Heq in Hnd; contradiction).
  destruct e; cbn in *;
    by rewrite ?node_at_insert_ne, ?node_at_delete_ne.
Qed.

Lemma stat_frame σ σ' p n :
  dirs_le σ σ' →
  node_at σ' (locate p) = node_at σ (locate p) →
  stat σ p = Returned n → stat σ' p = Returned n.
Proof.
  unfold stat. intros Hle Heq.
  destruct (resolve σ p) as [k|e] eqn:Hr; [|done].
  pose proof (resolve_Returned _ _ _ Hr) as ->.
  rewrite (resolve_dirs_le _ _ _ _ Hle Hr), Heq. done.
Qed.

Lemma stat_Returned σ p n :
  stat σ p = Returned n ↔
  resolve σ p = Returned (locate p) ∧ node_at σ (locate p) = Some n.
Proof.
  unfold stat. split.
  - destruct (resolve σ p) as [k|e] eqn:Hr; [|done].
    pose proof (resolve_Returned _ _ _ Hr) as ->.
    destruct (node_at σ (locate p)); naive_solver.
  - intros [-> ->]. done.
Qed.

Lemma path_exists_true σ p :
  path_exists σ p = true ↔
  resolve σ p = Returned (locate p) ∧ is_Some (node_at σ (locate p)).
Proof.
  unfold path_exists. split.
  - destruct (stat σ p) as [n|e] eqn:Hs; [|done].
    apply stat_Returned in Hs as [? ?]. eauto.
  - intros [Hr [n Hn]].
    by rewrite (proj2 (stat_Returned σ p n) (conj Hr Hn)).
Qed.

Lemma path_exists_absent σ p :
  node_at σ (locate p) = None → path_exists σ p = false.
Proof.
  intros Hn. destruct (path_exists σ p) eqn:He; [|done].
  apply path_exists_true in He as [_ [n Hn']]. congruence.
Qed.

Lemma isdir_true σ p :
  isdir σ p = true ↔ stat σ p = Returned Dir.
Proof.
  unfold isdir. destruct (stat σ p) as [[?|]|]; naive_solver.
Qed.

(** Resolving one more plain name. *)
Lemma resolve_truediv σ p s :
  str_in slash s = false → kept s = true →
  resolve σ (p // s) =
  match resolve σ p with
  | Returned k =>
      match node_at σ k with
      | Some Dir => Returned (step k s)
      | Some (File _) => Raised NotADirectoryError
      | None => Raised FileNotFoundError
      end
  | Raised e => Raised e
  end.
Proof.
  intros Hs Hk. rewrite (truediv_plain _ _ Hs), Hk.
  unfold resolve. cbn [base segs]. rewrite walk_app.
  destruct (walk σ (base p) (segs p)); [|done]. reflexivity.
Qed.

Lemma locate_truediv p s :
  str_in slash s = false → kept s = true →
  locate (p // s) = step (locate p) s.
Proof.
  intros Hs Hk. rewrite (truediv_plain _ _ Hs), Hk.
  unfold locate. cbn [base segs]. by rewrite foldl_app.
Qed.


(* ===================================================================== *)
(** * What each library call can do                                       *)
(* ===================================================================== *)

Lemma replay_snoc es e σ : replay (es ++ [e]) σ = apply_effect (replay es σ) e.
Proof. unfold replay. by rewrite foldl_app. Qed.

Lemma replay_app es es' σ : replay (es ++ es') σ = replay es' (replay es σ).
Proof. unfold replay. by rewrite foldl_app. Qed.

Lemma bind_run {A B} (m : M A) (f : A → M B) w :
  (m ≫= f) w =
  match m w with
  | (Returned a, w') => f a w'
  | (Raised e, w') => (Raised e, w')
  end.
Proof. reflexivity. Qed.

Lemma mkdir_exist_ok_cases p w :
  (∃ e, mkdir_exist_ok p w = (Raised e, w)) ∨
  (mkdir_exist_ok p w = (Returned tt, w) ∧
   node_at (disk w) (locate p) = Some Dir) ∨
  (mkdir_exist_ok p w = (Returned tt, emit (Mkdir (locate p)) w) ∧
   node_at (disk w) (locate p) = None ∧
   resolve (disk w) p = Returned (locate p)).
Proof.
  unfold mkdir_exist_ok.
  destruct (resolve (disk w) p) as [k|e] eqn:Hr; [|eauto].
  pose proof (resolve_Returned _ _ _ Hr) as ->.
  destruct (node_at (disk w) (locate p)) as [[c|]|]; eauto.
Qed.

Lemma read_text_cases p w :
  (∃ e, read_text p w = (Raised e, w)) ∨
  (∃ c, stat (disk w) p = Returned (File c) ∧ read_text p w = (Returned c, w)).
Proof.
  unfold read_text. destruct (stat (disk w) p) as [[c|]|e]; eauto.
Qed.

Lemma copy2_cases src dst w :
  (∃ e, copy2 src dst w = (Raised e, w)) ∨
  (∃ c, stat (disk w) src = Returned (File c) ∧
        (node_at (disk w) (landing (disk w) dst (basename src)) ≠ Some Dir ∧
         resolve (disk w) (recipient (disk w) dst (basename src))
           = Returned (landing (disk w) dst (basename src))) ∧
        copy2 src dst w =
          (Returned tt, emit (Write (landing (disk w) dst (basename src)) c) w)).
Proof.
  unfold copy2, landing.
  set (dst' := recipient (disk w) dst (basename src)).
  destruct (samefile (disk w) src dst'); [eauto|].
  rewrite bind_run.
  destruct (read_text_cases src w) as [[e ->]|(c & Hc & ->)]; [eauto|].
  unfold write_bytes.
  destruct (resolve (disk w) dst') as [k|e] eqn:Hr; [|eauto].
  pose proof (resolve_Returned _ _ _ Hr) as ->.
  destruct (node_at (disk w) (locate dst')) as [[c'|]|] eqn:Hn; [|eauto|];
    right; exists c; done.
Qed.

Lemma unlink_cases p w :
  (∃ e, unlink p w = (Raised e, w)) ∨
  (∃ c, stat (disk w) p = Returned (File c) ∧
        unlink p w = (Returned tt, emit (Unlink (locate p)) w)).
Proof.
  unfold unlink.
  destruct (resolve (disk w) p) as [k|e] eqn:Hr; [|eauto].
  pose proof (resolve_Returned _ _ _ Hr) as ->.
  destruct (node_at (disk w) (locate p)) as [[c|]|] eqn:Hn; [|eauto..].
  right. exists c. split; [|done]. by apply stat_Returned.
Qed.

Lemma unlink_file p w c :
  stat (disk w) p = Returned (File c) →
  unlink p w = (Returned tt, emit (Unlink (locate p)) w).
Proof.
  intros [Hr Hn]%stat_Returned. unfold unlink. by rewrite Hr, Hn.
Qed.

Lemma read_text_file p w c :
  stat (disk w) p = Returned (File c) → read_text p w = (Returned c, w).
Proof. intros Hs. unfold read_text. by rewrite Hs. Qed.


(* ===================================================================== *)
(** * The names and locations of the workspace layout                     *)
(* ===================================================================== *)

Lemma valid_role_cases role :
  role ∈ valid_teams →
  role = "dev" ∨ role = "test" ∨ role = "review" ∨ role = "doc".
Proof.
  unfold valid_teams. rewrite !elem_of_cons, elem_of_nil. tauto.
Qed.

Lemma good_unit unit :
  bad_folder_name unit = false → unit ≠ "" ∧ str_in slash unit = false.
Proof.
  unfold bad_folder_name.
  intros [[Hne Hs]%orb_false_iff _]%orb_false_iff.
  split; [by apply String.eqb_neq|done].
Qed.

(** Closes a goal in which a name that starts with a digit is equated
    with one that does not. *)
Ltac digit_clash :=
  match goal with
  | H : digit ?n = _ |- _ =>
      let Hd := fresh in
      pose proof (digit_cases n) as Hd; rewrite H in Hd;
      repeat (apply elem_of_cons in Hd as [Hd|Hd]; [discriminate Hd|]);
      by apply elem_of_nil in Hd
  | H : _ = digit ?n |- _ =>
      let Hd := fresh in
      pose proof (digit_cases n) as Hd; rewrite <- H in Hd;
      repeat (apply elem_of_cons in Hd as [Hd|Hd]; [discriminate Hd|]);
      by apply elem_of_nil in Hd
  end.

(** A child called [s], for [s] an ordinary name. *)
Lemma locate_child p s :
  str_in slash s = false → kept s = true → dots s = false →
  locate (p // s) = locate p ++ [s].
Proof.
  intros Hs Hk Hd. by rewrite locate_truediv, step_plain.
Qed.

Lemma landing_unfold σ dst name :
  str_in slash name = false → kept name = true → dots name = false →
  landing σ dst name =
  if isdir σ dst then locate dst ++ [name] else locate dst.
Proof.
  intros. unfold landing, recipient. destruct (isdir σ dst); [|done].
  by apply locate_child.
Qed.

Lemma dot_role_name role :
  role ∈ valid_teams →
  str_in slash ("." +:+ role) = false ∧ kept ("." +:+ role) = true ∧
  dots ("." +:+ role) = false ∧ "." +:+ role ≠ ".plan" ∧
  "." +:+ role ≠ ".lifecycle".
Proof.
  intros [-> | [-> | [-> | ->]]]%valid_role_cases; by repeat split.
Qed.

Lemma role_no_slash role : role ∈ valid_teams → str_in slash role = false.
Proof. by intros [-> | [-> | [-> | ->]]]%valid_role_cases. Qed.

Lemma request_archive_name_head role :
  ∃ rest, request_archive_name role = String (digit (year now / 1000)) rest.
Proof.
  unfold request_archive_name. destruct (strftime_head now) as [r ->].
  eexists. reflexivity.
Qed.

Lemma response_archive_name_head role :
  ∃ rest, response_archive_name role = String (digit (year now / 1000)) rest.
Proof.
  unfold response_archive_name. destruct (strftime_head now) as [r ->].
  eexists. reflexivity.
Qed.

Lemma digit_headed_name n rest :
  kept (String (digit n) rest) = true ∧ dots (String (digit n) rest) = false.
Proof.
  unfold kept, dots. cbn [String.eqb].
  rewrite digit_not_dot. by destruct rest.
Qed.

Lemma request_archive_name_ok role :
  role ∈ valid_teams →
  str_in slash (request_archive_name role) = false ∧
  kept (request_archive_name role) = true ∧
  dots (request_archive_name role) = false.
Proof.
  intros Hrole. split.
  - unfold request_archive_name.
    by rewrite !str_in_slash_app, strftime_no_slash, (role_no_slash _ Hrole).
  - destruct (request_archive_name_head role) as [r ->].
    apply digit_headed_name.
Qed.

Lemma response_archive_name_ok role :
  role ∈ valid_teams →
  str_in slash (response_archive_name role) = false ∧
  kept (response_archive_name role) = true ∧
  dots (response_archive_name role) = false.
Proof.
  intros Hrole. split.
  - unfold response_archive_name.
    by rewrite !str_in_slash_app, strftime_no_slash, (role_no_slash _ Hrole).
  - destruct (response_archive_name_head role) as [r ->].
    apply digit_headed_name.
Qed.

(** ** Locations *)

Lemma locate_plan_request : locate plan_request = root ++ [".plan"; "request.md"].
Proof.
  transitivity ((root ++ [".plan"]) ++ ["request.md"]); [reflexivity|].
  by rewrite <- app_assoc.
Qed.

Lemma locate_plan_response :
  locate plan_response = root ++ [".plan"; "response.md"].
Proof.
  transitivity ((root ++ [".plan"]) ++ ["response.md"]); [reflexivity|].
  by rewrite <- app_assoc.
Qed.

Lemma locate_role_dir role :
  role ∈ valid_teams → locate (role_dir role) = root ++ ["." +:+ role].
Proof.
  intros (Hs & Hk & Hd & _)%dot_role_name.
  unfold role_dir. by rewrite locate_child.
Qed.

Lemma locate_role_request role :
  role ∈ valid_teams →
  locate (role_request role) = root ++ ["." +:+ role; "request.md"].
Proof.
  intros Hrole. unfold role_request.
  rewrite locate_child, locate_role_dir by done. by rewrite <- app_assoc.
Qed.

Lemma locate_role_response role :
  role ∈ valid_teams →
  locate (role_response role) = root ++ ["." +:+ role; "response.md"].
Proof.
  intros Hrole. unfold role_response.
  rewrite locate_child, locate_role_dir by done. by rewrite <- app_assoc.
Qed.

Lemma unit_trail_cases unit :
  unit_trail unit = [] ∨ unit_trail unit = [".lifecycle"] ∨
  unit_trail unit = [".lifecycle"; unit].
Proof.
  unfold unit_trail, unit_segs.
  destruct (String.eqb unit ".."); [by left|].
  destruct (kept unit); auto.
Qed.

Lemma locate_lifecycle_dir unit :
  bad_folder_name unit = false →
  locate (lifecycle_dir unit) = root ++ unit_trail unit.
Proof.
  intros [Hne Hs]%good_unit. unfold lifecycle_dir, unit_trail, unit_segs.
  rewrite (truediv_plain _ _ Hs). unfold locate. cbn [base segs].
  change (base (project_root // ".lifecycle")) with root.
  change (segs (project_root // ".lifecycle")) with [".lifecycle"].
  destruct (String.eqb_spec unit "..") as [->|Hdd].
  - cbn. rewrite removelast_last. by rewrite app_nil_r.
  - destruct (kept unit) eqn:Hk; cbn [app foldl].
    + rewrite (step_plain _ unit).
      * change (step root ".lifecycle") with (root ++ [".lifecycle"]).
        by rewrite <- app_assoc.
      * unfold dots. apply orb_false_iff. split; [by apply String.eqb_neq|].
        unfold kept in Hk. apply andb_true_iff in Hk as [_ Hk].
        by apply negb_true_iff in Hk.
    + reflexivity.
Qed.

Lemma locate_request_archive role unit :
  role ∈ valid_teams → bad_folder_name unit = false →
  locate (request_archive role unit) =
  root ++ unit_trail unit ++ [request_archive_name role].
Proof.
  intros (? & ? & ?)%request_archive_name_ok Hu. unfold request_archive.
  rewrite locate_child, locate_lifecycle_dir by done. by rewrite <- app_assoc.
Qed.

Lemma locate_response_archive role unit :
  role ∈ valid_teams → bad_folder_name unit = false →
  locate (response_archive role unit) =
  root ++ unit_trail unit ++ [response_archive_name role].
Proof.
  intros (? & ? & ?)%response_archive_name_ok Hu. unfold response_archive.
  rewrite locate_child, locate_lifecycle_dir by done. by rewrite <- app_assoc.
Qed.


(* ===================================================================== *)
(** * Distinct locations                                                  *)
(* ===================================================================== *)

(** Two locations below the project root differ as soon as their names
    below the root differ. *)
Ltac below_root H :=
  repeat rewrite <- app_assoc in H;
  apply app_inv_head in H.

Lemma landing_request_cases σ role :
  role ∈ valid_teams →
  landing σ (role_request role) "request.md" = root ++ ["." +:+ role; "request.md"] ∨
  landing σ (role_request role) "request.md" =
    root ++ ["." +:+ role; "request.md"; "request.md"].
Proof.
  intros Hrole. rewrite landing_unfold by done.
  rewrite locate_role_request by done.
  destruct (isdir σ (role_request role)); [right|left]; [|done].
  by rewrite <- app_assoc.
Qed.

Lemma landing_plan_response_cases σ :
  landing σ plan_response "response.md" = root ++ [".plan"; "response.md"] ∨
  landing σ plan_response "response.md" =
    root ++ [".plan"; "response.md"; "response.md"].
Proof.
  rewrite landing_unfold by done. rewrite locate_plan_response.
  destruct (isdir σ plan_response); [right|left]; [|done].
  by rewrite <- app_assoc.
Qed.

Lemma landing_request_archive_cases σ role unit :
  role ∈ valid_teams → bad_folder_name unit = false →
  ∃ rest,
    landing σ (request_archive role unit) "request.md" =
      root ++ unit_trail unit ++ request_archive_name role :: rest ∧
    (rest = [] ∨ rest = ["request.md"]).
Proof.
  intros Hrole Hu. rewrite landing_unfold by done.
  rewrite locate_request_archive by done.
  destruct (isdir σ (request_archive role unit)).
  - exists ["request.md"]. split; [|by right]. by rewrite <- !app_assoc.
  - exists []. split; [done|by left].
Qed.

Lemma landing_response_archive_cases σ role unit :
  role ∈ valid_teams → bad_folder_name unit = false →
  ∃ rest,
    landing σ (response_archive role unit) "response.md" =
      root ++ unit_trail unit ++ response_archive_name role :: rest ∧
    (rest = [] ∨ rest = ["response.md"]).
Proof.
  intros Hrole Hu. rewrite landing_unfold by done.
  rewrite locate_response_archive by done.
  destruct (isdir σ (response_archive role unit)).
  - exists ["response.md"]. split; [|by right]. by rewrite <- !app_assoc.
  - exists []. split; [done|by left].
Qed.

(** No copy of a request lands on the staged request itself. *)
Lemma role_dir_ne_plan_request role :
  role ∈ valid_teams → locate (role_dir role) ≠ locate plan_request.
Proof.
  intros Hrole. rewrite locate_role_dir, locate_plan_request by done.
  intros H. below_root H. discriminate.
Qed.

Lemma landing_request_ne σ role :
  role ∈ valid_teams →
  landing σ (role_request role) "request.md" ≠ locate plan_request.
Proof.
  intros Hrole. rewrite locate_plan_request.
  destruct (dot_role_name _ Hrole) as (_ & _ & _ & Hp & _).
  destruct (landing_request_cases σ _ Hrole) as [-> | ->];
    intros H; below_root H; congruence.
Qed.

Lemma landing_request_archive_ne σ role unit :
  role ∈ valid_teams → bad_folder_name unit = false →
  landing σ (request_archive role unit) "request.md" ≠ locate plan_request.
Proof.
  intros Hrole Hu. rewrite locate_plan_request.
  destruct (landing_request_archive_cases σ _ _ Hrole Hu) as (rest & Hl & Hrest).
  destruct (request_archive_name_head role) as [r Hhead].
  rewrite Hhead in Hl. rewrite Hl. clear Hl Hhead.
  intros H. below_root H.
  destruct (unit_trail_cases unit) as [Ht|[Ht|Ht]]; rewrite Ht in H;
    destruct Hrest as [-> | ->]; cbn [app String.append] in H;
    try discriminate; injection H; intros; digit_clash.
Qed.


(* ===================================================================== *)
(** * The shape of a run of [send_request]                                *)
(* ===================================================================== *)

Lemma send_request_shape σ role unit o w :
  run (send_request role unit) σ = (o, w) →
  disk w = replay (trail w) σ ∧
  ((o ≠ Returned true ∧ trail w = []) ∨
   ∃ c, role ∈ valid_teams ∧ bad_folder_name unit = false ∧
        file_at σ plan_request c ∧
        path_exists σ (lifecycle_dir unit) = true ∧
        path_exists σ (requirements_file unit) = true ∧
        str_in (expected_reference unit) c = true ∧
        trail w `prefix_of` request_plan σ role unit c ∧
        (o = Returned true →
         trail w = request_plan σ role unit c ∧
         path_exists (disk w) plan_request = false ∧
         let σ1 := replay (match node_at σ (locate (role_dir role)) with
                           | None => [Mkdir (locate (role_dir role))]
                           | Some _ => []
                           end) σ in
         let to_role := recipient σ1 (role_request role) "request.md" in
         let to_archive :=
           recipient (<[locate to_role := File c]> σ1)
             (request_archive role unit) "request.md" in
         file_at (disk w) to_role c ∧ file_at (disk w) to_archive c)).
Proof.
  unfold run, send_request.
  destruct (bool_decide (role ∈ valid_teams)) eqn:Hrole; cbn [negb];
    [apply bool_decide_eq_true in Hrole|by intros [= <- <-]; split; [|left]].
  destruct (bad_folder_name unit) eqn:Hu;
    [by intros [= <- <-]; split; [|left]|].
  cbv zeta.
  change (project_root // ".plan" // "request.md") with plan_request.
  change (project_root // ".lifecycle" // unit) with (lifecycle_dir unit).
  change (lifecycle_dir unit // "requirements.md") with (requirements_file unit).
  change (project_root // ("." +:+ role)) with (role_dir role).
  change (role_dir role // "request.md") with (role_request role).
  change (lifecycle_dir unit // (strftime now +:+ "_request_to_" +:+ role +:+ ".md"))
    with (request_archive role unit).
  change (".lifecycle/" +:+ unit +:+ "/requirements.md")
    with (expected_reference unit).
  set (w0 := {| disk := σ; trail := [] |}).
  rewrite bind_run. unfold exists_ at 1. cbn [disk w0].
  destruct (path_exists σ plan_request) eqn:He1; cbn [negb];
    [|by intros [= <- <-]; split; [|left]].
  rewrite bind_run. unfold exists_ at 1. cbn [disk w0].
  destruct (path_exists σ (lifecycle_dir unit)) eqn:He2; cbn [negb];
    [|by intros [= <- <-]; split; [|left]].
  rewrite bind_run. unfold exists_ at 1. cbn [disk w0].
  destruct (path_exists σ (requirements_file unit)) eqn:He3; cbn [negb];
    [|by intros [= <- <-]; split; [|left]].
  rewrite bind_run.
  destruct (read_text_cases plan_request w0) as [[e ->]|(c & Hc & ->)];
    [by intros [= <- <-]; split; [|left]|].
  cbn [disk w0] in Hc.
  destruct (str_in (expected_reference unit) c) eqn:Href; cbn [negb];
    [|by intros [= <- <-]; split; [|left]].
  rewrite bind_run.
  (* the mutating phase *)
  set (mk := match node_at σ (locate (role_dir role)) with
             | None => [Mkdir (locate (role_dir role))]
             | Some _ => []
             end).
  assert ((∃ e, mkdir_exist_ok (role_dir role) w0 = (Raised e, w0)) ∨
          (mkdir_exist_ok (role_dir role) w0 =
             (Returned tt, {| disk := replay mk σ; trail := mk |}) ∧
           dirs_le σ (replay mk σ) ∧
           node_at (replay mk σ) (locate plan_request) =
             node_at σ (locate plan_request))) as Hmk.
  { destruct (mkdir_exist_ok_cases (role_dir role) w0)
      as [?|[[-> Hd]|(-> & Hd & Hr)]]; [by left|right..];
      cbn [disk w0] in Hd; subst mk; rewrite Hd.
    - split; [done|]. split; [apply dirs_le_refl|done].
    - split; [done|]. split.
      + apply (dirs_le_apply σ (Mkdir _)). cbn [target]. congruence.
      + cbn. apply node_at_insert_ne. by apply role_dir_ne_plan_request. }
  destruct Hmk as [[e ->]|(-> & Hle1 & Hsrc1)];
    [by intros [= <- <-]; split; [|left]|].
  set (σ1 := replay mk σ) in *. set (w1 := {| disk := σ1; trail := mk |}).
  assert (stat σ1 plan_request = Returned (File c)) as Hc1
    by (by apply (stat_frame σ)).
  intros Hrun.
  set (to_role := recipient σ1 (role_request role) "request.md").
  set (dk := locate to_role).
  set (to_archive :=
         recipient (<[dk := File c]> σ1) (request_archive role unit) "request.md").
  set (ak := locate to_archive).
  assert (request_plan σ role unit c =
          mk ++ [Write dk c; Write ak c; Unlink (locate plan_request)])
    as Hplan by done.
  enough (disk w = replay (trail w) σ ∧
    trail w `prefix_of` mk ++ [Write dk c; Write ak c; Unlink (locate plan_request)] ∧
    (o = Returned true →
     trail w = mk ++ [Write dk c; Write ak c; Unlink (locate plan_request)] ∧
     path_exists (disk w) plan_request = false ∧
     file_at (disk w) to_role c ∧ file_at (disk w) to_archive c))
    as (Hd & Hp & Hs).
  { split; [done|]. right. exists c. rewrite Hplan.
    do 6 (split; [done|]). split; [done|]. exact Hs. }
  clear Hplan. revert Hrun. rewrite bind_run.
  destruct (copy2_cases plan_request (role_request role) w1)
    as [[e ->]|(c' & Hc' & [Hnd1 Hr1] & ->)].
  { intros [= <- <-]. cbn [disk trail w1]. split; [done|].
    split; [by apply prefix_app_r|done]. }
  change (landing (disk w1) (role_request role) (basename plan_request))
    with dk in *.
  change (recipient (disk w1) (role_request role) (basename plan_request))
    with to_role in *.
  change (disk w1) with σ1 in *.
  assert (c' = c) as -> by congruence. clear Hc'.
  set (w2 := emit (Write dk c) w1).
  assert (dirs_le σ1 (disk w2)) as Hle2
    by (by apply (dirs_le_apply σ1 (Write dk c))).
  assert (stat (disk w2) plan_request = Returned (File c)) as Hc2.
  { apply (stat_frame σ1); [done| |done].
    cbn. apply node_at_insert_ne. by apply landing_request_ne. }
  rewrite bind_run.
  destruct (copy2_cases plan_request (request_archive role unit) w2)
    as [[e ->]|(c' & Hc' & [Hnd2 Hr2] & ->)].
  { intros [= <- <-]. cbn [disk trail w2 emit w1]. split.
    - by rewrite replay_snoc.
    - split; [|done]. exists [Write ak c; Unlink (locate plan_request)].
      by rewrite <- app_assoc. }
  change (landing (disk w2) (request_archive role unit) (basename plan_request))
    with ak in *.
  change (recipient (disk w2) (request_archive role unit) (basename plan_request))
    with to_archive in *.
  assert (c' = c) as -> by congruence. clear Hc'.
  set (w3 := emit (Write ak c) w2).
  assert (dirs_le (disk w2) (disk w3)) as Hle3
    by (by apply (dirs_le_apply (disk w2) (Write ak c))).
  assert (stat (disk w3) plan_request = Returned (File c)) as Hc3.
  { apply (stat_frame (disk w2)); [done| |done].
    cbn. apply node_at_insert_ne. by apply landing_request_archive_ne. }
  rewrite bind_run, (unlink_file _ _ _ Hc3).
  set (w4 := emit (Unlink (locate plan_request)) w3).
  assert (dirs_le (disk w3) (disk w4)) as Hle4.
  { apply (dirs_le_apply (disk w3) (Unlink (locate plan_request))).
    apply stat_Returned in Hc3 as [_ Hn]. cbn [target]. congruence. }
  assert (dk ≠ locate plan_request) as Hdk by (by apply landing_request_ne).
  assert (ak ≠ locate plan_request) as Hak
    by (by apply landing_request_archive_ne).
  assert (dk ≠ []) as Hdk0 by (by intros Heq; rewrite Heq in Hnd1).
  assert (ak ≠ []) as Hak0 by (by intros Heq; rewrite Heq in Hnd2).
  intros [= <- <-]. split; [|split].
  - cbn [disk trail emit w4 w3 w2 w1]. rewrite <- !app_assoc. cbn [app].
    by rewrite replay_app.
  - cbn [trail emit w4 w3 w2 w1]. by rewrite <- !app_assoc.
  - intros _. split; [|split; [|split]].
    + cbn [trail emit w4 w3 w2 w1]. by rewrite <- !app_assoc.
    + apply path_exists_absent. cbn [disk emit w4 apply_effect].
      apply node_at_delete_eq. rewrite locate_plan_request. by destruct root.
    + apply stat_Returned. split.
      * apply (resolve_dirs_le σ1); [|done].
        eauto using dirs_le_trans.
      * cbn [disk emit w4 w3 w2 w1 apply_effect].
        rewrite node_at_delete_ne by done. rewrite node_at_ne_nil by done.
        destruct (decide (ak = dk)) as [->|Hne];
          [by rewrite lookup_insert_eq|].
        rewrite lookup_insert_ne by done. by rewrite lookup_insert_eq.
    + apply stat_Returned. split.
      * apply (resolve_dirs_le (disk w2)); [|done].
        eauto using dirs_le_trans.
      * cbn [disk emit w4 w3 w2 w1 apply_effect].
        rewrite node_at_delete_ne by done. by rewrite node_at_insert_eq.
Qed.

(* ===================================================================== *)
(** * The shape of a run of [send_response]                               *)
(* ===================================================================== *)

Lemma basename_child p s :
  str_in slash s = false → kept s = true → basename (p // s) = s.
Proof.
  intros Hs Hk. rewrite (truediv_plain _ _ Hs), Hk.
  unfold basename. cbn [segs]. apply last_last.
Qed.

Lemma landing_plan_response_ne σ role :
  role ∈ valid_teams →
  landing σ plan_response "response.md" ≠ locate (role_response role).
Proof.
  intros Hrole. rewrite locate_role_response by done.
  destruct (dot_role_name _ Hrole) as (_ & _ & _ & Hp & _).
  destruct (landing_plan_response_cases σ) as [-> | ->];
    intros H; below_root H; congruence.
Qed.

Lemma landing_response_archive_ne σ role unit :
  role ∈ valid_teams → bad_folder_name unit = false →
  landing σ (response_archive role unit) "response.md" ≠
  locate (role_response role).
Proof.
  intros Hrole Hu. rewrite locate_role_response by done.
  destruct (landing_response_archive_cases σ _ _ Hrole Hu) as (rest & Hl & Hrest).
  destruct (response_archive_name_head role) as [r Hhead].
  rewrite Hhead in Hl. rewrite Hl. clear Hl Hhead.
  intros H. below_root H.
  destruct (unit_trail_cases unit) as [Ht|[Ht|Ht]]; rewrite Ht in H;
    destruct Hrest as [-> | ->]; cbn [app String.append] in H;
    try discriminate; injection H; intros; digit_clash.
Qed.


Lemma landing_plan_response_ne_request σ role :
  role ∈ valid_teams →
  landing σ plan_response "response.md" ≠ locate (role_request role).
Proof.
  intros Hrole. rewrite locate_role_request by done.
  destruct (landing_plan_response_cases σ) as [-> | ->];
    intros H; below_root H; discriminate.
Qed.

Lemma landing_response_archive_ne_request σ role unit :
  role ∈ valid_teams → bad_folder_name unit = false →
  landing σ (response_archive role unit) "response.md" ≠
  locate (role_request role).
Proof.
  intros Hrole Hu. rewrite locate_role_request by done.
  destruct (landing_response_archive_cases σ _ _ Hrole Hu) as (rest & Hl & Hrest).
  destruct (response_archive_name_head role) as [r Hhead].
  rewrite Hhead in Hl. rewrite Hl. clear Hl Hhead.
  intros H. below_root H.
  destruct (unit_trail_cases unit) as [Ht|[Ht|Ht]]; rewrite Ht in H;
    destruct Hrest as [-> | ->]; cbn [app String.append] in H;
    try discriminate; injection H; intros; digit_clash.
Qed.

Lemma role_response_ne_request role :
  role ∈ valid_teams →
  locate (role_request role) ≠ locate (role_response role).
Proof.
  intros Hrole. rewrite locate_role_request, locate_role_response by done.
  intros H. below_root H. discriminate.
Qed.

Lemma basename_role_response role :
  role ∈ valid_teams → basename (role_response role) = "response.md".
Proof. intros _. unfold role_response. by apply basename_child. Qed.

Lemma send_response_shape σ role unit o w :
  run (send_response role unit) σ = (o, w) →
  disk w = replay (trail w) σ ∧
  ((o ≠ Returned true ∧ trail w = []) ∨
   ∃ c, role ∈ valid_teams ∧ bad_folder_name unit = false ∧
        file_at σ (role_response role) c ∧
        path_exists σ (lifecycle_dir unit) = true ∧
        trail w `prefix_of` response_plan σ role unit c ∧
        (o = Returned true →
         trail w = response_plan σ role unit c ∧
         path_exists (disk w) (role_response role) = false ∧
         path_exists (disk w) (role_request role) = false ∧
         let to_plan := recipient σ plan_response "response.md" in
         let to_archive :=
           recipient (<[locate to_plan := File c]> σ)
             (response_archive role unit) "response.md" in
         file_at (disk w) to_plan c ∧ file_at (disk w) to_archive c)).
Proof.
  unfold run, send_response.
  destruct (bool_decide (role ∈ valid_teams)) eqn:Hrole; cbn [negb];
    [apply bool_decide_eq_true in Hrole|by intros [= <- <-]; split; [|left]].
  destruct (bad_folder_name unit) eqn:Hu;
    [by intros [= <- <-]; split; [|left]|].
  cbv zeta.
  change (project_root // ("." +:+ role)) with (role_dir role).
  change (role_dir role // "response.md") with (role_response role).
  change (role_dir role // "request.md") with (role_request role).
  change (project_root // ".plan" // "response.md") with plan_response.
  change (project_root // ".lifecycle" // unit) with (lifecycle_dir unit).
  change (lifecycle_dir unit // (strftime now +:+ "_response_from_" +:+ role +:+ ".md"))
    with (response_archive role unit).
  set (w0 := {| disk := σ; trail := [] |}).
  rewrite bind_run. unfold exists_ at 1. cbn [disk w0].
  destruct (path_exists σ (role_response role)) eqn:He1; cbn [negb];
    [|by intros [= <- <-]; split; [|left]].
  rewrite bind_run. unfold exists_ at 1. cbn [disk w0].
  destruct (path_exists σ (lifecycle_dir unit)) eqn:He2; cbn [negb];
    [|by intros [= <- <-]; split; [|left]].
  rewrite bind_run.
  destruct (copy2_cases (role_response role) plan_response w0)
    as [[e ->]|(c & Hc & [Hnd1 Hr1] & ->)];
    [by intros [= <- <-]; split; [|left]|].
  rewrite (basename_role_response _ Hrole) in *.
  cbn [disk w0] in Hc, Hnd1, Hr1 |- *.
  intros Hrun.
  set (to_plan := recipient σ plan_response "response.md") in *.
  set (dk := locate to_plan).
  set (to_archive :=
         recipient (<[dk := File c]> σ) (response_archive role unit) "response.md").
  set (ak := locate to_archive).
  set (first := [Write dk c; Write ak c; Unlink (locate (role_response role))]).
  set (plan := first ++ (if path_exists (replay first σ) (role_request role)
                         then [Unlink (locate (role_request role))] else [])).
  assert (response_plan σ role unit c = plan) as Hplan by done.
  enough (disk w = replay (trail w) σ ∧ trail w `prefix_of` plan ∧
    (o = Returned true →
     trail w = plan ∧
     path_exists (disk w) (role_response role) = false ∧
     path_exists (disk w) (role_request role) = false ∧
     file_at (disk w) to_plan c ∧ file_at (disk w) to_archive c))
    as (Hd & Hp & Hs).
  { split; [done|]. right. exists c. rewrite Hplan.
    do 4 (split; [done|]). split; [done|]. exact Hs. }
  clear Hplan. revert Hrun.
  change (landing σ plan_response "response.md") with dk in *.
  set (w1 := emit (Write dk c) w0).
  assert (dirs_le σ (disk w1)) as Hle1
    by (by apply (dirs_le_apply σ (Write dk c))).
  assert (stat (disk w1) (role_response role) = Returned (File c)) as Hc1.
  { apply (stat_frame σ); [done| |done].
    cbn. apply node_at_insert_ne. by apply landing_plan_response_ne. }
  rewrite bind_run.
  destruct (copy2_cases (role_response role) (response_archive role unit) w1)
    as [[e ->]|(c' & Hc' & [Hnd2 Hr2] & ->)].
  { intros [= <- <-]. cbn [disk trail w1 emit w0 app]. split; [done|].
    split; [|done]. subst plan first. by eexists. }
  rewrite (basename_role_response _ Hrole) in *.
  change (landing (disk w1) (response_archive role unit) "response.md")
    with ak in *.
  change (recipient (disk w1) (response_archive role unit) "response.md")
    with to_archive in *.
  assert (c' = c) as -> by congruence. clear Hc'.
  set (w2 := emit (Write ak c) w1).
  assert (dirs_le (disk w1) (disk w2)) as Hle2
    by (by apply (dirs_le_apply (disk w1) (Write ak c))).
  assert (stat (disk w2) (role_response role) = Returned (File c)) as Hc2.
  { apply (stat_frame (disk w1)); [done| |done].
    cbn. apply node_at_insert_ne. by apply landing_response_archive_ne. }
  rewrite bind_run, (unlink_file _ _ _ Hc2).
  set (w3 := emit (Unlink (locate (role_response role))) w2).
  assert (dirs_le (disk w2) (disk w3)) as Hle3.
  { apply (dirs_le_apply (disk w2) (Unlink (locate (role_response role)))).
    apply stat_Returned in Hc2 as [_ Hn]. cbn [target]. congruence. }
  assert (dk ≠ locate (role_response role)) as Hdk
    by (by apply landing_plan_response_ne).
  assert (ak ≠ locate (role_response role)) as Hak
    by (by apply landing_response_archive_ne).
  assert (dk ≠ locate (role_request role)) as Hdk'
    by (by apply landing_plan_response_ne_request).
  assert (ak ≠ locate (role_request role)) as Hak'
    by (by apply landing_response_archive_ne_request).
  assert (dk ≠ []) as Hdk0 by (by intros Heq; rewrite Heq in Hnd1).
  assert (ak ≠ []) as Hak0 by (by intros Heq; rewrite Heq in Hnd2).
  assert (locate (role_response role) ≠ []) as Hsrc0
    by (rewrite locate_role_response by done; by destruct root).
  assert (locate (role_request role) ≠ []) as Hreq0
    by (rewrite locate_role_request by done; by destruct root).
  assert (node_at (disk w3) dk = Some (File c)) as Hat_dk.
  { cbn [disk emit w3 w2 w1 w0 apply_effect].
    rewrite node_at_delete_ne by done. rewrite node_at_ne_nil by done.
    destruct (decide (ak = dk)) as [->|Hne]; [by rewrite lookup_insert_eq|].
    rewrite lookup_insert_ne by done. by rewrite lookup_insert_eq. }
  assert (node_at (disk w3) ak = Some (File c)) as Hat_ak.
  { cbn [disk emit w3 w2 w1 w0 apply_effect].
    rewrite node_at_delete_ne by done. by rewrite node_at_insert_eq. }
  assert (node_at (disk w3) (locate (role_response role)) = None) as Hat_src.
  { cbn [disk emit w3 apply_effect]. by apply node_at_delete_eq. }
  rewrite bind_run. unfold exists_ at 1.
  change (disk w3) with (replay first σ) in *.
  rewrite bind_run. subst plan.
  destruct (path_exists (replay first σ) (role_request role)) eqn:He3.
  - destruct (unlink_cases (role_request role) w3) as [[e ->]|(c' & Hc' & ->)].
    + intros [= <- <-]. split; [done|]. split; [|done].
      by apply prefix_app_r.
    + change (disk w3) with (replay first σ) in Hc'.
      assert (dirs_le (replay first σ)
                (delete (locate (role_request role)) (replay first σ))) as Hle4.
      { apply (dirs_le_apply (replay first σ) (Unlink (locate (role_request role)))).
        apply stat_Returned in Hc' as [_ Hn]. cbn [target]. congruence. }
      intros [= <- <-]. split; [reflexivity|]. split; [done|].
      intros _. split; [done|].
      change (disk (emit (Unlink (locate (role_request role))) w3))
        with (delete (locate (role_request role)) (replay first σ)).
      split; [|split; [|split]].
      * apply path_exists_absent.
        rewrite node_at_delete_ne by (by apply role_response_ne_request).
        done.
      * apply path_exists_absent. by apply node_at_delete_eq.
      * apply stat_Returned. split.
        -- apply (resolve_dirs_le σ); [|done]. eauto using dirs_le_trans.
        -- rewrite node_at_delete_ne by done. done.
      * apply stat_Returned. split.
        -- apply (resolve_dirs_le (disk w1)); [|done].
           eauto using dirs_le_trans.
        -- rewrite node_at_delete_ne by done. done.
  - intros [= <- <-]. split; [reflexivity|]. split; [by rewrite app_nil_r|].
    intros _. split; [by rewrite app_nil_r|].
    change (disk w3) with (replay first σ).
    split; [|split; [|split]].
    * by apply path_exists_absent.
    * done.
    * apply stat_Returned. split.
      -- apply (resolve_dirs_le σ); [|done]. eauto using dirs_le_trans.
      -- done.
    * apply stat_Returned. split.
      -- apply (resolve_dirs_le (disk w1)); [|done]. eauto using dirs_le_trans.
      -- done.
Qed.


(* ===================================================================== *)
(** * Validation gates                                                    *)
(* ===================================================================== *)

(** C3. A role outside dev, test, review, doc, or a unit name that is
    empty or contains a slash or a backslash, makes both [send_request]
    and [send_response] return [False] with the filesystem exactly as it
    was and no mutation performed. *)
Theorem C3_invalid_arguments_rejected (σ : fs) (role unit : string) :
  role ∉ valid_teams ∨ unit = "" ∨
    str_in slash unit = true ∨ str_in backslash unit = true →
  run (send_request role unit) σ = (Returned false, {| disk := σ; trail := [] |}) ∧
  run (send_response role unit) σ = (Returned false, {| disk := σ; trail := [] |}).
Proof.
  intros H. unfold run, send_request, send_response.
  destruct (bool_decide (role ∈ valid_teams)) eqn:Hrole; cbn [negb]; [|done].
  apply bool_decide_eq_true in Hrole.
  assert (bad_folder_name unit = true) as ->; [|done].
  unfold bad_folder_name.
  destruct H as [H|[->|[->| ->]]]; [done|done| |].
  - by rewrite orb_true_r.
  - by rewrite orb_true_r.
Qed.

Lemma send_request_needs_requirements (σ : fs) (role unit : string) :
  path_exists σ (requirements_file unit) = false →
  run (send_request role unit) σ = (Returned false, {| disk := σ; trail := [] |}).
Proof.
  intros Hreq. unfold run, send_request.
  destruct (bool_decide (role ∈ valid_teams)); cbn [negb]; [|done].
  destruct (bad_folder_name unit); [done|].
  cbv zeta. rewrite bind_run. unfold exists_ at 1. cbn [disk].
  destruct (path_exists σ (project_root // ".plan" // "request.md"));
    cbn [negb]; [|done].
  rewrite bind_run. unfold exists_ at 1. cbn [disk].
  destruct (path_exists σ (project_root // ".lifecycle" // unit));
    cbn [negb]; [|done].
  rewrite bind_run. unfold exists_ at 1. cbn [disk].
  change (project_root // ".lifecycle" // unit // "requirements.md")
    with (requirements_file unit).
  by rewrite Hreq.
Qed.

(** C5. Whenever [.lifecycle/<unit>/requirements.md] does not exist,
    [send_request] returns [False] and performs no mutation, whatever
    else holds of the staged request. *)
Theorem C5_requirements_required (σ : fs) (role unit : string) :
  path_exists σ (requirements_file unit) = false →
  run (send_request role unit) σ = (Returned false, {| disk := σ; trail := [] |}).
Proof. apply send_request_needs_requirements. Qed.

(** C4. Whenever the text of the staged request [.plan/request.md] does
    not contain [.lifecycle/<unit>/requirements.md], [send_request]
    returns [False] and performs no mutation, whatever else holds. *)
Theorem C4_reference_required (σ : fs) (role unit c : string) :
  file_at σ plan_request c →
  str_in (expected_reference unit) c = false →
  run (send_request role unit) σ = (Returned false, {| disk := σ; trail := [] |}).
Proof.
  intros Hc Href. unfold run, send_request.
  destruct (bool_decide (role ∈ valid_teams)); cbn [negb]; [|done].
  destruct (bad_folder_name unit); [done|].
  cbv zeta. rewrite bind_run. unfold exists_ at 1. cbn [disk].
  destruct (path_exists σ (project_root // ".plan" // "request.md"));
    cbn [negb]; [|done].
  rewrite bind_run. unfold exists_ at 1. cbn [disk].
  destruct (path_exists σ (project_root // ".lifecycle" // unit));
    cbn [negb]; [|done].
  rewrite bind_run. unfold exists_ at 1. cbn [disk].
  destruct (path_exists σ (project_root // ".lifecycle" // unit // "requirements.md"));
    cbn [negb]; [|done].
  rewrite bind_run.
  change (project_root // ".plan" // "request.md") with plan_request.
  rewrite (read_text_file plan_request _ c) by done.
  change (".lifecycle/" +:+ unit +:+ "/requirements.md")
    with (expected_reference unit).
  by rewrite Href.
Qed.


(* ===================================================================== *)
(** * Effects stay inside the project root                                *)
(* ===================================================================== *)

Lemma replay_frame es σ k :
  Forall (λ e, target e ≠ k) es → replay es σ !! k = σ !! k.
Proof.
  revert σ. induction es as [|e es IH]; intros σ Hall; [done|].
  apply Forall_cons in Hall as [He Hes]. cbn. unfold replay in IH.
  rewrite (IH _ Hes).
  destruct e; cbn in *; by rewrite ?lookup_insert_ne, ?lookup_delete_ne.
Qed.




Lemma Forall_prefix {A} (P : A → Prop) (l1 l2 : list A) :
  l1 `prefix_of` l2 → Forall P l2 → Forall P l1.
Proof. intros [k ->] Hall. by apply Forall_app in Hall as [? _]. Qed.




(* ===================================================================== *)
(** * Copy, copy, then delete                                             *)
(* ===================================================================== *)

Lemma landing_inside σ dst name :
  str_in slash name = false → kept name = true → dots name = false →
  inside (locate dst) (landing σ dst name).
Proof.
  intros. rewrite landing_unfold by done.
  destruct (isdir σ dst); [by eexists|done].
Qed.

Lemma prefix_is_take {A} (l1 l2 : list A) :
  l1 `prefix_of` l2 → l1 = take (length l1) l2.
Proof. intros [k ->]. by rewrite take_app_length. Qed.

Lemma survives_prefix σ src dest es es' c :
  es `prefix_of` es' → survives σ src dest es' c → survives σ src dest es c.
Proof.
  intros Hp Hs n. rewrite (prefix_is_take _ _ Hp), take_take. apply Hs.
Qed.

Lemma copies_precede_delete_prefix src dest arch es es' :
  es `prefix_of` es' →
  copies_precede_delete src dest arch es' →
  copies_precede_delete src dest arch es.
Proof.
  intros Hp Hc i Hi.
  destruct (Hc i (prefix_lookup_Some _ _ _ _ Hi Hp))
    as (j1 & j2 & dk & ak & c & H1 & H2 & Hj1 & Hd & Hj2 & Ha).
  pose proof (lookup_lt_Some _ _ _ Hi) as Hlt.
  exists j1, j2, dk, ak, c. repeat split; try done.
  - rewrite (prefix_lookup_lt es es'); [done|lia|done].
  - rewrite (prefix_lookup_lt es es'); [done|lia|done].
Qed.

Lemma file_at_lookup (σ : fs) p c :
  file_at σ p c → σ !! locate p = Some (File c).
Proof.
  intros [_ Hn]%stat_Returned. by destruct (locate p).
Qed.

Lemma request_plan_ordered σ role unit c :
  role ∈ valid_teams → bad_folder_name unit = false →
  copies_precede_delete (locate plan_request) (locate (role_request role))
    (locate (request_archive role unit)) (request_plan σ role unit c).
Proof.
  intros Hrole Hu i. unfold request_plan. cbv zeta.
  set (mk := match node_at σ (locate (role_dir role)) with
             | None => [Mkdir (locate (role_dir role))]
             | Some _ => []
             end).
  set (dk := landing (replay mk σ) (role_request role) "request.md").
  set (ak := landing (<[dk := File c]> (replay mk σ))
               (request_archive role unit) "request.md").
  destruct (request_archive_name_ok _ Hrole) as (? & ? & ?).
  assert (inside (locate (role_request role)) dk) by (by apply landing_inside).
  assert (inside (locate (request_archive role unit)) ak)
    by (by apply landing_inside).
  assert (mk = [] ∨ mk = [Mkdir (locate (role_dir role))]) as [-> | ->]
    by (subst mk; destruct (node_at σ (locate (role_dir role))); auto).
  - destruct i as [|[|[|i]]]; cbn; intros Hi; try discriminate Hi.
    exists 0, 1, dk, ak, c. repeat split; try done; lia.
  - destruct i as [|[|[|[|i]]]]; cbn; intros Hi; try discriminate Hi.
    exists 1, 2, dk, ak, c. repeat split; try done; lia.
Qed.

Lemma request_plan_survives σ role unit c :
  role ∈ valid_teams → bad_folder_name unit = false →
  file_at σ plan_request c →
  survives σ (locate plan_request) (locate (role_request role))
    (request_plan σ role unit c) c.
Proof.
  intros Hrole Hu Hc n. unfold request_plan. cbv zeta.
  set (mk := match node_at σ (locate (role_dir role)) with
             | None => [Mkdir (locate (role_dir role))]
             | Some _ => []
             end).
  set (dk := landing (replay mk σ) (role_request role) "request.md").
  set (ak := landing (<[dk := File c]> (replay mk σ))
               (request_archive role unit) "request.md").
  assert (inside (locate (role_request role)) dk) by (by apply landing_inside).
  assert (dk ≠ locate plan_request) as Hdk by (by apply landing_request_ne).
  assert (ak ≠ locate plan_request) as Hak
    by (by apply landing_request_archive_ne).
  pose proof (role_dir_ne_plan_request _ Hrole) as Hmk.
  pose proof (file_at_lookup _ _ _ Hc) as Hsrc.
  assert (∀ s : fs, delete (locate plan_request)
            (<[ak := File c]> (<[dk := File c]> s)) !! dk = Some (File c))
    as Hfinal.
  { intros s. rewrite lookup_delete_ne by done.
    destruct (decide (ak = dk)) as [->|Hne]; [by rewrite lookup_insert_eq|].
    rewrite lookup_insert_ne by done. by rewrite lookup_insert_eq. }
  assert (mk = [] ∨ mk = [Mkdir (locate (role_dir role))]) as [-> | ->]
    by (subst mk; destruct (node_at σ (locate (role_dir role))); auto).
  - destruct n as [|[|[|n]]];
      cbn [take app replay foldl apply_effect]; rewrite ?take_nil;
      cbn [foldl]; rewrite ?lookup_insert_ne by done; eauto.
  - destruct n as [|[|[|[|n]]]];
      cbn [take app replay foldl apply_effect]; rewrite ?take_nil;
      cbn [foldl]; rewrite ?lookup_insert_ne by done; eauto.
Qed.


Lemma response_plan_ordered σ role unit c :
  role ∈ valid_teams → bad_folder_name unit = false →
  copies_precede_delete (locate (role_response role)) (locate plan_response)
    (locate (response_archive role unit)) (response_plan σ role unit c).
Proof.
  intros Hrole Hu i. unfold response_plan. cbv zeta.
  set (dk := landing σ plan_response "response.md").
  set (ak := landing (<[dk := File c]> σ) (response_archive role unit)
               "response.md").
  destruct (response_archive_name_ok _ Hrole) as (? & ? & ?).
  assert (inside (locate plan_response) dk) by (by apply landing_inside).
  assert (inside (locate (response_archive role unit)) ak)
    by (by apply landing_inside).
  pose proof (role_response_ne_request _ Hrole) as Hreq.
  destruct (path_exists _ (role_request role));
    destruct i as [|[|[|[|i]]]]; cbn [app lookup list_lookup];
    intros Hi; try discriminate Hi; try (injection Hi as Hi; contradiction);
    exists 0, 1, dk, ak, c; repeat split; try done; lia.
Qed.

Lemma response_plan_survives σ role unit c :
  role ∈ valid_teams → bad_folder_name unit = false →
  file_at σ (role_response role) c →
  survives σ (locate (role_response role)) (locate plan_response)
    (response_plan σ role unit c) c.
Proof.
  intros Hrole Hu Hc n. unfold response_plan. cbv zeta.
  set (dk := landing σ plan_response "response.md").
  set (ak := landing (<[dk := File c]> σ) (response_archive role unit)
               "response.md").
  set (srck := locate (role_response role)).
  set (reqk := locate (role_request role)).
  assert (inside (locate plan_response) dk) by (by apply landing_inside).
  assert (dk ≠ srck) as Hdk by (by apply landing_plan_response_ne).
  assert (ak ≠ srck) as Hak by (by apply landing_response_archive_ne).
  assert (dk ≠ reqk) as Hdk' by (by apply landing_plan_response_ne_request).
  pose proof (file_at_lookup _ _ _ Hc) as Hsrc. fold srck in Hsrc.
  assert (∀ s : fs, delete srck
            (<[ak := File c]> (<[dk := File c]> s)) !! dk = Some (File c))
    as Hfinal.
  { intros s. rewrite lookup_delete_ne by done.
    destruct (decide (ak = dk)) as [->|Hne]; [by rewrite lookup_insert_eq|].
    rewrite lookup_insert_ne by done. by rewrite lookup_insert_eq. }
  destruct (path_exists _ (role_request role));
    destruct n as [|[|[|[|n]]]];
    cbn [take app replay foldl apply_effect]; rewrite ?take_nil;
    cbn [foldl]; rewrite ?lookup_insert_ne by done; eauto;
    right; exists dk; (split; [done|]); by rewrite lookup_delete_ne.
Qed.

(** C7. In both transfers the staged source is removed only after a copy
    has been written to the destination and a copy to the archive; and at
    whatever point a run is cut short, the staged text is still at the
    source or already at the destination. This holds for every run,
    successful or not. *)
Theorem C7_copy_then_delete (σ : fs) (role unit : string)
    (o : outcome bool) (w : world) :
  (run (send_request role unit) σ = (o, w) →
   copies_precede_delete (locate plan_request) (locate (role_request role))
     (locate (request_archive role unit)) (trail w) ∧
   ∀ c, file_at σ plan_request c →
        survives σ (locate plan_request) (locate (role_request role))
          (trail w) c) ∧
  (run (send_response role unit) σ = (o, w) →
   copies_precede_delete (locate (role_response role)) (locate plan_response)
     (locate (response_archive role unit)) (trail w) ∧
   ∀ c, file_at σ (role_response role) c →
        survives σ (locate (role_response role)) (locate plan_response)
          (trail w) c).
Proof.
  split; intros Hrun.
  - apply send_request_shape in Hrun
      as [_ [[_ Ht]|(c & Hrole & Hu & Hc & _ & _ & _ & Hp & _)]].
    + rewrite Ht. split; [by intros i Hi|].
      intros c Hc n. left. rewrite take_nil. cbn [replay foldl].
      by apply file_at_lookup.
    + split.
      * eapply copies_precede_delete_prefix; [exact Hp|].
        by apply request_plan_ordered.
      * intros c' Hc'. assert (c' = c) as -> by (unfold file_at in *; congruence).
        eapply survives_prefix; [exact Hp|]. by apply request_plan_survives.
  - apply send_response_shape in Hrun
      as [_ [[_ Ht]|(c & Hrole & Hu & Hc & _ & Hp & _)]].
    + rewrite Ht. split; [by intros i Hi|].
      intros c Hc n. left. rewrite take_nil. cbn [replay foldl].
      by apply file_at_lookup.
    + split.
      * eapply copies_precede_delete_prefix; [exact Hp|].
        by apply response_plan_ordered.
      * intros c' Hc'.
        assert (c' = c) as -> by (unfold file_at in *; congruence).
        eapply survives_prefix; [exact Hp|]. by apply response_plan_survives.
Qed.


(* ===================================================================== *)
(** * What a successful transfer leaves behind                            *)
(* ===================================================================== *)

Lemma isdir_node σ p : isdir σ p = true → node_at σ (locate p) = Some Dir.
Proof. by intros [_ ?]%isdir_true%stat_Returned. Qed.

Lemma recipient_not_dir σ dst name :
  not_a_directory σ dst → recipient σ dst name = dst.
Proof.
  intros Hnd. unfold recipient.
  destruct (isdir σ dst) eqn:Hd; [|done].
  by apply isdir_node in Hd.
Qed.

Lemma not_a_directory_insert_file (σ : fs) k c p :
  not_a_directory σ p → not_a_directory (<[k := File c]> σ) p.
Proof.
  unfold not_a_directory. intros Hnd Hd.
  destruct (decide (k = locate p)) as [Heq|Hne].
  - destruct (locate p) as [|a l] eqn:Hl; [done|].
    subst k. cbn in Hd. by rewrite lookup_insert_eq in Hd.
  - by rewrite node_at_insert_ne in Hd.
Qed.

Lemma not_a_directory_mkdir (σ : fs) k p :
  k ≠ locate p →
  not_a_directory σ p → not_a_directory (<[k := Dir]> σ) p.
Proof.
  unfold not_a_directory. intros Hne Hnd. by rewrite node_at_insert_ne.
Qed.

Lemma request_archive_ne_role_dir role unit :
  role ∈ valid_teams → bad_folder_name unit = false →
  locate (role_dir role) ≠ locate (request_archive role unit).
Proof.
  intros Hrole Hu.
  rewrite locate_role_dir, locate_request_archive by done.
  destruct (request_archive_name_head role) as [r ->].
  intros H. below_root H.
  destruct (unit_trail_cases unit) as [Ht|[Ht|Ht]]; rewrite Ht in H;
    cbn [app String.append] in H; try discriminate;
    injection H; intros; digit_clash.
Qed.

Lemma role_request_ne_role_dir role :
  role ∈ valid_teams → locate (role_dir role) ≠ locate (role_request role).
Proof.
  intros Hrole. rewrite locate_role_dir, locate_role_request by done.
  intros H. below_root H. discriminate.
Qed.

(** C1. Amended: provided neither [.{role}/request.md] nor the archive
    name is a directory beforehand, a successful [send_request] leaves no
    staged request at [.plan/request.md], a file with the staged text at
    [.{role}/request.md], and a file with the staged text at
    [.lifecycle/<unit>/<timestamp>_request_to_{role}.md]. *)
Theorem C1_request_delivered (σ : fs) (role unit : string) (w : world) :
  not_a_directory σ (role_request role) →
  not_a_directory σ (request_archive role unit) →
  run (send_request role unit) σ = (Returned true, w) →
  ∃ c, file_at σ plan_request c ∧
       path_exists (disk w) plan_request = false ∧
       file_at (disk w) (role_request role) c ∧
       file_at (disk w) (request_archive role unit) c.
Proof.
  intros Hdest Harch Hrun.
  apply send_request_shape in Hrun
    as [_ [[Ho _]|(c & Hrole & Hu & Hc & _ & _ & _ & _ & Hs)]]; [done|].
  destruct (Hs eq_refl) as (_ & Hgone & Hto_role & Hto_arch). clear Hs.
  cbv zeta in Hto_role, Hto_arch.
  set (σ1 := replay _ σ) in *.
  assert (not_a_directory σ1 (role_request role) ∧
          not_a_directory σ1 (request_archive role unit)) as [Hdest1 Harch1].
  { subst σ1. destruct (node_at σ (locate (role_dir role))); [done|].
    cbn. split; apply not_a_directory_mkdir; try done.
    - by apply role_request_ne_role_dir.
    - by apply request_archive_ne_role_dir. }
  rewrite (recipient_not_dir σ1 (role_request role)) in * by done.
  rewrite (recipient_not_dir _ (request_archive role unit)) in Hto_arch
    by (by apply not_a_directory_insert_file).
  exists c. done.
Qed.


(** A file found below [p] shows that [p] itself exists. *)
Lemma file_below_exists σ p name c :
  str_in slash name = false → kept name = true →
  file_at σ (p // name) c → path_exists σ p = true.
Proof.
  intros Hs Hk [Hr _]%stat_Returned.
  rewrite resolve_truediv in Hr by done.
  destruct (resolve σ p) as [k|e] eqn:Hp; [|done].
  pose proof (resolve_Returned _ _ _ Hp) as ->.
  apply path_exists_true. split; [done|].
  destruct (node_at σ (locate p)); [by eexists|done].
Qed.

Lemma file_at_exists σ p c : file_at σ p c → path_exists σ p = true.
Proof. unfold file_at, path_exists. by intros ->. Qed.

(** C2. Amended: provided [.plan/response.md] is not a directory
    beforehand, a successful [send_response] leaves no staged response at
    [.{role}/response.md], a file with the staged text at
    [.plan/response.md], an entry called
    [<timestamp>_response_from_{role}.md] in the unit's directory (a file
    with the staged text unless a directory of that name stood there),
    and no [.{role}/request.md]. *)
Theorem C2_response_delivered (σ : fs) (role unit : string) (w : world) :
  not_a_directory σ plan_response →
  run (send_response role unit) σ = (Returned true, w) →
  ∃ c, file_at σ (role_response role) c ∧
       path_exists (disk w) (role_response role) = false ∧
       file_at (disk w) plan_response c ∧
       path_exists (disk w) (response_archive role unit) = true ∧
       (not_a_directory σ (response_archive role unit) →
        file_at (disk w) (response_archive role unit) c) ∧
       path_exists (disk w) (role_request role) = false.
Proof.
  intros Hdest Hrun.
  apply send_response_shape in Hrun
    as [_ [[Ho _]|(c & Hrole & Hu & Hc & _ & _ & Hs)]]; [done|].
  destruct (Hs eq_refl) as (_ & Hgone & Hreq & Hto_plan & Hto_arch). clear Hs.
  cbv zeta in Hto_plan, Hto_arch.
  rewrite (recipient_not_dir σ plan_response) in * by done.
  exists c. repeat split; try done.
  - unfold recipient in Hto_arch.
    destruct (isdir _ (response_archive role unit)).
    + by apply file_below_exists in Hto_arch.
    + by apply file_at_exists in Hto_arch.
  - intros Harch.
    rewrite (recipient_not_dir _ (response_archive role unit)) in Hto_arch
      by (by apply not_a_directory_insert_file).
    done.
Qed.

(** A run of [send_response] that finds no staged response stops at once. *)
Lemma send_response_nothing_staged σ role unit :
  path_exists σ (role_response role) = false →
  run (send_response role unit) σ = (Returned false, {| disk := σ; trail := [] |}).
Proof.
  intros Hnone. unfold run, send_response.
  destruct (bool_decide (role ∈ valid_teams)); cbn [negb]; [|done].
  destruct (bad_folder_name unit); [done|].
  cbv zeta. rewrite bind_run. unfold exists_ at 1. cbn [disk].
  change (project_root // ("." +:+ role) // "response.md")
    with (role_response role).
  by rewrite Hnone.
Qed.

Lemma send_response_consumes σ role unit w :
  run (send_response role unit) σ = (Returned true, w) →
  path_exists (disk w) (role_response role) = false.
Proof.
  intros Hrun.
  apply send_response_shape in Hrun
    as [_ [[Ho _]|(c & _ & _ & _ & _ & _ & Hs)]]; [done|].
  by destruct (Hs eq_refl) as (_ & Hgone & _).
Qed.

(* ===================================================================== *)
(** * The archive of a unit                                               *)
(* ===================================================================== *)





(* ===================================================================== *)
(** * When [send_response] is bound to succeed                            *)
(* ===================================================================== *)

Lemma copy2_file src dst w c :
  stat (disk w) src = Returned (File c) →
  resolve (disk w) (recipient (disk w) dst (basename src)) =
    Returned (landing (disk w) dst (basename src)) →
  node_at (disk w) (landing (disk w) dst (basename src)) ≠ Some Dir →
  locate src ≠ landing (disk w) dst (basename src) →
  copy2 src dst w =
    (Returned tt, emit (Write (landing (disk w) dst (basename src)) c) w).
Proof.
  intros Hc Hr Hnd Hne. unfold copy2. cbv zeta.
  pose proof (proj1 (stat_Returned _ _ _) Hc) as [Hsrc _].
  unfold samefile. rewrite Hsrc, Hr.
  rewrite bool_decide_eq_false_2 by done. cbn [andb].
  rewrite bind_run, (read_text_file _ _ _ Hc).
  unfold write_bytes. rewrite Hr.
  destruct (node_at (disk w) (landing (disk w) dst (basename src)))
    as [[c'|]|]; done.
Qed.

Lemma resolve_child σ p name :
  str_in slash name = false → kept name = true →
  isdir σ p = true →
  resolve σ (p // name) = Returned (locate (p // name)).
Proof.
  intros Hs Hk [Hr Hn]%isdir_true%stat_Returned.
  pose proof (resolve_truediv σ p name Hs Hk) as Heq.
  rewrite Hr, Hn in Heq.
  rewrite Heq. f_equal. symmetry. by apply locate_truediv.
Qed.

(** What exists below [p] shows that [p] is a directory. *)
Lemma parent_isdir σ p name :
  str_in slash name = false → kept name = true →
  path_exists σ (p // name) = true → isdir σ p = true.
Proof.
  intros Hs Hk [Hr _]%path_exists_true.
  rewrite resolve_truediv in Hr by done.
  destruct (resolve σ p) as [k|e] eqn:Hp; [|done].
  pose proof (resolve_Returned _ _ _ Hp) as ->.
  apply isdir_true, stat_Returned. split; [done|].
  by destruct (node_at σ (locate p)) as [[?|]|].
Qed.

Lemma isdir_dirs_le σ σ' p :
  dirs_le σ σ' → isdir σ p = true → isdir σ' p = true.
Proof.
  intros Hle [Hr Hn]%isdir_true%stat_Returned.
  apply isdir_true, stat_Returned. split.
  - by apply (resolve_dirs_le σ).
  - by apply Hle.
Qed.

Lemma send_response_succeeds σ role unit c :
  role ∈ valid_teams → bad_folder_name unit = false →
  file_at σ (role_response role) c →
  isdir σ (lifecycle_dir unit) = true →
  isdir σ plan_dir = true →
  not_a_directory σ plan_response →
  not_a_directory σ (response_archive role unit) →
  not_a_directory σ (role_request role) →
  ∃ w, run (send_response role unit) σ = (Returned true, w).
Proof.
  intros Hrole Hu Hc Hunit Hplan Hdest Harch Hreq.
  unfold run, send_response.
  rewrite (bool_decide_eq_true_2 _ Hrole), Hu. cbn [negb]. cbv zeta.
  change (project_root // ("." +:+ role)) with (role_dir role).
  change (role_dir role // "response.md") with (role_response role).
  change (role_dir role // "request.md") with (role_request role).
  change (project_root // ".plan" // "response.md") with plan_response.
  change (project_root // ".lifecycle" // unit) with (lifecycle_dir unit).
  change (lifecycle_dir unit // (strftime now +:+ "_response_from_" +:+ role +:+ ".md"))
    with (response_archive role unit).
  set (w0 := {| disk := σ; trail := [] |}).
  rewrite bind_run. unfold exists_ at 1. cbn [disk w0].
  rewrite (file_at_exists _ _ _ Hc). cbn [negb].
  rewrite bind_run. unfold exists_ at 1. cbn [disk w0].
  assert (path_exists σ (lifecycle_dir unit) = true) as ->.
  { apply isdir_true in Hunit. unfold path_exists. by rewrite Hunit. }
  cbn [negb].
  destruct (response_archive_name_ok _ Hrole) as (Hn1 & Hn2 & Hn3).
  (* first copy *)
  set (dk := locate plan_response).
  assert (landing σ plan_response (basename (role_response role)) = dk) as Hl1.
  { unfold landing. by rewrite recipient_not_dir. }
  rewrite bind_run.
  rewrite (copy2_file (role_response role) plan_response w0 c); cbn [disk w0];
    rewrite ?Hl1; try done; cycle 1.
  { rewrite recipient_not_dir by done. by apply (resolve_child σ plan_dir). }
  { intros Heq. symmetry in Heq. revert Heq. subst dk.
    pose proof (landing_plan_response_ne σ _ Hrole) as Hne.
    unfold landing in Hne. by rewrite recipient_not_dir in Hne. }
  set (w1 := emit (Write dk c) w0).
  assert (dirs_le σ (disk w1)) as Hle1
    by (by apply (dirs_le_apply σ (Write dk c))).
  pose proof (landing_plan_response_ne σ _ Hrole) as Hdk.
  unfold landing in Hdk. rewrite recipient_not_dir in Hdk by done. fold dk in Hdk.
  assert (stat (disk w1) (role_response role) = Returned (File c)) as Hc1.
  { apply (stat_frame σ); [done| |done]. cbn. by apply node_at_insert_ne. }
  (* second copy *)
  assert (not_a_directory (disk w1) (response_archive role unit)) as Harch1
    by (by apply not_a_directory_insert_file).
  set (ak := locate (response_archive role unit)).
  assert (landing (disk w1) (response_archive role unit)
            (basename (role_response role)) = ak) as Hl2.
  { unfold landing. by rewrite recipient_not_dir. }
  pose proof (landing_response_archive_ne (disk w1) _ _ Hrole Hu) as Hak.
  rewrite <- (basename_role_response _ Hrole), Hl2 in Hak.
  rewrite bind_run.
  rewrite (copy2_file (role_response role) (response_archive role unit) w1 c);
    rewrite ?Hl2; try done; cycle 1.
  { rewrite recipient_not_dir by done.
    apply (resolve_dirs_le σ); [done|].
    by apply (resolve_child σ (lifecycle_dir unit)). }
  set (w2 := emit (Write ak c) w1).
  assert (dirs_le (disk w1) (disk w2)) as Hle2
    by (by apply (dirs_le_apply (disk w1) (Write ak c))).
  assert (stat (disk w2) (role_response role) = Returned (File c)) as Hc2.
  { apply (stat_frame (disk w1)); [done| |done]. cbn. by apply node_at_insert_ne. }
  rewrite bind_run, (unlink_file _ _ _ Hc2).
  set (w3 := emit (Unlink (locate (role_response role))) w2).
  rewrite bind_run. unfold exists_ at 1. rewrite bind_run.
  destruct (path_exists (disk w3) (role_request role)) eqn:He; [|by eexists].
  assert (∃ c', stat (disk w3) (role_request role) = Returned (File c'))
    as [c' Hc'].
  { unfold path_exists in He.
    destruct (stat (disk w3) (role_request role)) as [[c'|]|] eqn:Hs;
      [by eexists| |done].
    exfalso. apply stat_Returned in Hs as [_ Hs]. revert Hs.
    cbn [disk emit w3 w2 w1 w0 apply_effect].
    rewrite node_at_delete_ne by (by apply not_eq_sym, role_response_ne_request).
    rewrite node_at_insert_ne.
    - rewrite node_at_insert_ne; [done|].
      pose proof (landing_plan_response_ne_request σ _ Hrole) as Hne.
      unfold landing in Hne. by rewrite recipient_not_dir in Hne.
    - pose proof (landing_response_archive_ne_request (disk w1) _ _ Hrole Hu)
        as Hne.
      unfold landing in Hne. by rewrite recipient_not_dir in Hne. }
  rewrite (unlink_file _ _ _ Hc'). by eexists.
Qed.

(** Writing a regular file where no directory stood leaves the
    directories what they were. *)
Lemma isdir_insert_file σ k c p :
  k ≠ [] → node_at σ k ≠ Some Dir →
  isdir (<[k := File c]> σ) p = isdir σ p.
Proof.
  intros Hk Hn.
  assert (dirs_le σ (<[k := File c]> σ)) as Hle
    by (by apply (dirs_le_apply σ (Write k c))).
  assert (dirs_le (<[k := File c]> σ) σ) as Hge.
  { intros t Ht. destruct (decide (k = t)) as [<-|Hne].
    - by rewrite node_at_insert_eq in Ht.
    - by rewrite node_at_insert_ne in Ht. }
  destruct (isdir σ p) eqn:Hd.
  - by apply (isdir_dirs_le σ).
  - destruct (isdir (<[k := File c]> σ) p) eqn:Hd'; [|done].
    apply (isdir_dirs_le _ σ) in Hd'; [|done]. congruence.
Qed.

(** Where [shutil.copy2] writes, when the destination is an entry of an
    existing directory. *)
Lemma resolve_recipient σ parent name name' :
  str_in slash name = false → kept name = true →
  str_in slash name' = false → kept name' = true →
  isdir σ parent = true →
  resolve σ (recipient σ (parent // name) name') =
    Returned (landing σ (parent // name) name').
Proof.
  intros Hs Hk Hs' Hk' Hp. unfold landing, recipient.
  destruct (isdir σ (parent // name)) eqn:Hd.
  - by apply resolve_child.
  - by apply resolve_child.
Qed.

Lemma send_response_goes_through σ role unit c :
  role ∈ valid_teams → bad_folder_name unit = false →
  file_at σ (role_response role) c →
  isdir σ (lifecycle_dir unit) = true →
  isdir σ plan_dir = true →
  not_a_directory σ (recipient σ plan_response "response.md") →
  not_a_directory σ (recipient σ (response_archive role unit) "response.md") →
  not_a_directory σ (role_request role) →
  ∃ w, run (send_response role unit) σ = (Returned true, w).
Proof.
  intros Hrole Hu Hc Hunit Hplan Hdest Harch Hreq.
  unfold run, send_response.
  rewrite (bool_decide_eq_true_2 _ Hrole), Hu. cbn [negb]. cbv zeta.
  change (project_root // ("." +:+ role)) with (role_dir role).
  change (role_dir role // "response.md") with (role_response role).
  change (role_dir role // "request.md") with (role_request role).
  change (project_root // ".plan" // "response.md") with plan_response.
  change (project_root // ".lifecycle" // unit) with (lifecycle_dir unit).
  change (lifecycle_dir unit // (strftime now +:+ "_response_from_" +:+ role +:+ ".md"))
    with (response_archive role unit).
  set (w0 := {| disk := σ; trail := [] |}).
  rewrite bind_run. unfold exists_ at 1. cbn [disk w0].
  rewrite (file_at_exists _ _ _ Hc). cbn [negb].
  rewrite bind_run. unfold exists_ at 1. cbn [disk w0].
  assert (path_exists σ (lifecycle_dir unit) = true) as ->.
  { apply isdir_true in Hunit. unfold path_exists. by rewrite Hunit. }
  cbn [negb].
  destruct (response_archive_name_ok _ Hrole) as (Hn1 & Hn2 & Hn3).
  rewrite <- (basename_role_response _ Hrole) in Hdest, Harch.
  (* first copy *)
  set (dk := landing σ plan_response (basename (role_response role))).
  pose proof (landing_plan_response_ne σ _ Hrole) as Hdk.
  rewrite <- (basename_role_response _ Hrole) in Hdk. fold dk in Hdk.
  assert (dk ≠ []) as Hdkn.
  { subst dk. rewrite (basename_role_response _ Hrole).
    destruct (landing_plan_response_cases σ) as [-> | ->]; by destruct root. }
  rewrite bind_run.
  rewrite (copy2_file (role_response role) plan_response w0 c); cbn [disk w0];
    fold dk; try done; cycle 1.
  { subst dk. rewrite (basename_role_response _ Hrole).
    by apply (resolve_recipient σ plan_dir). }
  set (w1 := emit (Write dk c) w0).
  assert (dirs_le σ (disk w1)) as Hle1
    by (by apply (dirs_le_apply σ (Write dk c))).
  assert (stat (disk w1) (role_response role) = Returned (File c)) as Hc1.
  { apply (stat_frame σ); [done| |done]. cbn. by apply node_at_insert_ne. }
  (* second copy *)
  assert (recipient (disk w1) (response_archive role unit)
            (basename (role_response role)) =
          recipient σ (response_archive role unit)
            (basename (role_response role))) as Hsame.
  { unfold recipient. cbn [disk w1 emit w0 apply_effect].
    by rewrite isdir_insert_file. }
  set (ak := landing σ (response_archive role unit)
               (basename (role_response role))).
  assert (landing (disk w1) (response_archive role unit)
            (basename (role_response role)) = ak) as Hl2
    by (unfold landing; by rewrite Hsame).
  pose proof (landing_response_archive_ne (disk w1) _ _ Hrole Hu) as Hak.
  rewrite <- (basename_role_response _ Hrole), Hl2 in Hak.
  rewrite bind_run.
  rewrite (copy2_file (role_response role) (response_archive role unit) w1 c);
    rewrite ?Hl2; try done; cycle 1.
  { rewrite Hsame. apply (resolve_dirs_le σ); [done|].
    subst ak. rewrite (basename_role_response _ Hrole).
    by apply (resolve_recipient σ (lifecycle_dir unit)). }
  { cbn [disk w1 emit w0 apply_effect].
    by apply (not_a_directory_insert_file σ dk c) in Harch. }
  set (w2 := emit (Write ak c) w1).
  assert (dirs_le (disk w1) (disk w2)) as Hle2.
  { apply (dirs_le_apply (disk w1) (Write ak c)). cbn [target].
    cbn [disk w1 emit w0 apply_effect].
    by apply (not_a_directory_insert_file σ dk c) in Harch. }
  assert (stat (disk w2) (role_response role) = Returned (File c)) as Hc2.
  { apply (stat_frame (disk w1)); [done| |done]. cbn. by apply node_at_insert_ne. }
  rewrite bind_run, (unlink_file _ _ _ Hc2).
  set (w3 := emit (Unlink (locate (role_response role))) w2).
  rewrite bind_run. unfold exists_ at 1. rewrite bind_run.
  destruct (path_exists (disk w3) (role_request role)) eqn:He; [|by eexists].
  assert (∃ c', stat (disk w3) (role_request role) = Returned (File c'))
    as [c' Hc'].
  { unfold path_exists in He.
    destruct (stat (disk w3) (role_request role)) as [[c'|]|] eqn:Hs;
      [by eexists| |done].
    exfalso. apply stat_Returned in Hs as [_ Hs]. revert Hs.
    cbn [disk emit w3 w2 w1 w0 apply_effect].
    rewrite node_at_delete_ne by (by apply not_eq_sym, role_response_ne_request).
    rewrite node_at_insert_ne.
    - rewrite node_at_insert_ne; [done|].
      subst dk. rewrite (basename_role_response _ Hrole).
      by apply landing_plan_response_ne_request.
    - subst ak. rewrite (basename_role_response _ Hrole).
      by apply landing_response_archive_ne_request. }
  rewrite (unlink_file _ _ _ Hc'). by eexists.
Qed.

(** C6. Amended: [send_response] never looks for the requirements
    artifact. With a valid role and unit name, a staged response that is
    a regular file, the unit's directory and the planner's directory
    [.plan] both present, no directory standing at [.{role}/request.md],
    and no directory standing where either copy is written (that is at
    [.plan/response.md], respectively at the archive name, or, when that
    is a directory, at [response.md] inside it), it succeeds whether or
    not [requirements.md] exists; without [requirements.md],
    [send_request] on the same state returns [False]. *)
Theorem C6_response_needs_no_requirements (σ : fs) (role unit c : string) :
  role ∈ valid_teams → bad_folder_name unit = false →
  file_at σ (role_response role) c →
  isdir σ (lifecycle_dir unit) = true →
  isdir σ plan_dir = true →
  not_a_directory σ (recipient σ plan_response "response.md") →
  not_a_directory σ (recipient σ (response_archive role unit) "response.md") →
  not_a_directory σ (role_request role) →
  (∃ w, run (send_response role unit) σ = (Returned true, w)) ∧
  (path_exists σ (requirements_file unit) = false →
   run (send_request role unit) σ =
     (Returned false, {| disk := σ; trail := [] |})).
Proof.
  intros. split.
  - by apply (send_response_goes_through σ role unit c).
  - apply send_request_needs_requirements.
Qed.

(* ===================================================================== *)
(** * Directories are never lost                                          *)
(* ===================================================================== *)

Lemma keeps_dirs_ret {A} (a : A) : keeps_dirs (mret a : M A).
Proof. intros w o w' [= _ <-]. apply dirs_le_refl. Qed.

Lemma keeps_dirs_bind {A B} (m : M A) (f : A → M B) :
  keeps_dirs m → (∀ a, keeps_dirs (f a)) → keeps_dirs (m ≫= f).
Proof.
  intros Hm Hf w o w'. rewrite bind_run.
  destruct (m w) as [[a|e] w1] eqn:Hmw.
  - intros Hfa. eapply dirs_le_trans; [by eapply Hm|by eapply Hf].
  - intros [= _ <-]. by eapply Hm.
Qed.

Lemma keeps_dirs_exists p : keeps_dirs (exists_ p).
Proof. intros w o w' [= _ <-]. apply dirs_le_refl. Qed.

Lemma keeps_dirs_read_text p : keeps_dirs (read_text p).
Proof.
  intros w o w'.
  destruct (read_text_cases p w) as [[e ->]|(c & _ & ->)];
    intros [= _ <-]; apply dirs_le_refl.
Qed.

Lemma keeps_dirs_mkdir p : keeps_dirs (mkdir_exist_ok p).
Proof.
  intros w o w'.
  destruct (mkdir_exist_ok_cases p w) as [[e ->]|[[-> _]|(-> & Hn & _)]];
    intros [= _ <-]; try apply dirs_le_refl.
  apply (dirs_le_apply (disk w) (Mkdir (locate p))). cbn [target]. congruence.
Qed.

Lemma keeps_dirs_copy2 src dst : keeps_dirs (copy2 src dst).
Proof.
  intros w o w'.
  destruct (copy2_cases src dst w) as [[e ->]|(c & _ & [Hnd _] & ->)];
    intros [= _ <-]; [apply dirs_le_refl|].
  by apply (dirs_le_apply (disk w) (Write _ c)).
Qed.

Lemma keeps_dirs_unlink p : keeps_dirs (unlink p).
Proof.
  intros w o w'.
  destruct (unlink_cases p w) as [[e ->]|(c & [_ Hn]%stat_Returned & ->)];
    intros [= _ <-]; [apply dirs_le_refl|].
  apply (dirs_le_apply (disk w) (Unlink (locate p))). cbn [target]. congruence.
Qed.

(** Breaks a goal [keeps_dirs m] down along the structure of [m]. *)
Ltac keeps_dirs_steps :=
  repeat first
    [ apply keeps_dirs_ret
    | apply keeps_dirs_exists
    | apply keeps_dirs_read_text
    | apply keeps_dirs_mkdir
    | apply keeps_dirs_copy2
    | apply keeps_dirs_unlink
    | apply keeps_dirs_bind; [|intros ?]
    | match goal with
      | |- keeps_dirs (if ?b then _ else _) => destruct b
      end ].

Lemma keeps_dirs_send_request role unit : keeps_dirs (send_request role unit).
Proof. unfold send_request. cbv zeta. keeps_dirs_steps. Qed.

Lemma keeps_dirs_send_response role unit : keeps_dirs (send_response role unit).
Proof. unfold send_response. cbv zeta. keeps_dirs_steps. Qed.

(** X1. Neither operation ever removes a directory or puts a file in its
    place: whatever the arguments and the outcome, every location that
    was a directory before the run is a directory after it. *)
Theorem transfers_keep_directories (σ : fs) (role unit : string)
    (o : outcome bool) (w : world) :
  run (send_request role unit) σ = (o, w) ∨
  run (send_response role unit) σ = (o, w) →
  ∀ k, node_at σ k = Some Dir → node_at (disk w) k = Some Dir.
Proof.
  intros [Hrun|Hrun].
  - exact (keeps_dirs_send_request role unit _ _ _ Hrun).
  - exact (keeps_dirs_send_response role unit _ _ _ Hrun).
Qed.

(* ===================================================================== *)
(** * Returning [False] means nothing was done                            *)
(* ===================================================================== *)

Lemma bind_never_false {A} (m : M A) (f : A → M bool) :
  (∀ a w o w', f a w = (o, w') → o ≠ Returned false) →
  ∀ w o w', (m ≫= f) w = (o, w') → o ≠ Returned false.
Proof.
  intros Hf w o w'. rewrite bind_run.
  destruct (m w) as [[a|e] w1]; [apply Hf|by intros [= <- _]].
Qed.

Lemma ret_true_never_false w o w' :
  (mret true : M bool) w = (o, w') → o ≠ Returned false.
Proof. by intros [= <- _]. Qed.

Lemma send_request_false σ role unit w :
  run (send_request role unit) σ = (Returned false, w) →
  w = {| disk := σ; trail := [] |}.
Proof.
  unfold run, send_request.
  destruct (bool_decide (role ∈ valid_teams)); cbn [negb];
    [|by intros [= <-]].
  destruct (bad_folder_name unit); [by intros [= <-]|].
  cbv zeta. set (w0 := {| disk := σ; trail := [] |}).
  rewrite bind_run. unfold exists_ at 1.
  destruct (path_exists _ _); cbn [negb]; [|by intros [= <-]].
  rewrite bind_run. unfold exists_ at 1.
  destruct (path_exists _ _); cbn [negb]; [|by intros [= <-]].
  rewrite bind_run. unfold exists_ at 1.
  destruct (path_exists _ _); cbn [negb]; [|by intros [= <-]].
  rewrite bind_run.
  destruct (read_text_cases (project_root // ".plan" // "request.md") w0)
    as [[e ->]|(c & _ & ->)]; [done|].
  destruct (str_in _ c); cbn [negb]; [|by intros [= <-]].
  intros Hrun. exfalso. revert Hrun.
  match goal with
  | |- ?m w0 = (Returned false, w) → False =>
      intros Hrun; revert Hrun; generalize w0; intros w1 Hrun;
      assert (Returned false ≠ @Returned bool false) as Hne; [|done];
      revert Hrun; apply bind_never_false; intros _;
      apply bind_never_false; intros _;
      apply bind_never_false; intros _;
      apply bind_never_false; intros _;
      apply ret_true_never_false
  end.
Qed.

Lemma send_response_false σ role unit w :
  run (send_response role unit) σ = (Returned false, w) →
  w = {| disk := σ; trail := [] |}.
Proof.
  unfold run, send_response.
  destruct (bool_decide (role ∈ valid_teams)); cbn [negb];
    [|by intros [= <-]].
  destruct (bad_folder_name unit); [by intros [= <-]|].
  cbv zeta. set (w0 := {| disk := σ; trail := [] |}).
  rewrite bind_run. unfold exists_ at 1.
  destruct (path_exists _ _); cbn [negb]; [|by intros [= <-]].
  rewrite bind_run. unfold exists_ at 1.
  destruct (path_exists _ _); cbn [negb]; [|by intros [= <-]].
  intros Hrun. exfalso.
  assert (Returned false ≠ @Returned bool false) as Hne; [|done].
  revert Hrun. generalize w0. intros w1.
  apply bind_never_false; intros _.
  apply bind_never_false; intros _.
  apply bind_never_false; intros _.
  apply bind_never_false; intros found.
  apply bind_never_false; intros _.
  apply ret_true_never_false.
Qed.

(** X2. A [False] from either operation means it stopped at one of its
    checks: the filesystem is exactly as before and no mutation was
    performed. Once the first mutation is made, a run can only end in
    [True] or in an exception. *)
Theorem false_means_untouched (σ : fs) (role unit : string) (w : world) :
  run (send_request role unit) σ = (Returned false, w) ∨
  run (send_response role unit) σ = (Returned false, w) →
  w = {| disk := σ; trail := [] |}.
Proof.
  intros [Hrun|Hrun].
  - by apply (send_request_false σ role unit).
  - by apply (send_response_false σ role unit).
Qed.

(* ===================================================================== *)
(** * The only locations a transfer can change                            *)
(* ===================================================================== *)

Lemma request_plan_targets σ role unit c :
  role ∈ valid_teams → bad_folder_name unit = false →
  Forall (λ e, target e = locate (role_dir role) ∨
               inside (locate (role_request role)) (target e) ∨
               inside (locate (request_archive role unit)) (target e) ∨
               target e = locate plan_request)
    (request_plan σ role unit c).
Proof.
  intros Hrole Hu. unfold request_plan. cbv zeta.
  destruct (request_archive_name_ok _ Hrole) as (? & ? & ?).
  apply Forall_app. split.
  - destruct (node_at σ (locate (role_dir role))); [done|].
    apply Forall_cons_2; [|apply Forall_nil_2]. by left.
  - repeat apply Forall_cons_2; cbn [target]; last by apply Forall_nil_2.
    + right. left. by apply landing_inside.
    + right. right. left. by apply landing_inside.
    + by repeat right.
Qed.

Lemma response_plan_targets σ role unit c :
  role ∈ valid_teams → bad_folder_name unit = false →
  Forall (λ e, inside (locate plan_response) (target e) ∨
               inside (locate (response_archive role unit)) (target e) ∨
               target e = locate (role_response role) ∨
               target e = locate (role_request role))
    (response_plan σ role unit c).
Proof.
  intros Hrole Hu. unfold response_plan. cbv zeta.
  destruct (response_archive_name_ok _ Hrole) as (? & ? & ?).
  apply Forall_app. split.
  - repeat apply Forall_cons_2; cbn [target]; last by apply Forall_nil_2.
    + left. by apply landing_inside.
    + right. left. by apply landing_inside.
    + right. right. by left.
  - destruct (path_exists _ (role_request role)); [|done].
    apply Forall_cons_2; [|apply Forall_nil_2]. by repeat right.
Qed.

Lemma send_request_frame σ role unit o w k :
  run (send_request role unit) σ = (o, w) →
  k ≠ locate (role_dir role) →
  ¬ inside (locate (role_request role)) k →
  ¬ inside (locate (request_archive role unit)) k →
  k ≠ locate plan_request →
  disk w !! k = σ !! k.
Proof.
  intros Hrun Hdir Hdest Harch Hsrc.
  apply send_request_shape in Hrun
    as [Hd [[_ Ht]|(c & Hrole & Hu & _ & _ & _ & _ & Hp & _)]].
  - by rewrite Hd, Ht.
  - rewrite Hd. apply replay_frame.
    eapply Forall_impl;
      [exact (Forall_prefix _ _ _ Hp (request_plan_targets σ _ _ c Hrole Hu))|].
    cbn beta. intros e [He|[He|[He|He]]] Heq; rewrite Heq in He; by auto.
Qed.

Lemma send_response_frame σ role unit o w k :
  run (send_response role unit) σ = (o, w) →
  ¬ inside (locate plan_response) k →
  ¬ inside (locate (response_archive role unit)) k →
  k ≠ locate (role_response role) →
  k ≠ locate (role_request role) →
  disk w !! k = σ !! k.
Proof.
  intros Hrun Hdest Harch Hsrc Hreq.
  apply send_response_shape in Hrun
    as [Hd [[_ Ht]|(c & Hrole & Hu & _ & _ & Hp & _)]].
  - by rewrite Hd, Ht.
  - rewrite Hd. apply replay_frame.
    eapply Forall_impl;
      [exact (Forall_prefix _ _ _ Hp (response_plan_targets σ _ _ c Hrole Hu))|].
    cbn beta. intros e [He|[He|[He|He]]] Heq; rewrite Heq in He; by auto.
Qed.

(** X3. Whatever its outcome, [send_request] changes nothing except,
    possibly, the entry [.{role}] itself (the directory it creates), what
    is at or below [.{role}/request.md], what is at or below the archive
    name, and the staged [.plan/request.md]: every other location, among
    them the requirements file, a response the worker has staged and the
    other workers' directories, holds afterwards what it held before. *)
Theorem send_request_touches_only (σ : fs) (role unit : string)
    (o : outcome bool) (w : world) (k : list string) :
  run (send_request role unit) σ = (o, w) →
  k ≠ locate (role_dir role) →
  ¬ inside (locate (role_request role)) k →
  ¬ inside (locate (request_archive role unit)) k →
  k ≠ locate plan_request →
  disk w !! k = σ !! k.
Proof. apply send_request_frame. Qed.

(** X4. Whatever its outcome, [send_response] changes nothing except,
    possibly, what is at or below [.plan/response.md], what is at or
    below the archive name, and the worker's [response.md] and
    [request.md]: every other location holds afterwards what it held
    before. *)
Theorem send_response_touches_only (σ : fs) (role unit : string)
    (o : outcome bool) (w : world) (k : list string) :
  run (send_response role unit) σ = (o, w) →
  ¬ inside (locate plan_response) k →
  ¬ inside (locate (response_archive role unit)) k →
  k ≠ locate (role_response role) →
  k ≠ locate (role_request role) →
  disk w !! k = σ !! k.
Proof. apply send_response_frame. Qed.

(* ===================================================================== *)
(** * A request that was not sent is still staged                         *)
(* ===================================================================== *)

(** In a run of [send_request] the removal of the staged request, when it
    happens, is the last thing before [return True]. *)
Lemma send_request_unlink_last σ role unit o w :
  run (send_request role unit) σ = (o, w) →
  Unlink (locate plan_request) ∈ trail w → o = Returned true.
Proof.
  unfold run, send_request.
  destruct (bool_decide (role ∈ valid_teams)); cbn [negb];
    [|by intros [= <- <-] ?%elem_of_nil].
  destruct (bad_folder_name unit); [by intros [= <- <-] ?%elem_of_nil|].
  cbv zeta. set (w0 := {| disk := σ; trail := [] |}).
  rewrite bind_run. unfold exists_ at 1.
  destruct (path_exists _ _); cbn [negb];
    [|by intros [= <- <-] ?%elem_of_nil].
  rewrite bind_run. unfold exists_ at 1.
  destruct (path_exists _ _); cbn [negb];
    [|by intros [= <- <-] ?%elem_of_nil].
  rewrite bind_run. unfold exists_ at 1.
  destruct (path_exists _ _); cbn [negb];
    [|by intros [= <- <-] ?%elem_of_nil].
  rewrite bind_run.
  destruct (read_text_cases (project_root // ".plan" // "request.md") w0)
    as [[e ->]|(c & _ & ->)]; [by intros [= <- <-] ?%elem_of_nil|].
  destruct (str_in _ c); cbn [negb]; [|by intros [= <- <-] ?%elem_of_nil].
  rewrite bind_run.
  assert (∀ e' : effect, e' ∈ trail w0 → ∃ k, e' = Mkdir k) as Hw0
    by (by intros e' ?%elem_of_nil).
  destruct (mkdir_exist_ok_cases (project_root // ("." +:+ role)) w0)
    as [[e ->]|Hmk]; [by intros [= <- <-] ?%elem_of_nil|].
  assert (∃ w1, mkdir_exist_ok (project_root // ("." +:+ role)) w0 =
                  (Returned tt, w1) ∧
                ∀ e' : effect, e' ∈ trail w1 → ∃ k, e' = Mkdir k)
    as (w1 & -> & Hw1).
  { destruct Hmk as [[-> _]|(-> & _)]; eexists; (split; [done|]); [done|].
    intros e' He'. cbn in He'. apply list_elem_of_singleton in He'. eauto. }
  rewrite bind_run.
  destruct (copy2_cases (project_root // ".plan" // "request.md")
              (project_root // ("." +:+ role) // "request.md") w1)
    as [[e ->]|(c1 & _ & _ & ->)].
  { intros [= <- <-] [k Hk]%Hw1. discriminate Hk. }
  set (w2 := emit _ w1). rewrite bind_run.
  assert (∀ e' : effect, e' ∈ trail w2 → ∃ k c', e' = Mkdir k ∨ e' = Write k c')
    as Hw2.
  { intros e' He'. cbn in He'. apply elem_of_app in He' as [[k ->]%Hw1|He'];
      [by exists k, c; left|].
    apply list_elem_of_singleton in He' as ->. eexists _, _. by right. }
  destruct (copy2_cases (project_root // ".plan" // "request.md")
              (project_root // ".lifecycle" // unit //
                 (strftime now +:+ "_request_to_" +:+ role +:+ ".md")) w2)
    as [[e ->]|(c2 & _ & _ & ->)].
  { intros [= <- <-] (k & c' & [Hk|Hk])%Hw2; discriminate Hk. }
  set (w3 := emit _ w2). rewrite bind_run.
  destruct (unlink_cases (project_root // ".plan" // "request.md") w3)
    as [[e ->]|(c3 & _ & ->)]; [|by intros [= <- <-]].
  intros [= <- <-] He'. cbn in He'.
  apply elem_of_app in He' as [(k & c' & [Hk|Hk])%Hw2|He']; try discriminate Hk.
  apply list_elem_of_singleton in He'. discriminate He'.
Qed.

Lemma send_request_keeps_staged σ role unit c o w :
  run (send_request role unit) σ = (o, w) →
  o ≠ Returned true →
  file_at σ plan_request c →
  file_at (disk w) plan_request c.
Proof.
  intros Hrun Ho Hc.
  pose proof (keeps_dirs_send_request role unit _ _ _ Hrun) as Hle.
  pose proof (send_request_unlink_last _ _ _ _ _ Hrun) as Hlast.
  apply send_request_shape in Hrun
    as [Hd [[_ Ht]|(c' & Hrole & Hu & _ & _ & _ & _ & Hp & _)]].
  - rewrite Ht in Hd. cbn in Hd. by rewrite Hd.
  - apply (stat_frame σ); [done| |done].
    rewrite !node_at_ne_nil
      by (rewrite locate_plan_request; by destruct root).
    rewrite Hd. apply replay_frame. apply Forall_forall. intros e He.
    pose proof (elem_of_prefix _ _ e He Hp) as Hplan.
    unfold request_plan in Hplan. cbv zeta in Hplan.
    apply elem_of_app in Hplan as [Hplan|Hplan].
    + destruct (node_at σ (locate (role_dir role)));
        [by apply elem_of_nil in Hplan|].
      apply list_elem_of_singleton in Hplan as ->.
      by apply role_dir_ne_plan_request.
    + apply elem_of_cons in Hplan as [->|Hplan];
        [by apply landing_request_ne|].
      apply elem_of_cons in Hplan as [->|Hplan];
        [by apply landing_request_archive_ne|].
      apply list_elem_of_singleton in Hplan as ->.
      destruct Ho. by apply Hlast.
Qed.

(** X5. Unless [send_request] returns [True], the staged request is
    still where and what it was: a [False], and also an exception raised
    after the first copy or after both, leaves [.plan/request.md] in
    place with its text. *)
Theorem unsent_request_stays_staged (σ : fs) (role unit c : string)
    (o : outcome bool) (w : world) :
  run (send_request role unit) σ = (o, w) →
  o ≠ Returned true →
  file_at σ plan_request c →
  file_at (disk w) plan_request c.
Proof. apply send_request_keeps_staged. Qed.

(* ===================================================================== *)
(** * The existence gates                                                 *)
(* ===================================================================== *)

Lemma send_request_nothing_staged σ role unit :
  path_exists σ plan_request = false →
  run (send_request role unit) σ = (Returned false, {| disk := σ; trail := [] |}).
Proof.
  intros Hnone. unfold run, send_request.
  destruct (bool_decide (role ∈ valid_teams)); cbn [negb]; [|done].
  destruct (bad_folder_name unit); [done|].
  cbv zeta. rewrite bind_run. unfold exists_ at 1. cbn [disk].
  change (project_root // ".plan" // "request.md") with plan_request.
  by rewrite Hnone.
Qed.

Lemma send_request_consumes σ role unit w :
  run (send_request role unit) σ = (Returned true, w) →
  path_exists (disk w) plan_request = false.
Proof.
  intros Hrun.
  apply send_request_shape in Hrun
    as [_ [[Ho _]|(c & _ & _ & _ & _ & _ & _ & _ & Hs)]]; [done|].
  by destruct (Hs eq_refl) as (_ & Hgone & _).
Qed.

(** X6. A unit whose directory [.lifecycle/<unit>] does not exist stops
    both operations: each returns [False] and the filesystem is exactly
    as before, whatever else is staged. *)
Theorem missing_unit_directory_rejected (σ : fs) (role unit : string) :
  path_exists σ (lifecycle_dir unit) = false →
  run (send_request role unit) σ = (Returned false, {| disk := σ; trail := [] |}) ∧
  run (send_response role unit) σ = (Returned false, {| disk := σ; trail := [] |}).
Proof.
  intros Hnone. split.
  - unfold run, send_request.
    destruct (bool_decide (role ∈ valid_teams)); cbn [negb]; [|done].
    destruct (bad_folder_name unit); [done|].
    cbv zeta. rewrite bind_run. unfold exists_ at 1. cbn [disk].
    destruct (path_exists σ (project_root // ".plan" // "request.md"));
      cbn [negb]; [|done].
    rewrite bind_run. unfold exists_ at 1. cbn [disk].
    change (project_root // ".lifecycle" // unit) with (lifecycle_dir unit).
    by rewrite Hnone.
  - unfold run, send_response.
    destruct (bool_decide (role ∈ valid_teams)); cbn [negb]; [|done].
    destruct (bad_folder_name unit); [done|].
    cbv zeta. rewrite bind_run. unfold exists_ at 1. cbn [disk].
    destruct (path_exists σ (project_root // ("." +:+ role) // "response.md"));
      cbn [negb]; [|done].
    rewrite bind_run. unfold exists_ at 1. cbn [disk].
    change (project_root // ".lifecycle" // unit) with (lifecycle_dir unit).
    by rewrite Hnone.
Qed.

(* ===================================================================== *)
(** * When [send_request] is bound to succeed                             *)
(* ===================================================================== *)

Lemma send_request_succeeds σ role unit c :
  role ∈ valid_teams → bad_folder_name unit = false →
  file_at σ plan_request c →
  str_in (expected_reference unit) c = true →
  path_exists σ (requirements_file unit) = true →
  (∀ c', node_at σ (locate (role_dir role)) ≠ Some (File c')) →
  not_a_directory σ (role_request role) →
  not_a_directory σ (request_archive role unit) →
  ∃ w, run (send_request role unit) σ = (Returned true, w).
Proof.
  intros Hrole Hu Hc Href Hreq Hrdir Hdest Harch.
  assert (isdir σ (lifecycle_dir unit) = true) as Hunit
    by (by apply (parent_isdir σ _ "requirements.md")).
  assert (isdir σ plan_dir = true) as Hplan.
  { apply (parent_isdir σ _ "request.md"); [done..|].
    by apply (file_at_exists _ _ c). }
  assert (isdir σ project_root = true) as Hroot.
  { apply (parent_isdir σ _ ".plan"); [done..|].
    change (project_root // ".plan") with plan_dir.
    unfold path_exists. apply isdir_true in Hplan. by rewrite Hplan. }
  destruct (dot_role_name _ Hrole) as (Hd1 & Hd2 & Hd3 & _).
  destruct (request_archive_name_ok _ Hrole) as (Hn1 & Hn2 & Hn3).
  unfold run, send_request.
  rewrite (bool_decide_eq_true_2 _ Hrole), Hu. cbn [negb]. cbv zeta.
  change (project_root // ".plan" // "request.md") with plan_request.
  change (project_root // ".lifecycle" // unit) with (lifecycle_dir unit).
  change (lifecycle_dir unit // "requirements.md") with (requirements_file unit).
  change (project_root // ("." +:+ role)) with (role_dir role).
  change (role_dir role // "request.md") with (role_request role).
  change (lifecycle_dir unit // (strftime now +:+ "_request_to_" +:+ role +:+ ".md"))
    with (request_archive role unit).
  change (".lifecycle/" +:+ unit +:+ "/requirements.md")
    with (expected_reference unit).
  set (w0 := {| disk := σ; trail := [] |}).
  rewrite bind_run. unfold exists_ at 1. cbn [disk w0].
  rewrite (file_at_exists _ _ _ Hc). cbn [negb].
  rewrite bind_run. unfold exists_ at 1. cbn [disk w0].
  assert (path_exists σ (lifecycle_dir unit) = true) as ->.
  { apply isdir_true in Hunit. unfold path_exists. by rewrite Hunit. }
  cbn [negb].
  rewrite bind_run. unfold exists_ at 1. cbn [disk w0]. rewrite Hreq. cbn [negb].
  rewrite bind_run, (read_text_file plan_request w0 c) by done.
  rewrite Href. cbn [negb]. rewrite bind_run.
  (* the directory of the role *)
  assert (∃ w1, mkdir_exist_ok (role_dir role) w0 = (Returned tt, w1) ∧
                dirs_le σ (disk w1) ∧
                node_at (disk w1) (locate (role_dir role)) = Some Dir ∧
                ∀ k, k ≠ locate (role_dir role) →
                     node_at (disk w1) k = node_at σ k)
    as (w1 & -> & Hle1 & Hdir1 & Hsame1).
  { destruct (mkdir_exist_ok_cases (role_dir role) w0)
      as [[e He]|[[-> Hn]|(-> & Hn & _)]].
    - exfalso. revert He. unfold mkdir_exist_ok. cbn [disk w0].
      unfold role_dir.
      rewrite (resolve_child σ project_root ("." +:+ role)) by done.
      fold (role_dir role).
      destruct (node_at σ (locate (role_dir role))) as [[c'|]|] eqn:Hn;
        [by destruct (Hrdir c')|done|done].
    - exists w0. repeat split; [apply dirs_le_refl|done].
    - eexists. split; [done|]. cbn [disk emit w0 apply_effect].
      split; [|split].
      + apply (dirs_le_apply σ (Mkdir _)). cbn [target]. cbn [disk w0] in Hn.
        congruence.
      + apply node_at_insert_eq. rewrite locate_role_dir by done.
        by destruct root.
      + intros k Hk. by apply node_at_insert_ne. }
  set (σ1 := disk w1) in *.
  assert (isdir σ1 (role_dir role) = true) as Hrd1.
  { apply isdir_true, stat_Returned. split; [|done].
    apply (resolve_dirs_le σ); [done|].
    unfold role_dir. by apply (resolve_child σ project_root). }
  assert (not_a_directory σ1 (role_request role)) as Hdest1.
  { unfold not_a_directory.
    rewrite Hsame1; [done|]. by apply not_eq_sym, role_request_ne_role_dir. }
  assert (not_a_directory σ1 (request_archive role unit)) as Harch1.
  { unfold not_a_directory.
    rewrite Hsame1; [done|]. by apply not_eq_sym, request_archive_ne_role_dir. }
  assert (stat σ1 plan_request = Returned (File c)) as Hc1.
  { apply (stat_frame σ); [done| |done].
    apply Hsame1. by apply not_eq_sym, role_dir_ne_plan_request. }
  (* first copy *)
  set (dk := locate (role_request role)).
  assert (landing σ1 (role_request role) (basename plan_request) = dk) as Hl1.
  { unfold landing. by rewrite recipient_not_dir. }
  pose proof (landing_request_ne σ1 _ Hrole) as Hdk.
  change "request.md" with (basename plan_request) in Hdk at 1.
  rewrite Hl1 in Hdk.
  rewrite bind_run.
  rewrite (copy2_file plan_request (role_request role) w1 c);
    fold σ1; rewrite ?Hl1; try done; cycle 1.
  { rewrite recipient_not_dir by done.
    by apply (resolve_child σ1 (role_dir role)). }
  set (w2 := emit (Write dk c) w1).
  assert (dirs_le σ1 (disk w2)) as Hle2
    by (by apply (dirs_le_apply σ1 (Write dk c))).
  assert (stat (disk w2) plan_request = Returned (File c)) as Hc2.
  { apply (stat_frame σ1); [done| |done]. cbn. by apply node_at_insert_ne. }
  (* second copy *)
  assert (not_a_directory (disk w2) (request_archive role unit)) as Harch2
    by (by apply not_a_directory_insert_file).
  set (ak := locate (request_archive role unit)).
  assert (landing (disk w2) (request_archive role unit)
            (basename plan_request) = ak) as Hl2.
  { unfold landing. by rewrite recipient_not_dir. }
  pose proof (landing_request_archive_ne (disk w2) _ _ Hrole Hu) as Hak.
  change "request.md" with (basename plan_request) in Hak at 1.
  rewrite Hl2 in Hak.
  rewrite bind_run.
  rewrite (copy2_file plan_request (request_archive role unit) w2 c);
    rewrite ?Hl2; try done; cycle 1.
  { rewrite recipient_not_dir by done.
    apply (resolve_dirs_le σ); [by eapply dirs_le_trans; eauto|].
    by apply (resolve_child σ (lifecycle_dir unit)). }
  set (w3 := emit (Write ak c) w2).
  assert (stat (disk w3) plan_request = Returned (File c)) as Hc3.
  { apply (stat_frame (disk w2));
      [by apply (dirs_le_apply (disk w2) (Write ak c))| |done].
    cbn. by apply node_at_insert_ne. }
  rewrite bind_run, (unlink_file _ _ _ Hc3). by eexists.
Qed.

(** X8. The checks of [send_request] are all that stands between a
    request and its delivery: with a valid role and unit name, a staged
    request that is a regular file and mentions the requirements file,
    the requirements file present, [.{role}] not a regular file, and no
    directory standing at [.{role}/request.md] or at the archive name,
    [send_request] returns [True]; it creates [.{role}] when it has to. *)
Theorem send_request_guaranteed (σ : fs) (role unit c : string) :
  role ∈ valid_teams → bad_folder_name unit = false →
  file_at σ plan_request c →
  str_in (expected_reference unit) c = true →
  path_exists σ (requirements_file unit) = true →
  (∀ c', node_at σ (locate (role_dir role)) ≠ Some (File c')) →
  not_a_directory σ (role_request role) →
  not_a_directory σ (request_archive role unit) →
  ∃ w, run (send_request role unit) σ = (Returned true, w) ∧
       isdir (disk w) (role_dir role) = true ∧
       file_at (disk w) (role_request role) c.
Proof.
  intros Hrole Hu Hc Href Hreq Hrdir Hdest Harch.
  destruct (send_request_succeeds σ role unit c) as [w Hrun]; try done.
  exists w. split; [done|].
  pose proof Hrun as Hshape.
  apply send_request_shape in Hshape
    as [_ [[Ho _]|(c' & _ & _ & Hc' & _ & _ & _ & _ & Hs)]]; [done|].
  destruct (Hs eq_refl) as (_ & _ & Hto_role & _). clear Hs.
  cbv zeta in Hto_role.
  assert (c' = c) as -> by (unfold file_at in *; congruence).
  rewrite recipient_not_dir in Hto_role.
  - split; [|done].
    apply (parent_isdir _ (role_dir role) "request.md"); [done..|].
    by apply (file_at_exists _ _ c).
  - destruct (node_at σ (locate (role_dir role))); [done|].
    apply (not_a_directory_mkdir σ); [|done].
    by apply role_request_ne_role_dir.
Qed.

(* ===================================================================== *)
(** * What a transfer leaves alone, by name                               *)
(* ===================================================================== *)

(** The frame of [send_request], with the conditions on [k] only needed
    for arguments that pass validation. *)
Lemma send_request_frame_valid σ role unit o w k :
  run (send_request role unit) σ = (o, w) →
  (role ∈ valid_teams → bad_folder_name unit = false →
   k ≠ locate (role_dir role) ∧
   ¬ inside (locate (role_request role)) k ∧
   ¬ inside (locate (request_archive role unit)) k ∧
   k ≠ locate plan_request) →
  disk w !! k = σ !! k.
Proof.
  intros Hrun Hk.
  pose proof Hrun as Hshape.
  apply send_request_shape in Hshape
    as [Hd [[_ Ht]|(c & Hrole & Hu & _)]].
  - by rewrite Hd, Ht.
  - destruct (Hk Hrole Hu) as (? & ? & ? & ?).
    by apply (send_request_frame σ role unit o).
Qed.

Lemma send_response_frame_valid σ role unit o w k :
  run (send_response role unit) σ = (o, w) →
  (role ∈ valid_teams → bad_folder_name unit = false →
   ¬ inside (locate plan_response) k ∧
   ¬ inside (locate (response_archive role unit)) k ∧
   k ≠ locate (role_response role) ∧
   k ≠ locate (role_request role)) →
  disk w !! k = σ !! k.
Proof.
  intros Hrun Hk.
  pose proof Hrun as Hshape.
  apply send_response_shape in Hshape
    as [Hd [[_ Ht]|(c & Hrole & Hu & _)]].
  - by rewrite Hd, Ht.
  - destruct (Hk Hrole Hu) as (? & ? & ? & ?).
    by apply (send_response_frame σ role unit o).
Qed.

(** An entry of a unit's directory whose name starts with a digit is
    neither a dotted directory of the project nor anything below one. *)
Lemma digit_entry_not_below unit n rest d x :
  String "." d ≠ ".lifecycle" →
  ¬ inside (root ++ [String "." d; x])
      (root ++ unit_trail unit ++ [String (digit n) rest]).
Proof.
  intros Hd [k' H]. below_root H.
  destruct (unit_trail_cases unit) as [Ht|[Ht|Ht]]; rewrite Ht in H;
    cbn [app] in H; injection H; intros; try congruence; digit_clash.
Qed.

Lemma digit_entry_ne_dir unit n rest d :
  String "." d ≠ ".lifecycle" →
  root ++ unit_trail unit ++ [String (digit n) rest] ≠ root ++ [String "." d].
Proof.
  intros Hd H. below_root H.
  destruct (unit_trail_cases unit) as [Ht|[Ht|Ht]]; rewrite Ht in H;
    cbn [app] in H; try discriminate H; injection H; intros;
    try congruence; digit_clash.
Qed.

(** Two entries of one directory are apart as soon as their names
    differ. *)
Lemma sibling_not_below (d : list string) name name' :
  name ≠ name' → ¬ inside (d ++ [name]) (d ++ [name']).
Proof.
  intros Hne [k' H]. rewrite <- app_assoc in H.
  apply app_inv_head in H. cbn in H. congruence.
Qed.

(** [send_request] leaves alone every entry of the unit's directory
    whose name starts with a digit and is not the archive name it
    writes: the archive copies of other transfers. *)
Lemma send_request_leaves_unit_entry σ role unit o w n rest :
  run (send_request role unit) σ = (o, w) →
  String (digit n) rest ≠ request_archive_name role →
  disk w !! (locate (lifecycle_dir unit) ++ [String (digit n) rest]) =
  σ !! (locate (lifecycle_dir unit) ++ [String (digit n) rest]).
Proof.
  intros Hrun Hname. apply (send_request_frame_valid σ role unit o); [done|].
  intros Hrole Hu.
  destruct (dot_role_name _ Hrole) as (_ & _ & _ & _ & Hl).
  rewrite locate_lifecycle_dir, locate_role_dir, locate_role_request,
    locate_request_archive, locate_plan_request by done.
  rewrite <- !app_assoc.
  repeat split.
  - by apply digit_entry_ne_dir.
  - by apply digit_entry_not_below.
  - rewrite !app_assoc. by apply sibling_not_below.
  - intros H. apply (digit_entry_not_below unit n rest "plan" "request.md");
      [done|]. rewrite H. unfold inside. reflexivity.
Qed.

Lemma send_response_leaves_unit_entry σ role unit o w n rest :
  run (send_response role unit) σ = (o, w) →
  String (digit n) rest ≠ response_archive_name role →
  disk w !! (locate (lifecycle_dir unit) ++ [String (digit n) rest]) =
  σ !! (locate (lifecycle_dir unit) ++ [String (digit n) rest]).
Proof.
  intros Hrun Hname. apply (send_response_frame_valid σ role unit o); [done|].
  intros Hrole Hu.
  destruct (dot_role_name _ Hrole) as (_ & _ & _ & _ & Hl).
  rewrite locate_lifecycle_dir, locate_role_response, locate_role_request,
    locate_response_archive, locate_plan_response by done.
  rewrite <- !app_assoc.
  repeat split.
  - by apply digit_entry_not_below.
  - rewrite !app_assoc. by apply sibling_not_below.
  - intros H. apply (digit_entry_not_below unit n rest role "response.md");
      [done|]. rewrite H. unfold inside. reflexivity.
  - intros H. apply (digit_entry_not_below unit n rest role "request.md");
      [done|]. rewrite H. unfold inside. reflexivity.
Qed.

(** A dotted directory of the project other than [.lifecycle], and
    what is below it, is apart from every digit-named entry of a unit's
    directory. *)
Lemma dotted_not_below_digit_entry unit n rest d names :
  String "." d ≠ ".lifecycle" →
  ¬ inside (root ++ unit_trail unit ++ [String (digit n) rest])
      (root ++ String "." d :: names).
Proof.
  intros Hd [k' H]. below_root H.
  destruct (unit_trail_cases unit) as [Ht|[Ht|Ht]]; rewrite Ht in H;
    cbn [app] in H; injection H; intros; try congruence; digit_clash.
Qed.

(** [send_request] leaves alone the planner's [response.md] and the
    worker's. *)
Lemma send_request_leaves_responses σ role unit o w :
  run (send_request role unit) σ = (o, w) →
  disk w !! locate plan_response = σ !! locate plan_response ∧
  disk w !! locate (role_response role) = σ !! locate (role_response role).
Proof.
  intros Hrun.
  split; apply (send_request_frame_valid σ role unit o); try done;
    intros Hrole Hu;
    destruct (dot_role_name _ Hrole) as (_ & _ & _ & Hp & Hl);
    destruct (request_archive_name_head role) as [r Hhead];
    rewrite ?locate_role_dir, ?locate_role_request, ?locate_role_response,
      ?locate_request_archive, ?locate_plan_request, ?locate_plan_response
      by done;
    rewrite Hhead.
  - repeat split.
    + intros H. below_root H. discriminate H.
    + intros [k' H]. below_root H. cbn [app] in H. congruence.
    + by apply dotted_not_below_digit_entry.
    + intros H. below_root H. discriminate H.
  - repeat split.
    + intros H. below_root H. discriminate H.
    + intros [k' H]. below_root H. discriminate H.
    + by apply dotted_not_below_digit_entry.
    + intros H. below_root H. congruence.
Qed.

(* ===================================================================== *)
(** * What a successful request leaves behind                             *)
(* ===================================================================== *)

Lemma send_request_result σ role unit w :
  not_a_directory σ (role_request role) →
  not_a_directory σ (request_archive role unit) →
  run (send_request role unit) σ = (Returned true, w) →
  ∃ c, file_at σ plan_request c ∧
       path_exists (disk w) plan_request = false ∧
       file_at (disk w) (role_request role) c ∧
       file_at (disk w) (request_archive role unit) c.
Proof.
  intros Hdest Harch Hrun.
  apply send_request_shape in Hrun
    as [_ [[Ho _]|(c & Hrole & Hu & Hc & _ & _ & _ & _ & Hs)]]; [done|].
  destruct (Hs eq_refl) as (_ & Hgone & Hto_role & Hto_arch). clear Hs.
  cbv zeta in Hto_role, Hto_arch.
  set (σ1 := replay _ σ) in *.
  assert (not_a_directory σ1 (role_request role) ∧
          not_a_directory σ1 (request_archive role unit)) as [Hdest1 Harch1].
  { subst σ1. destruct (node_at σ (locate (role_dir role))); [done|].
    cbn. split; apply not_a_directory_mkdir; try done.
    - by apply role_request_ne_role_dir.
    - by apply request_archive_ne_role_dir. }
  rewrite (recipient_not_dir σ1 (role_request role)) in * by done.
  rewrite (recipient_not_dir _ (request_archive role unit)) in Hto_arch
    by (by apply not_a_directory_insert_file).
  exists c. done.
Qed.

Lemma send_request_success σ role unit w :
  run (send_request role unit) σ = (Returned true, w) →
  role ∈ valid_teams ∧ bad_folder_name unit = false ∧
  isdir σ plan_dir = true ∧ isdir σ (lifecycle_dir unit) = true ∧
  dirs_le σ (disk w).
Proof.
  intros Hrun.
  pose proof (keeps_dirs_send_request role unit _ _ _ Hrun) as Hle.
  apply send_request_shape in Hrun
    as [_ [[Ho _]|(c & Hrole & Hu & Hc & _ & Hreq & _)]]; [done|].
  repeat split; try done.
  - apply (parent_isdir σ _ "request.md"); [done..|].
    by apply (file_at_exists _ _ c).
  - by apply (parent_isdir σ _ "requirements.md").
Qed.

Lemma role_response_ne_plan_response role :
  role ∈ valid_teams →
  locate (role_response role) ≠ locate plan_response.
Proof.
  intros Hrole. rewrite locate_role_response, locate_plan_response by done.
  destruct (dot_role_name _ Hrole) as (_ & _ & _ & Hp & _).
  intros H. below_root H. congruence.
Qed.

Lemma role_file_ne_unit_entry role x unit n rest :
  role ∈ valid_teams → bad_folder_name unit = false →
  root ++ ["." +:+ role; x] ≠
  locate (lifecycle_dir unit) ++ [String (digit n) rest].
Proof.
  intros Hrole Hu H. rewrite locate_lifecycle_dir in H by done.
  destruct (dot_role_name _ Hrole) as (_ & _ & _ & _ & Hl).
  apply (digit_entry_not_below unit n rest role x); [done|].
  rewrite <- app_assoc in H. rewrite <- H. unfold inside. reflexivity.
Qed.

Lemma workspace_key_ne_nil (names : list string) : names ≠ [] → root ++ names ≠ [].
Proof. intros Hn H. by apply app_eq_nil in H as [_ ?]. Qed.

(* ===================================================================== *)
(** * The scripts' exit status                                            *)
(* ===================================================================== *)

(** X10. The exit status of [send_request.py]. Called with anything but
    two arguments it exits with 1 and touches nothing. Otherwise it
    exits with 0 exactly when [send_request], applied to the two
    arguments, returned [True]; and whenever it exits with another
    status, after a [False] or after an exception, the staged request is
    still in place with its text. *)
Theorem send_request_main_status (argv : list string) (σ : fs)
    (o : outcome nat) (w : world) :
  run (send_request_main argv) σ = (o, w) →
  (length argv ≠ 3 → o = Returned 1 ∧ w = {| disk := σ; trail := [] |}) ∧
  (exit_status o = 0 ↔
   length argv = 3 ∧
   run (send_request (nth 1 argv "") (nth 2 argv "")) σ = (Returned true, w)) ∧
  (exit_status o ≠ 0 →
   ∀ c, file_at σ plan_request c → file_at (disk w) plan_request c).
Proof.
  unfold run, send_request_main.
  destruct (length argv =? 3) eqn:Hlen; cbn [negb].
  - apply Nat.eqb_eq in Hlen. cbv zeta. rewrite bind_run.
    destruct (send_request (nth 1 argv "") (nth 2 argv "")
                {| disk := σ; trail := [] |}) as [[b|e] w'] eqn:Hrun.
    + intros [= <- <-]. split; [done|]. split.
      * destruct b; cbn; [done|]. split; [done|]. by intros [_ [=]].
      * destruct b; cbn; [done|]. intros _ c Hc.
        by apply (send_request_keeps_staged σ _ _ c _ _ Hrun).
    + intros [= <- <-]. split; [done|]. split.
      * cbn. split; [done|]. by intros [_ [=]].
      * intros _ c Hc.
        by apply (send_request_keeps_staged σ _ _ c _ _ Hrun).
  - apply Nat.eqb_neq in Hlen. intros [= <- <-]. split; [done|]. split.
    + cbn. split; [done|]. by intros [? _].
    + done.
Qed.

(** X11. The exit status of [send_response.py]. Called with anything but
    two arguments it exits with 1 and touches nothing. Otherwise it
    exits with 0 exactly when [send_response], applied to the two
    arguments, returned [True], and then the worker's directory holds
    neither [response.md] nor [request.md]. *)
Theorem send_response_main_status (argv : list string) (σ : fs)
    (o : outcome nat) (w : world) :
  run (send_response_main argv) σ = (o, w) →
  (length argv ≠ 3 → o = Returned 1 ∧ w = {| disk := σ; trail := [] |}) ∧
  (exit_status o = 0 ↔
   length argv = 3 ∧
   run (send_response (nth 1 argv "") (nth 2 argv "")) σ = (Returned true, w)) ∧
  (exit_status o = 0 →
   path_exists (disk w) (role_response (nth 1 argv "")) = false ∧
   path_exists (disk w) (role_request (nth 1 argv "")) = false).
Proof.
  unfold run, send_response_main.
  destruct (length argv =? 3) eqn:Hlen; cbn [negb].
  - apply Nat.eqb_eq in Hlen. cbv zeta. rewrite bind_run.
    destruct (send_response (nth 1 argv "") (nth 2 argv "")
                {| disk := σ; trail := [] |}) as [[b|e] w'] eqn:Hrun.
    + intros [= <- <-]. split; [done|]. split.
      * destruct b; cbn; [done|]. split; [done|]. by intros [_ [=]].
      * destruct b; cbn; [|done]. intros _.
        apply send_response_shape in Hrun
          as [_ [[Ho _]|(c & _ & _ & _ & _ & _ & Hs)]]; [done|].
        by destruct (Hs eq_refl) as (_ & ? & ? & _).
    + intros [= <- <-]. split; [done|]. split.
      * cbn. split; [done|]. by intros [_ [=]].
      * done.
  - apply Nat.eqb_neq in Hlen. intros [= <- <-]. split; [done|]. split.
    + cbn. split; [done|]. by intros [? _].
    + done.
Qed.

(* ===================================================================== *)
(** * Exceptions the transfers let through                                *)
(* ===================================================================== *)

(** X12. When a regular file stands where the worker's directory
    [.{role}] goes, a request that passes every check is not sent:
    [dest_dir.mkdir(exist_ok=True)] raises [FileExistsError], which
    [send_request] does not catch, and nothing has been changed. *)
Theorem worker_directory_is_a_file (σ : fs) (role unit c c' : string) :
  role ∈ valid_teams → bad_folder_name unit = false →
  file_at σ plan_request c →
  str_in (expected_reference unit) c = true →
  path_exists σ (requirements_file unit) = true →
  node_at σ (locate (role_dir role)) = Some (File c') →
  run (send_request role unit) σ =
    (Raised FileExistsError, {| disk := σ; trail := [] |}).
Proof.
  intros Hrole Hu Hc Href Hreq Hfile.
  assert (isdir σ (lifecycle_dir unit) = true) as Hunit
    by (by apply (parent_isdir σ _ "requirements.md")).
  assert (isdir σ plan_dir = true) as Hplan.
  { apply (parent_isdir σ _ "request.md"); [done..|].
    by apply (file_at_exists _ _ c). }
  assert (isdir σ project_root = true) as Hroot.
  { apply (parent_isdir σ _ ".plan"); [done..|].
    change (project_root // ".plan") with plan_dir.
    unfold path_exists. apply isdir_true in Hplan. by rewrite Hplan. }
  destruct (dot_role_name _ Hrole) as (Hd1 & Hd2 & Hd3 & _).
  unfold run, send_request.
  rewrite (bool_decide_eq_true_2 _ Hrole), Hu. cbn [negb]. cbv zeta.
  change (project_root // ".plan" // "request.md") with plan_request.
  change (project_root // ".lifecycle" // unit) with (lifecycle_dir unit).
  change (lifecycle_dir unit // "requirements.md") with (requirements_file unit).
  change (project_root // ("." +:+ role)) with (role_dir role).
  change (".lifecycle/" +:+ unit +:+ "/requirements.md")
    with (expected_reference unit).
  set (w0 := {| disk := σ; trail := [] |}).
  rewrite bind_run. unfold exists_ at 1. cbn [disk w0].
  rewrite (file_at_exists _ _ _ Hc). cbn [negb].
  rewrite bind_run. unfold exists_ at 1. cbn [disk w0].
  assert (path_exists σ (lifecycle_dir unit) = true) as ->.
  { apply isdir_true in Hunit. unfold path_exists. by rewrite Hunit. }
  cbn [negb].
  rewrite bind_run. unfold exists_ at 1. cbn [disk w0]. rewrite Hreq. cbn [negb].
  rewrite bind_run, (read_text_file plan_request w0 c) by done.
  rewrite Href. cbn [negb]. rewrite bind_run.
  unfold mkdir_exist_ok. cbn [disk w0]. unfold role_dir.
  rewrite (resolve_child σ project_root ("." +:+ role)) by done.
  fold (role_dir role). by rewrite Hfile.
Qed.

(** X13. [send_response] does not create the planner's directory. With a
    valid role and unit name, a staged response and the unit's directory
    present, but no [.plan] in the project root, the first copy raises
    [FileNotFoundError], which [send_response] does not catch; nothing
    has been changed and the response is still staged. *)
Theorem missing_plan_directory_raises (σ : fs) (role unit c : string) :
  role ∈ valid_teams → bad_folder_name unit = false →
  file_at σ (role_response role) c →
  path_exists σ (lifecycle_dir unit) = true →
  node_at σ (locate plan_dir) = None →
  run (send_response role unit) σ =
    (Raised FileNotFoundError, {| disk := σ; trail := [] |}).
Proof.
  intros Hrole Hu Hc Hunit Hnone.
  destruct (dot_role_name _ Hrole) as (Hd1 & Hd2 & Hd3 & _).
  assert (isdir σ (role_dir role) = true) as Hrd.
  { apply (parent_isdir σ _ "response.md"); [done..|].
    by apply (file_at_exists _ _ c). }
  assert (isdir σ project_root = true) as Hroot.
  { apply (parent_isdir σ _ ("." +:+ role)); [done..|].
    change (project_root // ("." +:+ role)) with (role_dir role).
    unfold path_exists. apply isdir_true in Hrd. by rewrite Hrd. }
  assert (resolve σ plan_response = Raised FileNotFoundError) as Hres.
  { unfold plan_response.
    rewrite (resolve_truediv σ plan_dir "response.md") by done.
    unfold plan_dir at 1.
    rewrite (resolve_child σ project_root ".plan") by done.
    fold plan_dir. by rewrite Hnone. }
  assert (isdir σ plan_response = false) as Hnd.
  { unfold isdir, stat. by rewrite Hres. }
  unfold run, send_response.
  rewrite (bool_decide_eq_true_2 _ Hrole), Hu. cbn [negb]. cbv zeta.
  change (project_root // ("." +:+ role)) with (role_dir role).
  change (role_dir role // "response.md") with (role_response role).
  change (project_root // ".plan" // "response.md") with plan_response.
  change (project_root // ".lifecycle" // unit) with (lifecycle_dir unit).
  set (w0 := {| disk := σ; trail := [] |}).
  rewrite bind_run. unfold exists_ at 1. cbn [disk w0].
  rewrite (file_at_exists _ _ _ Hc). cbn [negb].
  rewrite bind_run. unfold exists_ at 1. cbn [disk w0].
  rewrite Hunit. cbn [negb].
  rewrite bind_run. unfold copy2 at 1. cbv zeta. cbn [disk w0].
  unfold recipient. rewrite Hnd.
  unfold samefile. rewrite Hres.
  destruct (resolve σ (role_response role)); rewrite bind_run,
    (read_text_file (role_response role) w0 c) by done;
    unfold write_bytes; cbn [disk w0]; by rewrite Hres.
Qed.

(** X14. [send_response] is not all-or-nothing. With a directory standing
    at [.{role}/request.md], and everything else as a successful run
    needs it, the run delivers the response to [.plan/response.md],
    archives it and removes the staged [response.md]; only then does the
    removal of [request.md] raise, and the exception is not caught. The
    caller sees a failure although the response has been delivered. *)
Theorem response_delivered_before_failure (σ : fs) (role unit c : string) :
  role ∈ valid_teams → bad_folder_name unit = false →
  file_at σ (role_response role) c →
  isdir σ (lifecycle_dir unit) = true →
  isdir σ plan_dir = true →
  not_a_directory σ plan_response →
  not_a_directory σ (response_archive role unit) →
  node_at σ (locate (role_request role)) = Some Dir →
  ∃ e w, run (send_response role unit) σ = (Raised e, w) ∧
         file_at (disk w) plan_response c ∧
         file_at (disk w) (response_archive role unit) c ∧
         path_exists (disk w) (role_response role) = false.
Proof.
  intros Hrole Hu Hc Hunit Hplan Hdest Harch Hreq.
  unfold run, send_response.
  rewrite (bool_decide_eq_true_2 _ Hrole), Hu. cbn [negb]. cbv zeta.
  change (project_root // ("." +:+ role)) with (role_dir role).
  change (role_dir role // "response.md") with (role_response role).
  change (role_dir role // "request.md") with (role_request role).
  change (project_root // ".plan" // "response.md") with plan_response.
  change (project_root // ".lifecycle" // unit) with (lifecycle_dir unit).
  change (lifecycle_dir unit // (strftime now +:+ "_response_from_" +:+ role +:+ ".md"))
    with (response_archive role unit).
  set (w0 := {| disk := σ; trail := [] |}).
  rewrite bind_run. unfold exists_ at 1. cbn [disk w0].
  rewrite (file_at_exists _ _ _ Hc). cbn [negb].
  rewrite bind_run. unfold exists_ at 1. cbn [disk w0].
  assert (path_exists σ (lifecycle_dir unit) = true) as ->.
  { apply isdir_true in Hunit. unfold path_exists. by rewrite Hunit. }
  cbn [negb].
  destruct (response_archive_name_ok _ Hrole) as (Hn1 & Hn2 & Hn3).
  destruct (dot_role_name _ Hrole) as (Hd1 & Hd2 & Hd3 & _).
  assert (isdir σ (role_dir role) = true) as Hrd.
  { apply (parent_isdir σ _ "response.md"); [done..|].
    by apply (file_at_exists _ _ c). }
  (* first copy *)
  set (dk := locate plan_response).
  assert (landing σ plan_response (basename (role_response role)) = dk) as Hl1.
  { unfold landing. by rewrite recipient_not_dir. }
  rewrite bind_run.
  rewrite (copy2_file (role_response role) plan_response w0 c); cbn [disk w0];
    rewrite ?Hl1; try done; cycle 1.
  { rewrite recipient_not_dir by done. by apply (resolve_child σ plan_dir). }
  { intros Heq. symmetry in Heq. revert Heq. subst dk.
    pose proof (landing_plan_response_ne σ _ Hrole) as Hne.
    unfold landing in Hne. by rewrite recipient_not_dir in Hne. }
  set (w1 := emit (Write dk c) w0).
  assert (dirs_le σ (disk w1)) as Hle1
    by (by apply (dirs_le_apply σ (Write dk c))).
  pose proof (landing_plan_response_ne σ _ Hrole) as Hdk.
  unfold landing in Hdk. rewrite recipient_not_dir in Hdk by done. fold dk in Hdk.
  assert (stat (disk w1) (role_response role) = Returned (File c)) as Hc1.
  { apply (stat_frame σ); [done| |done]. cbn. by apply node_at_insert_ne. }
  (* second copy *)
  assert (not_a_directory (disk w1) (response_archive role unit)) as Harch1
    by (by apply not_a_directory_insert_file).
  set (ak := locate (response_archive role unit)).
  assert (landing (disk w1) (response_archive role unit)
            (basename (role_response role)) = ak) as Hl2.
  { unfold landing. by rewrite recipient_not_dir. }
  pose proof (landing_response_archive_ne (disk w1) _ _ Hrole Hu) as Hak.
  rewrite <- (basename_role_response _ Hrole), Hl2 in Hak.
  rewrite bind_run.
  rewrite (copy2_file (role_response role) (response_archive role unit) w1 c);
    rewrite ?Hl2; try done; cycle 1.
  { rewrite recipient_not_dir by done.
    apply (resolve_dirs_le σ); [done|].
    by apply (resolve_child σ (lifecycle_dir unit)). }
  set (w2 := emit (Write ak c) w1).
  assert (dirs_le (disk w1) (disk w2)) as Hle2
    by (by apply (dirs_le_apply (disk w1) (Write ak c))).
  assert (stat (disk w2) (role_response role) = Returned (File c)) as Hc2.
  { apply (stat_frame (disk w1)); [done| |done]. cbn. by apply node_at_insert_ne. }
  rewrite bind_run, (unlink_file _ _ _ Hc2).
  set (rk := locate (role_response role)) in *.
  set (w3 := emit (Unlink rk) w2).
  assert (dirs_le (disk w2) (disk w3)) as Hle3.
  { apply (dirs_le_apply (disk w2) (Unlink rk)). cbn [target].
    apply stat_Returned in Hc2 as [_ Hn]. fold rk in Hn. by rewrite Hn. }
  assert (dirs_le σ (disk w3)) as Hle
    by (eapply dirs_le_trans; [|exact Hle3]; by eapply dirs_le_trans).
  (* the request that cannot be removed *)
  assert (stat (disk w3) (role_request role) = Returned Dir) as Hstale.
  { apply stat_Returned. split.
    - apply (resolve_dirs_le σ); [done|].
      by apply (resolve_child σ (role_dir role)).
    - by apply Hle. }
  rewrite bind_run. unfold exists_ at 1. rewrite bind_run.
  unfold path_exists. rewrite Hstale.
  unfold unlink.
  apply stat_Returned in Hstale as [-> ->].
  eexists _, _. split; [reflexivity|].
  assert (rk ≠ []) as Hrk.
  { subst rk. rewrite locate_role_response by done.
    by apply workspace_key_ne_nil. }
  assert (dk ≠ []) as Hdkn.
  { subst dk. rewrite locate_plan_response. by apply workspace_key_ne_nil. }
  assert (ak ≠ dk) as Hakdk.
  { subst ak dk. rewrite locate_response_archive, locate_plan_response by done.
    destruct (response_archive_name_head role) as [r ->].
    intros H.
    apply (dotted_not_below_digit_entry unit (year now / 1000) r "plan"
             ["response.md"]); [done|].
    rewrite H. unfold inside. reflexivity. }
  assert (ak ≠ []) as Hakn.
  { subst ak. rewrite locate_response_archive by done.
    apply workspace_key_ne_nil. by destruct (unit_trail unit). }
  split; [|split].
  - apply stat_Returned. split.
    + apply (resolve_dirs_le σ); [done|].
      by apply (resolve_child σ plan_dir).
    + cbn [disk emit w3 w2 w1 w0 apply_effect]. fold dk.
      rewrite node_at_delete_ne by done.
      rewrite node_at_insert_ne by done.
      by apply node_at_insert_eq.
  - apply stat_Returned. split.
    + apply (resolve_dirs_le σ); [done|].
      by apply (resolve_child σ (lifecycle_dir unit)).
    + cbn [disk emit w3 w2 w1 w0 apply_effect]. fold ak.
      rewrite node_at_delete_ne by done.
      by apply node_at_insert_eq.
  - apply path_exists_absent. fold rk.
    cbn [disk emit w3 apply_effect]. by apply node_at_delete_eq.
Qed.

(* ===================================================================== *)
(** * The unit named [..]                                                 *)
(* ===================================================================== *)

(** X15. In this link-free filesystem [.lifecycle/..] is the project
    root, and the check on the unit name lets [..] through. A successful
    [send_request] for the unit [..] has therefore found its
    requirements artifact at [requirements.md] in the project root, and
    has left its archive copy in the project root, not below
    [.lifecycle]: as the file [<timestamp>_request_to_{role}.md] there,
    or, when a directory of that name stands there, as [request.md]
    inside that directory. *)
Theorem parent_unit_archives_in_project_root (σ : fs) (role : string)
    (w : world) :
  run (send_request role "..") σ = (Returned true, w) →
  is_Some (σ !! (root ++ ["requirements.md"])) ∧
  ∃ c, file_at σ plan_request c ∧
       (disk w !! (root ++ [request_archive_name role]) = Some (File c) ∨
        (disk w !! (root ++ [request_archive_name role]) = Some Dir ∧
         disk w !! (root ++ [request_archive_name role; "request.md"])
           = Some (File c))).
Proof.
  intros Hrun.
  destruct (send_request_success _ _ _ _ Hrun) as (Hrole & Hu & _).
  destruct (request_archive_name_ok _ Hrole) as (Hn1 & Hn2 & Hn3).
  assert (locate (request_archive role "..") = root ++ [request_archive_name role])
    as Hloc by (by rewrite locate_request_archive).
  assert (∀ names, names ≠ [] → root ++ names ≠ []) as Hne
    by (intros names ? H; by apply app_eq_nil in H as [_ ?]).
  apply send_request_shape in Hrun
    as [_ [[Ho _]|(c & _ & _ & Hc & _ & Hreq & _ & _ & Hs)]]; [done|].
  destruct (Hs eq_refl) as (_ & _ & _ & Hto_arch). clear Hs.
  cbv zeta in Hto_arch.
  split.
  - apply path_exists_true in Hreq as [_ Hn].
    unfold requirements_file in Hn.
    rewrite locate_child, locate_lifecycle_dir in Hn by done.
    change (unit_trail "..") with (@nil string) in Hn.
    rewrite app_nil_r in Hn.
    rewrite node_at_ne_nil in Hn; [done|]. by apply Hne.
  - exists c. split; [done|].
    unfold recipient in Hto_arch.
    destruct (isdir _ (request_archive role "..")).
    + right.
      assert (isdir (disk w) (request_archive role "..") = true) as Hd.
      { apply (parent_isdir _ _ "request.md"); [done..|].
        by apply (file_at_exists _ _ c). }
      apply isdir_node in Hd. rewrite Hloc in Hd.
      apply stat_Returned in Hto_arch as [_ Hn].
      rewrite locate_child, Hloc, <- app_assoc in Hn by done.
      rewrite node_at_ne_nil in Hd by (by apply Hne).
      rewrite node_at_ne_nil in Hn by (by apply Hne).
      done.
    + left. apply stat_Returned in Hto_arch as [_ Hn].
      rewrite Hloc in Hn.
      rewrite node_at_ne_nil in Hn by (by apply Hne). done.
Qed.

(* ===================================================================== *)
(** * The archive is kept                                                 *)
(* ===================================================================== *)








End Protocol.

(* ===================================================================== *)
(** * Retrying a delivered response                                       *)
(* ===================================================================== *)

(** C9. Running [send_response] again after a successful run, with no
    new response staged and whatever the clock then reads, returns
    [False] before any mutation: the filesystem, and with it the
    delivered [.plan/response.md] and every archive entry, is exactly as
    the first run left it. *)
Theorem C9_rerun_fails_cleanly (root : list string) (now later : datetime)
    (σ : fs) (role unit : string) (w : world) :
  run (send_response root now role unit) σ = (Returned true, w) →
  run (send_response root later role unit) (disk w) =
    (Returned false, {| disk := disk w; trail := [] |}).
Proof.
  intros Hrun. apply send_response_nothing_staged.
  by apply (send_response_consumes root now σ role unit).
Qed.

(** X7. Once [send_request] has succeeded, every further
    [send_request], for any role and unit and whatever the clock reads,
    returns [False] with the filesystem unchanged until a new request is
    staged: the delivered request and its archive copy cannot be sent or
    overwritten twice by a retry. *)
Theorem sent_request_cannot_be_resent (root : list string)
    (now later : datetime) (σ : fs) (role unit role' unit' : string)
    (w : world) :
  run (send_request root now role unit) σ = (Returned true, w) →
  run (send_request root later role' unit') (disk w) =
    (Returned false, {| disk := disk w; trail := [] |}).
Proof.
  intros Hrun. apply send_request_nothing_staged.
  by apply (send_request_consumes root now σ role unit).
Qed.

(* ===================================================================== *)
(** * A request and its response                                          *)
(* ===================================================================== *)

Section RoundTrip.

Variable root : list string.
Variables now later : datetime.

(** No request is archived under the name of a response. *)
Lemma archive_names_differ (t t' : datetime) (role role' : string) :
  request_archive_name t role ≠ response_archive_name t' role'.
Proof.
  unfold request_archive_name, response_archive_name, strftime, pad4, pad2.
  cbn [String.append]. intros H. discriminate H.
Qed.

Lemma locate_request_archive_entry role unit :
  role ∈ valid_teams →
  locate (request_archive root now role unit) =
  locate (lifecycle_dir root unit) ++ [request_archive_name now role].
Proof.
  intros (? & ? & ?)%(request_archive_name_ok now).
  unfold request_archive. by rewrite locate_child.
Qed.

Lemma locate_response_archive_entry role unit :
  role ∈ valid_teams →
  locate (response_archive root later role unit) =
  locate (lifecycle_dir root unit) ++ [response_archive_name later role].
Proof.
  intros (? & ? & ?)%(response_archive_name_ok later).
  unfold response_archive. by rewrite locate_child.
Qed.

(** X9. A request that was sent can be answered. After a successful
    [send_request], once the worker has written [response.md] in its
    directory, [send_response] for the same role and unit succeeds,
    whatever the clock then reads: the planner finds the response at
    [.plan/response.md], the unit's directory holds the archive copy of
    the response beside the untouched archive copy of the request, and
    the worker's directory holds neither [request.md] nor
    [response.md]. The conditions are on the state before the request:
    no directory stands where one of the five files goes. *)
Theorem request_then_response (σ : fs) (role unit r : string) (w1 : world) :
  run (send_request root now role unit) σ = (Returned true, w1) →
  not_a_directory σ (role_request root role) →
  not_a_directory σ (request_archive root now role unit) →
  not_a_directory σ (role_response root role) →
  not_a_directory σ (plan_response root) →
  not_a_directory σ (response_archive root later role unit) →
  ∃ c w2,
    file_at σ (plan_request root) c ∧
    run (send_response root later role unit)
      (<[locate (role_response root role) := File r]> (disk w1))
      = (Returned true, w2) ∧
    file_at (disk w2) (plan_response root) r ∧
    file_at (disk w2) (response_archive root later role unit) r ∧
    file_at (disk w2) (request_archive root now role unit) c ∧
    path_exists (disk w2) (role_request root role) = false ∧
    path_exists (disk w2) (role_response root role) = false.
Proof.
  intros Hrun Hreq Harch Hresp Hplanr Harch'.
  destruct (send_request_success _ _ _ _ _ _ Hrun)
    as (Hrole & Hu & Hplan & Hunit & Hle).
  destruct (send_request_result _ _ _ _ _ _ Hreq Harch Hrun)
    as (c & Hc & _ & Hreq1 & Harch1).
  destruct (send_request_leaves_responses _ _ _ _ _ _ _ Hrun) as [Hpr Hrr].
  destruct (response_archive_name_head later role) as [rest' Hhead'].
  destruct (request_archive_name_head now role) as [rest Hhead].
  set (k := locate (role_response root role)) in *.
  set (σ2 := <[k := File r]> (disk w1)).
  assert (k ≠ []) as Hk.
  { subst k. rewrite locate_role_response by done.
    by apply workspace_key_ne_nil. }
  assert (locate (plan_response root) ≠ []) as Hkp.
  { rewrite locate_plan_response. by apply workspace_key_ne_nil. }
  assert (not_a_directory (disk w1) (role_response root role)) as Hresp1.
  { unfold not_a_directory. fold k. rewrite node_at_ne_nil, Hrr by done.
    by rewrite <- (node_at_ne_nil σ k). }
  assert (dirs_le (disk w1) σ2) as Hle2
    by (by apply (dirs_le_apply (disk w1) (Write k r))).
  assert (isdir (disk w1) (role_dir root role) = true) as Hrd.
  { apply (parent_isdir _ _ "request.md"); [done..|].
    by apply (file_at_exists _ _ c). }
  assert (file_at σ2 (role_response root role) r) as Hstaged.
  { apply stat_Returned. split.
    - apply (resolve_child σ2 (role_dir root role)); [done..|].
      by apply (isdir_dirs_le (disk w1)).
    - by apply node_at_insert_eq. }
  assert (not_a_directory σ2 (plan_response root)) as Hplanr2.
  { unfold not_a_directory, σ2.
    rewrite node_at_insert_ne by (by apply role_response_ne_plan_response).
    rewrite node_at_ne_nil, Hpr by done.
    by rewrite <- (node_at_ne_nil σ). }
  assert (k ≠ locate (lifecycle_dir root unit) ++
                [response_archive_name later role]) as Hk1.
  { subst k. rewrite locate_role_response, Hhead' by done.
    by apply role_file_ne_unit_entry. }
  assert (k ≠ locate (lifecycle_dir root unit) ++
                [request_archive_name now role]) as Hk2.
  { subst k. rewrite locate_role_response, Hhead by done.
    by apply role_file_ne_unit_entry. }
  assert (∀ name, locate (lifecycle_dir root unit) ++ [name] ≠ []) as Hne.
  { intros name H. by apply app_eq_nil in H as [_ ?]. }
  assert (not_a_directory σ2 (response_archive root later role unit)) as Harch2.
  { unfold not_a_directory, σ2 in *.
    rewrite locate_response_archive_entry in Harch' |- * by done.
    rewrite node_at_insert_ne by done.
    rewrite node_at_ne_nil by done. rewrite Hhead'.
    rewrite (send_request_leaves_unit_entry root now σ role unit (Returned true));
      [|done|].
    - rewrite <- Hhead'. by rewrite <- (node_at_ne_nil σ).
    - rewrite <- Hhead'. apply not_eq_sym, archive_names_differ. }
  assert (not_a_directory σ2 (role_request root role)) as Hreq2.
  { unfold not_a_directory, σ2.
    rewrite node_at_insert_ne
      by (by apply not_eq_sym, role_response_ne_request).
    apply stat_Returned in Hreq1 as [_ ->]. done. }
  destruct (send_response_succeeds root later σ2 role unit r) as [w2 Hrun2];
    try done.
  { apply (isdir_dirs_le (disk w1)); [done|]. by apply (isdir_dirs_le σ). }
  { apply (isdir_dirs_le (disk w1)); [done|]. by apply (isdir_dirs_le σ). }
  exists c, w2. split; [done|]. split; [done|].
  pose proof (keeps_dirs_send_response _ _ _ _ _ _ _ Hrun2) as Hle3.
  cbn [disk] in Hle3.
  pose proof Hrun2 as Hshape.
  apply send_response_shape in Hshape
    as [_ [[Ho _]|(c' & _ & _ & Hc' & _ & _ & Hs)]]; [done|].
  destruct (Hs eq_refl) as (_ & Hgone & Hreqgone & Hto_plan & Hto_arch).
  clear Hs. cbv zeta in Hto_plan, Hto_arch.
  assert (c' = r) as -> by (unfold file_at in *; congruence).
  rewrite (recipient_not_dir σ2 (plan_response root)) in * by done.
  rewrite (recipient_not_dir _ (response_archive root later role unit))
    in Hto_arch by (by apply not_a_directory_insert_file).
  repeat split; try done.
  apply (stat_frame σ2); [done| |].
  - rewrite locate_request_archive_entry by done.
    rewrite !node_at_ne_nil by done. rewrite Hhead.
    apply (send_response_leaves_unit_entry root later σ2 role unit
             (Returned true)); [done|].
    rewrite <- Hhead. apply archive_names_differ.
  - apply (stat_frame (disk w1)); [done| |done].
    unfold σ2. rewrite locate_request_archive_entry by done.
    by rewrite node_at_insert_ne.
Qed.

End RoundTrip.

(* ===================================================================== *)
(** * Runs that meet no symbolic link                                     *)
(* ===================================================================== *)

Section Simulation.

Variable d : list string.












(** ** Worlds *)











(** ** The paths of the two scripts *)




End Simulation.





(* ===================================================================== *)
(** * The theorems at work on the sample workspace                        *)
(* ===================================================================== *)

Lemma run_returns {A} (m : M A) (σ : fs) (a : A) :
  (run m σ).1 = Returned a → run m σ = (Returned a, (run m σ).2).
Proof. destruct (run m σ) as [o w]. cbn. by intros ->. Qed.

(** The request transfer of the end-to-end scenario, on [ready_to_send]:
    the three postconditions hold. *)
Lemma C1_witness :
  ∃ c, file_at ready_to_send (plan_request demo_root) c ∧
       path_exists
         (disk (run (send_request demo_root demo_now "dev" "demo") ready_to_send).2)
         (plan_request demo_root) = false ∧
       file_at
         (disk (run (send_request demo_root demo_now "dev" "demo") ready_to_send).2)
         (role_request demo_root "dev") c ∧
       file_at
         (disk (run (send_request demo_root demo_now "dev" "demo") ready_to_send).2)
         (request_archive demo_root demo_now "dev" "demo") c.
Proof.
  apply (C1_request_delivered demo_root demo_now ready_to_send "dev" "demo").
  - intros H. vm_compute in H. discriminate H.
  - intros H. vm_compute in H. discriminate H.
  - apply run_returns. vm_compute. reflexivity.
Defined.

(** With a directory at [.dev/request.md] the run succeeds, the copy goes
    inside that directory, and the postcondition of the specification
    fails: no file with the staged text is at [.dev/request.md]. *)
Lemma C1_counterexample :
  wf inbox_is_a_directory ∧
  ∃ w, run (send_request demo_root demo_now "dev" "demo") inbox_is_a_directory
         = (Returned true, w) ∧
       stat (disk w) (role_request demo_root "dev") = Returned Dir ∧
       file_at (disk w) (role_request demo_root "dev" // "request.md") demo_text ∧
       ¬ request_postcondition demo_root inbox_is_a_directory "dev" "demo" w.
Proof.
  split; [apply (bool_decide_unpack _); by vm_compute|].
  eexists. split; [apply run_returns; vm_compute; reflexivity|].
  split; [vm_compute; reflexivity|]. split; [vm_compute; reflexivity|].
  intros (_ & c & _ & Hdest & _). unfold file_at in Hdest.
  vm_compute in Hdest. discriminate Hdest.
Qed.

(** The response transfer of the end-to-end scenario, on
    [ready_to_respond]. *)
Lemma C2_witness :
  ∃ c, file_at ready_to_respond (role_response demo_root "dev") c ∧
       path_exists
         (disk (run (send_response demo_root demo_now "dev" "demo") ready_to_respond).2)
         (role_response demo_root "dev") = false ∧
       file_at
         (disk (run (send_response demo_root demo_now "dev" "demo") ready_to_respond).2)
         (plan_response demo_root) c ∧
       path_exists
         (disk (run (send_response demo_root demo_now "dev" "demo") ready_to_respond).2)
         (response_archive demo_root demo_now "dev" "demo") = true ∧
       (not_a_directory ready_to_respond
          (response_archive demo_root demo_now "dev" "demo") →
        file_at
          (disk (run (send_response demo_root demo_now "dev" "demo") ready_to_respond).2)
          (response_archive demo_root demo_now "dev" "demo") c) ∧
       path_exists
         (disk (run (send_response demo_root demo_now "dev" "demo") ready_to_respond).2)
         (role_request demo_root "dev") = false.
Proof.
  apply (C2_response_delivered demo_root demo_now ready_to_respond "dev" "demo").
  - intros H. vm_compute in H. discriminate H.
  - apply run_returns. vm_compute. reflexivity.
Defined.

(** With a directory at [.plan/response.md] the run succeeds, the copy
    goes inside that directory, and [.plan/response.md] does not have the
    staged text. *)
Lemma C2_counterexample :
  wf planner_inbox_is_a_directory ∧
  ∃ w, run (send_response demo_root demo_now "dev" "demo")
         planner_inbox_is_a_directory = (Returned true, w) ∧
       stat (disk w) (plan_response demo_root) = Returned Dir ∧
       file_at (disk w) (plan_response demo_root // "response.md") "done" ∧
       ¬ response_postcondition demo_root planner_inbox_is_a_directory
           "dev" "demo" w.
Proof.
  split; [apply (bool_decide_unpack _); by vm_compute|].
  eexists. split; [apply run_returns; vm_compute; reflexivity|].
  split; [vm_compute; reflexivity|]. split; [vm_compute; reflexivity|].
  intros (_ & (c & _ & Hdest) & _). unfold file_at in Hdest.
  vm_compute in Hdest. discriminate Hdest.
Qed.

(** A role that is not one of the four: both operations refuse. *)
Lemma C3_witness :
  run (send_request demo_root demo_now "ops" "demo") ready_to_send =
    (Returned false, {| disk := ready_to_send; trail := [] |}) ∧
  run (send_response demo_root demo_now "ops" "demo") ready_to_send =
    (Returned false, {| disk := ready_to_send; trail := [] |}).
Proof.
  apply (C3_invalid_arguments_rejected demo_root demo_now ready_to_send
           "ops" "demo").
  left. apply (bool_decide_unpack _). vm_compute. exact I.
Defined.

(** A staged request that does not mention the requirements file. *)
Lemma C4_witness :
  run (send_request demo_root demo_now "dev" "demo") unreferenced_request =
    (Returned false, {| disk := unreferenced_request; trail := [] |}).
Proof.
  apply (C4_reference_required demo_root demo_now unreferenced_request
           "dev" "demo" "please add a dark mode").
  - vm_compute. reflexivity.
  - vm_compute. reflexivity.
Defined.

(** A well-formed staged request for a unit without requirements file. *)
Lemma C5_witness :
  file_at no_requirements (plan_request demo_root) demo_text ∧
  str_in (expected_reference "demo") demo_text = true ∧
  run (send_request demo_root demo_now "dev" "demo") no_requirements =
    (Returned false, {| disk := no_requirements; trail := [] |}).
Proof.
  split; [vm_compute; reflexivity|]. split; [vm_compute; reflexivity|].
  apply (C5_requirements_required demo_root demo_now no_requirements
           "dev" "demo").
  vm_compute. reflexivity.
Defined.

(** A response for a unit without requirements file goes through, also
    with a directory in the place of [.plan/response.md], and a request
    on the same states does not. *)
Lemma C6_witness :
  ((∃ w, run (send_response demo_root demo_now "dev" "demo")
           respond_without_requirements = (Returned true, w)) ∧
   (path_exists respond_without_requirements
      (requirements_file demo_root "demo") = false →
    run (send_request demo_root demo_now "dev" "demo")
      respond_without_requirements =
      (Returned false,
       {| disk := respond_without_requirements; trail := [] |}))) ∧
  ((∃ w, run (send_response demo_root demo_now "dev" "demo")
           response_into_a_directory = (Returned true, w)) ∧
   (path_exists response_into_a_directory
      (requirements_file demo_root "demo") = false →
    run (send_request demo_root demo_now "dev" "demo")
      response_into_a_directory =
      (Returned false, {| disk := response_into_a_directory; trail := [] |}))).
Proof.
  split.
  - apply (C6_response_needs_no_requirements demo_root demo_now
             respond_without_requirements "dev" "demo" "done").
    + apply (bool_decide_unpack _). vm_compute. exact I.
    + vm_compute. reflexivity.
    + vm_compute. reflexivity.
    + vm_compute. reflexivity.
    + vm_compute. reflexivity.
    + intros H. vm_compute in H. discriminate H.
    + intros H. vm_compute in H. discriminate H.
    + intros H. vm_compute in H. discriminate H.
  - apply (C6_response_needs_no_requirements demo_root demo_now
             response_into_a_directory "dev" "demo" "done").
    + apply (bool_decide_unpack _). vm_compute. exact I.
    + vm_compute. reflexivity.
    + vm_compute. reflexivity.
    + vm_compute. reflexivity.
    + vm_compute. reflexivity.
    + intros H. vm_compute in H. discriminate H.
    + intros H. vm_compute in H. discriminate H.
    + intros H. vm_compute in H. discriminate H.
Defined.

(** The stated preconditions do not make the run succeed. Without a
    [.plan] directory they all hold and the run ends in
    [FileNotFoundError] at the first copy, nothing done. With a directory
    at [.dev/request.md] they all hold and the run ends in an exception
    at the last removal. With a directory where the first copy is
    written they all hold and the run ends in [IsADirectoryError],
    nothing done. *)
Lemma C6_counterexample :
  (wf no_planner_directory ∧
   response_preconditions demo_root no_planner_directory "dev" "demo" ∧
   (run (send_response demo_root demo_now "dev" "demo") no_planner_directory).1
     = Raised FileNotFoundError ∧
   trail (run (send_response demo_root demo_now "dev" "demo")
            no_planner_directory).2 = []) ∧
  (wf stale_request_directory ∧
   response_preconditions demo_root stale_request_directory "dev" "demo" ∧
   (run (send_response demo_root demo_now "dev" "demo")
      stale_request_directory).1 = Raised IsADirectoryError) ∧
  (wf copy_target_is_a_directory ∧
   response_preconditions demo_root copy_target_is_a_directory "dev" "demo" ∧
   (run (send_response demo_root demo_now "dev" "demo")
      copy_target_is_a_directory).1 = Raised IsADirectoryError ∧
   trail (run (send_response demo_root demo_now "dev" "demo")
            copy_target_is_a_directory).2 = []).
Proof.
  assert (∀ st, wf st →
            bool_decide ("dev" ∈ valid_teams) = true →
            bad_folder_name "demo" = false →
            stat st (role_response demo_root "dev") = Returned (File "done") →
            isdir st (lifecycle_dir demo_root "demo") = true →
            path_exists st (requirements_file demo_root "demo") = false →
            wf st ∧ response_preconditions demo_root st "dev" "demo") as Hpre.
  { intros st Hwf Hrole Hu Hc Hd Hr. split; [done|].
    split; [by apply bool_decide_eq_true in Hrole|].
    split; [done|]. split; [by exists "done"|]. done. }
  split; [|split].
  - destruct (Hpre no_planner_directory) as [Hw Hp];
      try (vm_compute; reflexivity).
    { apply (bool_decide_unpack _). by vm_compute. }
    split; [done|]. split; [done|]. split; vm_compute; reflexivity.
  - destruct (Hpre stale_request_directory) as [Hw Hp];
      try (vm_compute; reflexivity).
    { apply (bool_decide_unpack _). by vm_compute. }
    split; [done|]. split; [done|]. vm_compute. reflexivity.
  - destruct (Hpre copy_target_is_a_directory) as [Hw Hp];
      try (vm_compute; reflexivity).
    { apply (bool_decide_unpack _). by vm_compute. }
    split; [done|]. split; [done|]. split; vm_compute; reflexivity.
Qed.



(** Sending the response of [ready_to_respond] a second time, a little
    later. *)
Lemma C9_witness :
  run (send_response demo_root demo_later "dev" "demo")
    (disk (run (send_response demo_root demo_now "dev" "demo") ready_to_respond).2)
  = (Returned false,
     {| disk := disk (run (send_response demo_root demo_now "dev" "demo")
                        ready_to_respond).2;
        trail := [] |}).
Proof.
  apply (C9_rerun_fails_cleanly demo_root demo_now demo_later
           ready_to_respond "dev" "demo").
  apply run_returns. vm_compute. reflexivity.
Defined.




(** The planner's directory is still a directory after the request
    transfer on [ready_to_send]. *)
Lemma transfers_keep_directories_witness :
  node_at ready_to_send (demo_root ++ [".plan"]) = Some Dir ∧
  node_at
    (disk (run (send_request demo_root demo_now "dev" "demo") ready_to_send).2)
    (demo_root ++ [".plan"]) = Some Dir.
Proof.
  split; [vm_compute; reflexivity|].
  apply (transfers_keep_directories demo_root demo_now ready_to_send
           "dev" "demo" (Returned true)).
  - left. apply run_returns. vm_compute. reflexivity.
  - vm_compute. reflexivity.
Defined.

(** The refused request of [unreferenced_request] left everything as it
    was. *)
Lemma false_means_untouched_witness :
  (run (send_request demo_root demo_now "dev" "demo") unreferenced_request).2
  = {| disk := unreferenced_request; trail := [] |}.
Proof.
  apply (false_means_untouched demo_root demo_now unreferenced_request
           "dev" "demo").
  left. apply run_returns. vm_compute. reflexivity.
Defined.

(** The request transfer on [ready_to_send] leaves the requirements file
    alone. *)
Lemma send_request_touches_only_witness :
  disk (run (send_request demo_root demo_now "dev" "demo") ready_to_send).2
    !! (demo_root ++ [".lifecycle"; "demo"; "requirements.md"])
  = ready_to_send !! (demo_root ++ [".lifecycle"; "demo"; "requirements.md"]).
Proof.
  apply (send_request_touches_only demo_root demo_now ready_to_send
           "dev" "demo" (Returned true)).
  - apply run_returns. vm_compute. reflexivity.
  - apply (bool_decide_unpack _). vm_compute. exact I.
  - unfold inside. apply (bool_decide_unpack _). vm_compute. exact I.
  - unfold inside. apply (bool_decide_unpack _). vm_compute. exact I.
  - apply (bool_decide_unpack _). vm_compute. exact I.
Defined.

(** The response transfer on [ready_to_respond] leaves the requirements
    file alone. *)
Lemma send_response_touches_only_witness :
  disk (run (send_response demo_root demo_now "dev" "demo") ready_to_respond).2
    !! (demo_root ++ [".lifecycle"; "demo"; "requirements.md"])
  = ready_to_respond !! (demo_root ++ [".lifecycle"; "demo"; "requirements.md"]).
Proof.
  apply (send_response_touches_only demo_root demo_now ready_to_respond
           "dev" "demo" (Returned true)).
  - apply run_returns. vm_compute. reflexivity.
  - unfold inside. apply (bool_decide_unpack _). vm_compute. exact I.
  - unfold inside. apply (bool_decide_unpack _). vm_compute. exact I.
  - apply (bool_decide_unpack _). vm_compute. exact I.
  - apply (bool_decide_unpack _). vm_compute. exact I.
Defined.

(** The request refused for want of requirements is still staged. *)
Lemma unsent_request_stays_staged_witness :
  file_at no_requirements (plan_request demo_root) demo_text ∧
  file_at
    (disk (run (send_request demo_root demo_now "dev" "demo") no_requirements).2)
    (plan_request demo_root) demo_text.
Proof.
  split; [vm_compute; reflexivity|].
  apply (unsent_request_stays_staged demo_root demo_now no_requirements
           "dev" "demo" demo_text (Returned false)).
  - apply run_returns. vm_compute. reflexivity.
  - discriminate.
  - vm_compute. reflexivity.
Defined.

(** A unit nobody registered. *)
Lemma missing_unit_directory_rejected_witness :
  run (send_request demo_root demo_now "dev" "ghost") ready_to_send =
    (Returned false, {| disk := ready_to_send; trail := [] |}) ∧
  run (send_response demo_root demo_now "dev" "ghost") ready_to_send =
    (Returned false, {| disk := ready_to_send; trail := [] |}).
Proof.
  apply (missing_unit_directory_rejected demo_root demo_now ready_to_send
           "dev" "ghost").
  vm_compute. reflexivity.
Defined.

(** Sending the request of [ready_to_send] a second time, to another
    worker, a little later. *)
Lemma sent_request_cannot_be_resent_witness :
  run (send_request demo_root demo_later "test" "demo")
    (disk (run (send_request demo_root demo_now "dev" "demo") ready_to_send).2)
  = (Returned false,
     {| disk := disk (run (send_request demo_root demo_now "dev" "demo")
                        ready_to_send).2;
        trail := [] |}).
Proof.
  apply (sent_request_cannot_be_resent demo_root demo_now demo_later
           ready_to_send "dev" "demo" "test" "demo").
  apply run_returns. vm_compute. reflexivity.
Defined.

(** [ready_to_send] meets every condition: the request goes out and the
    worker's directory is made. *)
Lemma send_request_guaranteed_witness :
  ∃ w, run (send_request demo_root demo_now "dev" "demo") ready_to_send
         = (Returned true, w) ∧
       isdir (disk w) (role_dir demo_root "dev") = true ∧
       file_at (disk w) (role_request demo_root "dev") demo_text.
Proof.
  apply (send_request_guaranteed demo_root demo_now ready_to_send
           "dev" "demo" demo_text).
  - apply (bool_decide_unpack _). vm_compute. exact I.
  - vm_compute. reflexivity.
  - vm_compute. reflexivity.
  - vm_compute. reflexivity.
  - vm_compute. reflexivity.
  - intros c' H. vm_compute in H. discriminate H.
  - intros H. vm_compute in H. discriminate H.
  - intros H. vm_compute in H. discriminate H.
Defined.

(** The scenario's request, answered with ["done"] a little later. *)
Lemma request_then_response_witness :
  ∃ c w2,
    file_at ready_to_send (plan_request demo_root) c ∧
    run (send_response demo_root demo_later "dev" "demo")
      (<[locate (role_response demo_root "dev") := File "done"]>
         (disk (run (send_request demo_root demo_now "dev" "demo")
                  ready_to_send).2))
      = (Returned true, w2) ∧
    file_at (disk w2) (plan_response demo_root) "done" ∧
    file_at (disk w2) (response_archive demo_root demo_later "dev" "demo") "done" ∧
    file_at (disk w2) (request_archive demo_root demo_now "dev" "demo") c ∧
    path_exists (disk w2) (role_request demo_root "dev") = false ∧
    path_exists (disk w2) (role_response demo_root "dev") = false.
Proof.
  apply (request_then_response demo_root demo_now demo_later ready_to_send
           "dev" "demo" "done").
  - apply run_returns. vm_compute. reflexivity.
  - intros H. vm_compute in H. discriminate H.
  - intros H. vm_compute in H. discriminate H.
  - intros H. vm_compute in H. discriminate H.
  - intros H. vm_compute in H. discriminate H.
  - intros H. vm_compute in H. discriminate H.
Defined.

(** [python3 send_request.py dev demo] on [ready_to_send] exits with 0. *)
Lemma send_request_main_status_witness :
  (length ["send_request.py"; "dev"; "demo"] ≠ 3 →
   Returned 0 = Returned 1 ∧
   (run (send_request_main demo_root demo_now
           ["send_request.py"; "dev"; "demo"]) ready_to_send).2
   = {| disk := ready_to_send; trail := [] |}) ∧
  (exit_status (Returned 0) = 0 ↔
   length ["send_request.py"; "dev"; "demo"] = 3 ∧
   run (send_request demo_root demo_now "dev" "demo") ready_to_send =
     (Returned true,
      (run (send_request_main demo_root demo_now
              ["send_request.py"; "dev"; "demo"]) ready_to_send).2)) ∧
  (exit_status (Returned 0) ≠ 0 →
   ∀ c, file_at ready_to_send (plan_request demo_root) c →
        file_at
          (disk (run (send_request_main demo_root demo_now
                        ["send_request.py"; "dev"; "demo"]) ready_to_send).2)
          (plan_request demo_root) c).
Proof.
  apply (send_request_main_status demo_root demo_now
           ["send_request.py"; "dev"; "demo"] ready_to_send (Returned 0)).
  apply run_returns. vm_compute. reflexivity.
Defined.

(** [python3 send_response.py dev demo] on [ready_to_respond] exits
    with 0. *)
Lemma send_response_main_status_witness :
  (length ["send_response.py"; "dev"; "demo"] ≠ 3 →
   Returned 0 = Returned 1 ∧
   (run (send_response_main demo_root demo_now
           ["send_response.py"; "dev"; "demo"]) ready_to_respond).2
   = {| disk := ready_to_respond; trail := [] |}) ∧
  (exit_status (Returned 0) = 0 ↔
   length ["send_response.py"; "dev"; "demo"] = 3 ∧
   run (send_response demo_root demo_now "dev" "demo") ready_to_respond =
     (Returned true,
      (run (send_response_main demo_root demo_now
              ["send_response.py"; "dev"; "demo"]) ready_to_respond).2)) ∧
  (exit_status (Returned 0) = 0 →
   path_exists
     (disk (run (send_response_main demo_root demo_now
                   ["send_response.py"; "dev"; "demo"]) ready_to_respond).2)
     (role_response demo_root "dev") = false ∧
   path_exists
     (disk (run (send_response_main demo_root demo_now
                   ["send_response.py"; "dev"; "demo"]) ready_to_respond).2)
     (role_request demo_root "dev") = false).
Proof.
  apply (send_response_main_status demo_root demo_now
           ["send_response.py"; "dev"; "demo"] ready_to_respond (Returned 0)).
  apply run_returns. vm_compute. reflexivity.
Defined.

(** With a file called [.dev] in the project root the request is not
    sent. *)
Lemma worker_directory_is_a_file_witness :
  run (send_request demo_root demo_now "dev" "demo") worker_directory_taken =
    (Raised FileExistsError, {| disk := worker_directory_taken; trail := [] |}).
Proof.
  apply (worker_directory_is_a_file demo_root demo_now worker_directory_taken
           "dev" "demo" demo_text "notes").
  - apply (bool_decide_unpack _). vm_compute. exact I.
  - vm_compute. reflexivity.
  - vm_compute. reflexivity.
  - vm_compute. reflexivity.
  - vm_compute. reflexivity.
  - vm_compute. reflexivity.
Defined.

(** Without [.plan] the staged response of [no_planner_directory] is not
    delivered. *)
Lemma missing_plan_directory_raises_witness :
  run (send_response demo_root demo_now "dev" "demo") no_planner_directory =
    (Raised FileNotFoundError, {| disk := no_planner_directory; trail := [] |}).
Proof.
  apply (missing_plan_directory_raises demo_root demo_now no_planner_directory
           "dev" "demo" "done").
  - apply (bool_decide_unpack _). vm_compute. exact I.
  - vm_compute. reflexivity.
  - vm_compute. reflexivity.
  - vm_compute. reflexivity.
  - vm_compute. reflexivity.
Defined.

(** On [stale_request_directory] the response reaches the planner and
    the run still ends in an exception. *)
Lemma response_delivered_before_failure_witness :
  ∃ e w, run (send_response demo_root demo_now "dev" "demo")
           stale_request_directory = (Raised e, w) ∧
         file_at (disk w) (plan_response demo_root) "done" ∧
         file_at (disk w) (response_archive demo_root demo_now "dev" "demo")
           "done" ∧
         path_exists (disk w) (role_response demo_root "dev") = false.
Proof.
  apply (response_delivered_before_failure demo_root demo_now
           stale_request_directory "dev" "demo" "done").
  - apply (bool_decide_unpack _). vm_compute. exact I.
  - vm_compute. reflexivity.
  - vm_compute. reflexivity.
  - vm_compute. reflexivity.
  - vm_compute. reflexivity.
  - intros H. vm_compute in H. discriminate H.
  - intros H. vm_compute in H. discriminate H.
  - vm_compute. reflexivity.
Defined.

(** A request for the unit [..] is archived in [/srv/proj] itself. *)
Lemma parent_unit_archives_in_project_root_witness :
  is_Some (request_for_parent_unit !! (demo_root ++ ["requirements.md"])) ∧
  ∃ c, file_at request_for_parent_unit (plan_request demo_root) c ∧
       (disk (run (send_request demo_root demo_now "dev" "..")
                request_for_parent_unit).2
          !! (demo_root ++ [request_archive_name demo_now "dev"])
        = Some (File c) ∨
        (disk (run (send_request demo_root demo_now "dev" "..")
                 request_for_parent_unit).2
           !! (demo_root ++ [request_archive_name demo_now "dev"])
         = Some Dir ∧
         disk (run (send_request demo_root demo_now "dev" "..")
                 request_for_parent_unit).2
           !! (demo_root ++ [request_archive_name demo_now "dev"; "request.md"])
         = Some (File c))).
Proof.
  apply (parent_unit_archives_in_project_root demo_root demo_now
           request_for_parent_unit "dev").
  apply run_returns. vm_compute. reflexivity.
Defined.

(** The end-to-end scenario: the request goes out, the worker stages a
    response, the response comes back. Afterwards the planner holds the
    response, the worker's directory holds neither file, and the unit's
    directory holds the requirements and the two archive copies. *)
Example end_to_end_scenario :
  ∃ w1 w2,
    run (send_request demo_root demo_now "dev" "demo") ready_to_send
      = (Returned true, w1) ∧
    trail w1 =
      [ Mkdir ["srv"; "proj"; ".dev"];
        Write ["srv"; "proj"; ".dev"; "request.md"] demo_text;
        Write ["srv"; "proj"; ".lifecycle"; "demo";
               "20250307_090542_request_to_dev.md"] demo_text;
        Unlink ["srv"; "proj"; ".plan"; "request.md"] ] ∧
    run (send_response demo_root demo_later "dev" "demo")
      (<[demo_root ++ [".dev"; "response.md"] := File "done"]> (disk w1))
      = (Returned true, w2) ∧
    trail w2 =
      [ Write ["srv"; "proj"; ".plan"; "response.md"] "done";
        Write ["srv"; "proj"; ".lifecycle"; "demo";
               "20250307_090610_response_from_dev.md"] "done";
        Unlink ["srv"; "proj"; ".dev"; "response.md"];
        Unlink ["srv"; "proj"; ".dev"; "request.md"] ] ∧
    size (disk w2) = 10 ∧
    Forall (λ entry, disk w2 !! entry.1 = Some entry.2)
      (demo_dirs ++
        [ demo_requirements;
          (["srv"; "proj"; ".dev"], Dir);
          (["srv"; "proj"; ".plan"; "response.md"], File "done");
          (["srv"; "proj"; ".lifecycle"; "demo";
            "20250307_090542_request_to_dev.md"], File demo_text);
          (["srv"; "proj"; ".lifecycle"; "demo";
            "20250307_090610_response_from_dev.md"], File "done") ]).
Proof.
  eexists. eexists.
  split; [apply run_returns; vm_compute; reflexivity|].
  split; [vm_compute; reflexivity|].
  split; [apply run_returns; vm_compute; reflexivity|].
  split; [vm_compute; reflexivity|].
  split; [vm_compute; reflexivity|].
  apply (bool_decide_unpack _). vm_compute. exact I.
Qed.
